(** * Student Management System API: the two FastAPI back ends

    A shallow embedding of [main.py] (the variant that hashes credentials and
    restricts course creation to admins) and of [backend/main.py] (the earlier
    variant built on the pydantic models of [backend/schemas.py]), together
    with the properties their specification states about them.

    Both programs are request handlers over a MongoDB database.  A handler is
    embedded as a computation in a state-and-exception monad over the
    database: a [raise] keeps the writes made before it, as the driver does.
    Documents are dictionaries from field names to BSON scalars; a collection
    is the list of its documents in insertion order, which is the order in
    which [find] and [find_one] scan it. *)

From Stdlib Require Import List String Ascii ZArith NArith Bool Lia Floats.
From Stdlib Require Import Permutation Sorted.
Import ListNotations.
Open Scope string_scope.
Open Scope Z_scope.

(** ** Python strings *)

Module PyStr.

(** [str.isspace] on the code points below 256. *)
Definition isspace (c : ascii) : bool :=
  let n := nat_of_ascii c in
  ((9 <=? n) && (n <=? 13) || (28 <=? n) && (n <=? 32)
   || (n =? 133) || (n =? 160))%nat.

Fixpoint lstrip (s : string) : string :=
  match s with
  | String c r => if isspace c then lstrip r else s
  | EmptyString => EmptyString
  end.

Fixpoint rstrip (s : string) : string :=
  match s with
  | EmptyString => EmptyString
  | String c r =>
      match rstrip r with
      | EmptyString => if isspace c then EmptyString else String c EmptyString
      | r' => String c r'
      end
  end.

(** [s.strip()] *)
Definition strip (s : string) : string := rstrip (lstrip s).

(** [s.startswith(p)] *)
Definition startswith (p s : string) : bool := String.prefix p s.

(** [s.replace(old, "")] for a non-empty [old]: the occurrences of [old]
    are removed left to right, without overlap.  [skip] counts the
    characters of the current occurrence still to drop. *)
Fixpoint remove_from (old : string) (skip : nat) (s : string) : string :=
  match s with
  | EmptyString => EmptyString
  | String c r =>
      match skip with
      | S k => remove_from old k r
      | O =>
          if String.prefix old s
          then remove_from old (String.length old - 1) r
          else String c (remove_from old O r)
      end
  end.

Definition remove_all (old s : string) : string := remove_from old O s.

(** [s.split(" ", 1)[1]]: what follows the first space, [None] (an
    [IndexError]) when there is no space. *)
Fixpoint after_first_space (s : string) : option string :=
  match s with
  | EmptyString => None
  | String c r => if Ascii.eqb c " "%char then Some r else after_first_space r
  end.

End PyStr.

(** ** BSON values, ObjectIds and documents *)

(** An ObjectId is kept as its [str()]: 24 lower-case hexadecimal digits. *)
Definition oid := string.

Module Bson.

Definition is_hex (c : ascii) : bool :=
  let n := nat_of_ascii c in
  ((48 <=? n) && (n <=? 57) || (65 <=? n) && (n <=? 70)
   || (97 <=? n) && (n <=? 102))%nat.

Definition lower (c : ascii) : ascii :=
  let n := nat_of_ascii c in
  if ((65 <=? n) && (n <=? 90))%nat then ascii_of_nat (n + 32) else c.

Fixpoint all_hex (s : string) : bool :=
  match s with
  | EmptyString => true
  | String c r => is_hex c && all_hex r
  end.

Fixpoint lowercase (s : string) : string :=
  match s with
  | EmptyString => EmptyString
  | String c r => String (lower c) (lowercase r)
  end.

(** [ObjectId(s)] for a string [s]: 24 hexadecimal digits, in either case;
    anything else raises [InvalidId], here [None]. *)
Definition ObjectId (s : string) : option oid :=
  if ((String.length s =? 24)%nat && all_hex s)%bool
  then Some (lowercase s) else None.

Definition hex_digit (n : N) : ascii :=
  ascii_of_N (if (n <? 10)%N then 48 + n else 87 + n)%N.

Fixpoint hex_width (w : nat) (n : N) (acc : string) : string :=
  match w with
  | O => acc
  | S w' => hex_width w' (n / 16)%N (String (hex_digit (n mod 16)%N) acc)
  end.

(** The identifier the driver generates for the [n]-th inserted document. *)
Definition nth_oid (n : N) : oid := hex_width 24 n EmptyString.

End Bson.

Inductive value : Type :=
| VNull
| VBool (b : bool)
| VInt (z : Z)
| VFloat (f : float)
| VStr (s : string)
| VDate (t : Z)          (* a datetime, in microseconds since the epoch *)
| VOid (o : oid).

(** Equality of a query value and a stored value.  The queries of the two
    programs compare strings, identifiers and dates; numbers of different
    BSON types, which the server would compare by value, do not occur in
    them. *)
Definition value_eqb (a b : value) : bool :=
  match a, b with
  | VNull, VNull => true
  | VBool x, VBool y => Bool.eqb x y
  | VInt x, VInt y => Z.eqb x y
  | VFloat x, VFloat y => PrimFloat.eqb x y
  | VStr x, VStr y => String.eqb x y
  | VDate x, VDate y => Z.eqb x y
  | VOid x, VOid y => String.eqb x y
  | _, _ => false
  end.

(** A Python dict with string keys, in insertion order. *)
Definition dict := list (string * value).

Fixpoint get (k : string) (d : dict) : option value :=
  match d with
  | [] => None
  | (k', v) :: r => if String.eqb k k' then Some v else get k r
  end.


(** [d.get(k, default)] *)
Definition get_default (k : string) (default : value) (d : dict) : value :=
  match get k d with Some v => v | None => default end.

(** A stored document: the [_id] the driver gave it and its other fields. *)
Record doc := Doc { doc_id : oid; doc_fields : dict }.

Definition doc_get (k : string) (d : doc) : option value :=
  if String.eqb k "_id" then Some (VOid (doc_id d)) else get k (doc_fields d).

(** The document as the driver hands it to Python, and with [_id] replaced by
    its string form ([doc["_id"] = str(doc["_id"])]). *)
Definition as_dict (d : doc) : dict := ("_id", VOid (doc_id d)) :: doc_fields d.
Definition stringify_id (d : doc) : dict := ("_id", VStr (doc_id d)) :: doc_fields d.

(** ** Queries *)

Inductive cond : Type :=
| Is (v : value)              (* {"k": v} *)
| GtDate (t : Z)              (* {"k": {"$gt": <datetime>}} *)
| InOids (os : list oid).     (* {"k": {"$in": [<ObjectId>, ...]}} *)

Definition query := list (string * cond).

Definition cond_holds (c : cond) (field : option value) : bool :=
  match c, field with
  | Is VNull, None => true
  | Is v, Some w => value_eqb v w
  | GtDate t, Some (VDate u) => t <? u
  | InOids os, Some (VOid o) => existsb (String.eqb o) os
  | _, _ => false
  end.

Definition matches (q : query) (d : doc) : bool :=
  forallb (fun kc => cond_holds (snd kc) (doc_get (fst kc) d)) q.

(** ** The database *)

Inductive cname := Student | Session | Course | Enrollment | Attendance | Grade | Announcement.

Record DB := mkDB {
  student : list doc;
  session : list doc;
  course : list doc;
  enrollment : list doc;
  attendance : list doc;
  grade : list doc;
  announcement : list doc;
  next_oid : N
}.

Definition empty_db : DB := mkDB [] [] [] [] [] [] [] 0.

Definition coll (c : cname) (db : DB) : list doc :=
  match c with
  | Student => student db
  | Session => session db
  | Course => course db
  | Enrollment => enrollment db
  | Attendance => attendance db
  | Grade => grade db
  | Announcement => announcement db
  end.

(** Appends [ds] to collection [c] and advances the identifier counter to [n]. *)
Definition push (c : cname) (ds : list doc) (n : N) (db : DB) : DB :=
  match c with
  | Student => mkDB (student db ++ ds) (session db) (course db) (enrollment db) (attendance db) (grade db) (announcement db) n
  | Session => mkDB (student db) (session db ++ ds) (course db) (enrollment db) (attendance db) (grade db) (announcement db) n
  | Course => mkDB (student db) (session db) (course db ++ ds) (enrollment db) (attendance db) (grade db) (announcement db) n
  | Enrollment => mkDB (student db) (session db) (course db) (enrollment db ++ ds) (attendance db) (grade db) (announcement db) n
  | Attendance => mkDB (student db) (session db) (course db) (enrollment db) (attendance db ++ ds) (grade db) (announcement db) n
  | Grade => mkDB (student db) (session db) (course db) (enrollment db) (attendance db) (grade db ++ ds) (announcement db) n
  | Announcement => mkDB (student db) (session db) (course db) (enrollment db) (attendance db) (grade db) (announcement db ++ ds) n
  end.

(** ** Handlers: state over the database, with exceptions *)

Inductive exn : Type :=
| HTTPException (status_code : Z) (detail : string)
| InvalidId             (* bson.errors.InvalidId *)
| ValidationError       (* pydantic *)
| KeyError (k : string)
| IndexError
| TypeError
| OverflowError
| ZeroDivisionError.

Inductive res (A : Type) : Type :=
| Ret (a : A)
| Raise (e : exn).
Arguments Ret {A} a.
Arguments Raise {A} e.

Definition M (A : Type) : Type := DB -> res A * DB.

Definition ret {A} (a : A) : M A := fun db => (Ret a, db).
Definition raise {A} (e : exn) : M A := fun db => (Raise e, db).
Definition bind {A B} (m : M A) (k : A -> M B) : M B :=
  fun db =>
    match m db with
    | (Ret a, db') => k a db'
    | (Raise e, db') => (Raise e, db')
    end.

Declare Scope handler_scope.
Delimit Scope handler_scope with handler.
Notation "x <- m ;; k" := (bind m (fun x => k))
  (at level 100, m at next level, right associativity) : handler_scope.
Notation "m ;; k" := (bind m (fun _ => k))
  (at level 100, right associativity) : handler_scope.
Open Scope handler_scope.

(** ** The order in which the server sorts values

    [sort] compares the values of the sort key in the BSON comparison order:
    first by kind (null or missing, numbers, strings, ObjectIds, booleans,
    dates), then within the kind.  Numbers are compared by their exact
    value, ints and doubles alike, with NaN below every number. *)
Module BsonOrder.

(** A number as the server compares it; [Fin m e] is [m * 2^e]. *)
Inductive num : Type := NaN | NegInf | Fin (m e : Z) | PosInf.

Definition num_of_float (f : float) : num :=
  match Prim2SF f with
  | S754_nan => NaN
  | S754_zero _ => Fin 0 0
  | S754_infinity false => PosInf
  | S754_infinity true => NegInf
  | S754_finite false m e => Fin (Zpos m) e
  | S754_finite true m e => Fin (Zneg m) e
  end.

Definition compare_num (a b : num) : comparison :=
  match a, b with
  | NaN, NaN => Eq
  | NaN, _ => Lt
  | _, NaN => Gt
  | NegInf, NegInf => Eq
  | NegInf, _ => Lt
  | _, NegInf => Gt
  | PosInf, PosInf => Eq
  | PosInf, _ => Gt
  | _, PosInf => Lt
  | Fin m1 e1, Fin m2 e2 =>
      let e := Z.min e1 e2 in
      Z.compare (m1 * 2 ^ (e1 - e)) (m2 * 2 ^ (e2 - e))
  end.

(** The rank of the kind of a field; a missing field sorts as null. *)
Definition kind (v : option value) : Z :=
  match v with
  | None | Some VNull => 2
  | Some (VInt _) | Some (VFloat _) => 3
  | Some (VStr _) => 4
  | Some (VOid _) => 8
  | Some (VBool _) => 9
  | Some (VDate _) => 10
  end.

Definition as_num (v : value) : num :=
  match v with
  | VInt z => Fin z 0
  | VFloat f => num_of_float f
  | _ => NaN
  end.

Definition compare (a b : option value) : comparison :=
  match Z.compare (kind a) (kind b) with
  | Eq =>
      match a, b with
      | Some (VStr x), Some (VStr y) => String.compare x y
      | Some (VOid x), Some (VOid y) => String.compare x y
      | Some (VBool x), Some (VBool y) => Bool.compare x y
      | Some (VDate x), Some (VDate y) => Z.compare x y
      | Some (VInt _ as x), Some y | Some (VFloat _ as x), Some y =>
          compare_num (as_num x) (as_num y)
      | _, _ => Eq
      end
  | c => c
  end.

End BsonOrder.

(** The driver calls that the handlers make. *)
Module Mongo.

Definition find_docs (q : query) (ds : list doc) : list doc := filter (matches q) ds.
Definition first_doc (q : query) (ds : list doc) : option doc := List.find (matches q) ds.

Definition find (c : cname) (q : query) : M (list doc) :=
  fun db => (Ret (find_docs q (coll c db)), db).

Definition find_one (c : cname) (q : query) : M (option doc) :=
  fun db => (Ret (first_doc q (coll c db)), db).

Definition count_documents (c : cname) (q : query) : M nat :=
  fun db => (Ret (List.length (find_docs q (coll c db))), db).

Definition insert_one (c : cname) (fields : dict) : M oid :=
  fun db =>
    let o := Bson.nth_oid (next_oid db) in
    (Ret o, push c [Doc o fields] (next_oid db + 1)%N db).

Fixpoint number (n : N) (ds : list dict) : list doc :=
  match ds with
  | [] => []
  | d :: r => Doc (Bson.nth_oid n) d :: number (n + 1)%N r
  end.

Definition insert_many (c : cname) (ds : list dict) : M (list oid) :=
  fun db =>
    let new := number (next_oid db) ds in
    (Ret (map doc_id new), push c new (next_oid db + N.of_nat (List.length ds))%N db).

(** [cursor.sort(key, -1)]: descending in the order above.  The server leaves
    the order of documents with equal keys open; here they keep the order in
    which they were found. *)
Definition geb (key : string) (a b : doc) : bool :=
  match BsonOrder.compare (doc_get key a) (doc_get key b) with
  | Lt => false
  | _ => true
  end.

Fixpoint insert_desc (key : string) (d : doc) (l : list doc) : list doc :=
  match l with
  | [] => [d]
  | x :: r => if geb key d x then d :: l else x :: insert_desc key d r
  end.

Definition sort_desc (key : string) (l : list doc) : list doc :=
  fold_right (insert_desc key) [] l.

Definition find_sorted (c : cname) (q : query) (key : string) : M (list doc) :=
  fun db => (Ret (sort_desc key (find_docs q (coll c db))), db).

End Mongo.

(** ** What a request brings from outside the program

    [now] is the clock reading ([datetime.now(timezone.utc)],
    [datetime.utcnow()]); the reads made while one request is served are taken
    at the same instant.  [fresh_token] is the value [secrets.token_urlsafe] or
    [secrets.token_hex] returns for this request. *)
Record env := mkEnv { now : Z; fresh_token : string }.

(** [timedelta(days=7)] in microseconds. *)
Definition seven_days : Z := 7 * 86400 * 1000000.

(** [d[k]] *)
Definition getitem (k : string) (d : dict) : M value :=
  match get k d with Some v => ret v | None => raise (KeyError k) end.

Definition doc_getitem (k : string) (d : doc) : M value :=
  match doc_get k d with Some v => ret v | None => raise (KeyError k) end.

(** Truth value of a stored field. *)
Definition truthy (v : value) : bool :=
  match v with
  | VNull => false
  | VBool b => b
  | VInt z => negb (z =? 0)
  | VFloat f => negb (PrimFloat.eqb f 0%float)
  | VStr s => negb (String.eqb s "")
  | VDate _ => true
  | VOid _ => true
  end.

Fixpoint mapM {A B} (f : A -> M B) (l : list A) : M (list B) :=
  match l with
  | [] => ret []
  | a :: r => b <- f a ;; bs <- mapM f r ;; ret (b :: bs)
  end.

(** ** Python numbers, as far as the grade average needs them *)

Inductive pynum : Type :=
| PInt (z : Z)
| PFloat (f : float).

Module PyNum.

Definition SF_of_Z (z : Z) : spec_float :=
  match z with
  | Z0 => S754_zero false
  | Zpos p => S754_finite false p 0
  | Zneg p => S754_finite true p 0
  end.

(** [float(z)]: the nearest double; [finite] raises the [OverflowError] of
    an int too large for one. *)
Definition float_of_Z (z : Z) : float := SF2Prim (binary_normalize prec emax z 0 false).

Definition finite (f : float) : M float :=
  if PrimFloat.is_infinity f then raise OverflowError else ret f.

(** [a + b] *)
Definition add (a b : pynum) : M pynum :=
  match a, b with
  | PInt x, PInt y => ret (PInt (x + y))
  | PFloat x, PFloat y => ret (PFloat (x + y))
  | PInt x, PFloat y => x' <- finite (float_of_Z x) ;; ret (PFloat (x' + y))
  | PFloat x, PInt y => y' <- finite (float_of_Z y) ;; ret (PFloat (x + y'))
  end.

(** [a / n] for [n] the length of a list: true division, which raises
    [ZeroDivisionError] on a zero divisor and always yields a float. *)
Definition truediv_len (a : pynum) (n : nat) : M pynum :=
  match n with
  | O => raise ZeroDivisionError
  | S _ =>
      match a with
      | PFloat x => ret (PFloat (x / float_of_Z (Z.of_nat n)))
      | PInt x =>
          q <- finite (SF2Prim (SFdiv prec emax (SF_of_Z x) (SF_of_Z (Z.of_nat n)))) ;;
          ret (PFloat q)
      end
  end.

(** [sum(l)]: starts from the int [0] and adds from left to right (CPython
    from 3.12 on compensates the rounding of a float sum; the sum of no
    number at all, and the divisor, are the same either way). *)
Fixpoint sum_from (acc : pynum) (l : list pynum) : M pynum :=
  match l with
  | [] => ret acc
  | x :: r => acc' <- add acc x ;; sum_from acc' r
  end.
Definition sum (l : list pynum) : M pynum := sum_from (PInt 0) l.

(** [x == 0] *)
Definition is_zero (x : pynum) : bool :=
  match x with
  | PInt z => z =? 0
  | PFloat f => PrimFloat.eqb f 0%float
  end.

(** A stored value as a summand; [sum] rejects what is not a number. *)
Definition of_value (v : value) : M pynum :=
  match v with
  | VInt z => ret (PInt z)
  | VBool b => ret (PInt (Z.b2z b))
  | VFloat f => ret (PFloat f)
  | _ => raise TypeError
  end.

End PyNum.

(** ** What the handlers answer *)

(** [{"token": ..., "user": {...}}] *)
Record SessionInfo := mkSessionInfo { token : string; user : dict }.

(** One entry of the dashboard's [progress] list. *)
Record progress_entry := mkProgress {
  progress_course : dict;
  attendance_records : nat;
  avg_grade : pynum
}.

Inductive response : Type :=
| RSession (s : SessionInfo)
| RDict (d : dict)
| RDashboard (u : option dict) (courses : option (list dict)) (progress : list progress_entry).

Definition message (m : string) : dict := [("message", VStr m)].

(** * [main.py] *)

Module Main.

Record RegisterRequest := mkRegisterRequest {
  reg_name : string; reg_email : string; reg_password : string }.

Record LoginRequest := mkLoginRequest { login_email : string; login_password : string }.

Record CourseCreate := mkCourseCreate {
  cc_code : string;
  cc_title : string;
  cc_description : option string;
  cc_instructor : option string;
  cc_capacity : option Z
}.

Record EnrollmentRequest := mkEnrollmentRequest { enr_course_id : string }.

Record AttendanceMarkRequest := mkAttendanceMarkRequest {
  att_course_id : string; att_status : string }.

Record GradeCreate := mkGradeCreate {
  gr_course_id : string; gr_grade : float; gr_label : option string }.

Record AnnouncementCreate := mkAnnouncementCreate {
  ann_course_id : string; ann_title : string; ann_content : string }.

Definition opt_str (o : option string) : value :=
  match o with Some s => VStr s | None => VNull end.
Definition opt_int (o : option Z) : value :=
  match o with Some z => VInt z | None => VNull end.

(** [payload.model_dump()] *)
Definition model_dump (p : CourseCreate) : dict :=
  [("code", VStr (cc_code p)); ("title", VStr (cc_title p));
   ("description", opt_str (cc_description p));
   ("instructor", opt_str (cc_instructor p));
   ("capacity", opt_int (cc_capacity p))].

Section Handlers.

(** [hashlib.sha256(b).hexdigest()] of the encoded string. *)
Variable sha256_hexdigest : string -> string.

Definition hash_password (password : string) : string := sha256_hexdigest password.

Definition to_object_id (id_str : string) : M oid :=
  match Bson.ObjectId id_str with
  | Some o => ret o
  | None => raise (HTTPException 400 "Invalid id format")
  end.

(** [to_object_id] on a stored field: [ObjectId(...)] also accepts an
    ObjectId, and every other failure is turned into the same 400. *)
Definition to_object_id_value (v : value) : M oid :=
  match v with
  | VStr s => to_object_id s
  | VOid o => ret o
  | _ => raise (HTTPException 400 "Invalid id format")
  end.

(** [session.get("expires_at") and session["expires_at"] < now] *)
Definition session_expired (e : env) (session : doc) : M bool :=
  match doc_get "expires_at" session with
  | None => ret false
  | Some v =>
      if truthy v then
        match v with
        | VDate t => ret (t <? now e)
        | _ => raise TypeError
        end
      else ret false
  end.

Definition user_view (u : doc) : M dict :=
  name <- doc_getitem "name" u ;;
  email <- doc_getitem "email" u ;;
  ret [("_id", VStr (doc_id u)); ("name", name); ("email", email);
       ("role", get_default "role" (VStr "student") (doc_fields u))].

Definition get_current_user (e : env) (authorization : option string) : M dict :=
  match authorization with
  | None => raise (HTTPException 401 "Missing Authorization header")
  | Some "" => raise (HTTPException 401 "Missing Authorization header")
  | Some a =>
      let token := PyStr.strip (PyStr.remove_all "Bearer " a) in
      session <- Mongo.find_one Session [("token", Is (VStr token))] ;;
      match session with
      | None => raise (HTTPException 401 "Invalid token")
      | Some session =>
          expired <- session_expired e session ;;
          if expired : bool then raise (HTTPException 401 "Token expired")
          else
            user_id <- doc_getitem "user_id" session ;;
            user <- Mongo.find_one Student [("_id", Is user_id)] ;;
            match user with
            | None => raise (HTTPException 401 "User not found")
            | Some user => user_view user
            end
      end
  end.

Definition new_session (e : env) (user_id : oid) : dict :=
  [("user_id", VOid user_id); ("token", VStr (fresh_token e));
   ("expires_at", VDate (now e + seven_days)); ("created_at", VDate (now e))].

Definition register (e : env) (payload : RegisterRequest) : M SessionInfo :=
  existing <- Mongo.find_one Student [("email", Is (VStr (reg_email payload)))] ;;
  match existing with
  | Some _ => raise (HTTPException 400 "Email already registered")
  | None =>
      let student :=
        [("name", VStr (reg_name payload)); ("email", VStr (reg_email payload));
         ("password_hash", VStr (hash_password (reg_password payload)));
         ("role", VStr "student"); ("is_active", VBool true);
         ("created_at", VDate (now e)); ("updated_at", VDate (now e))] in
      user_id <- Mongo.insert_one Student student ;;
      Mongo.insert_one Session (new_session e user_id) ;;
      ret (mkSessionInfo (fresh_token e)
             [("_id", VStr user_id); ("name", VStr (reg_name payload));
              ("email", VStr (reg_email payload)); ("role", VStr "student")])
  end.

Definition credential_ok (u : doc) (password : string) : bool :=
  match get "password_hash" (doc_fields u) with
  | Some v => value_eqb v (VStr (hash_password password))
  | None => false
  end.

Definition login (e : env) (payload : LoginRequest) : M SessionInfo :=
  user <- Mongo.find_one Student [("email", Is (VStr (login_email payload)))] ;;
  match user with
  | None => raise (HTTPException 401 "Invalid credentials")
  | Some user =>
      if negb (credential_ok user (login_password payload))
      then raise (HTTPException 401 "Invalid credentials")
      else
        Mongo.insert_one Session (new_session e (doc_id user)) ;;
        view <- user_view user ;;
        ret (mkSessionInfo (fresh_token e) view)
  end.

Definition create_course (e : env) (payload : CourseCreate) (user : dict) : M dict :=
  role <- getitem "role" user ;;
  if negb (value_eqb role (VStr "admin"))
  then raise (HTTPException 403 "Only admin can create courses")
  else
    existing <- Mongo.find_one Course [("code", Is (VStr (cc_code payload)))] ;;
    match existing with
    | Some _ => raise (HTTPException 400 "Course code exists")
    | None =>
        let course := (model_dump payload
                       ++ [("created_at", VDate (now e)); ("updated_at", VDate (now e))])%list in
        inserted_id <- Mongo.insert_one Course course ;;
        ret (course ++ [("_id", VStr inserted_id)])%list
    end.

Definition enroll_course (e : env) (payload : EnrollmentRequest) (user : dict) : M dict :=
  course_oid <- to_object_id (enr_course_id payload) ;;
  course <- Mongo.find_one Course [("_id", Is (VOid course_oid))] ;;
  match course with
  | None => raise (HTTPException 404 "Course not found")
  | Some _ =>
      uid <- getitem "_id" user ;;
      exists_ <- Mongo.find_one Enrollment
                   [("student_id", Is uid); ("course_id", Is (VStr (enr_course_id payload)))] ;;
      match exists_ with
      | Some _ => raise (HTTPException 400 "Already enrolled")
      | None =>
          Mongo.insert_one Enrollment
            [("student_id", uid); ("course_id", VStr (enr_course_id payload));
             ("status", VStr "enrolled"); ("enrolled_at", VDate (now e))] ;;
          ret (message "Enrolled successfully")
      end
  end.

Definition mark_attendance (e : env) (payload : AttendanceMarkRequest) (user : dict) : M dict :=
  uid <- getitem "_id" user ;;
  enrollment <- Mongo.find_one Enrollment
                  [("student_id", Is uid); ("course_id", Is (VStr (att_course_id payload)))] ;;
  match enrollment with
  | None => raise (HTTPException 400 "Not enrolled in the course")
  | Some _ =>
      Mongo.insert_one Attendance
        [("student_id", uid); ("course_id", VStr (att_course_id payload));
         ("date", VDate (now e)); ("status", VStr (att_status payload))] ;;
      ret (message "Attendance marked")
  end.

Definition add_grade (e : env) (payload : GradeCreate) (user : dict) : M dict :=
  uid <- getitem "_id" user ;;
  enrollment <- Mongo.find_one Enrollment
                  [("student_id", Is uid); ("course_id", Is (VStr (gr_course_id payload)))] ;;
  match enrollment with
  | None => raise (HTTPException 400 "Not enrolled in the course")
  | Some _ =>
      Mongo.insert_one Grade
        [("student_id", uid); ("course_id", VStr (gr_course_id payload));
         ("grade", VFloat (gr_grade payload)); ("label", opt_str (gr_label payload));
         ("graded_at", VDate (now e))] ;;
      ret (message "Grade added")
  end.

Definition create_announcement (e : env) (payload : AnnouncementCreate) (user : dict) : M dict :=
  course_oid <- to_object_id (ann_course_id payload) ;;
  course <- Mongo.find_one Course [("_id", Is (VOid course_oid))] ;;
  match course with
  | None => raise (HTTPException 404 "Course not found")
  | Some _ =>
      uid <- getitem "_id" user ;;
      Mongo.insert_one Announcement
        [("course_id", VStr (ann_course_id payload)); ("title", VStr (ann_title payload));
         ("content", VStr (ann_content payload)); ("created_by", uid);
         ("created_at", VDate (now e))] ;;
      ret (message "Announcement posted")
  end.

(** [sum([g.get("grade", 0) for g in grade_docs]) / max(len(grade_docs), 1)] *)
Definition average (grade_docs : list doc) : M pynum :=
  summands <- mapM (fun g => PyNum.of_value (get_default "grade" (VInt 0) (doc_fields g)))
                grade_docs ;;
  total <- PyNum.sum summands ;;
  PyNum.truediv_len total (Nat.max (List.length grade_docs) 1).

(** The body of the loop over [courses]; [c] already carries its [_id] as
    a string. *)
Definition course_progress (uid : value) (c : doc) : M progress_entry :=
  let cid := VStr (doc_id c) in
  att_count <- Mongo.count_documents Attendance [("student_id", Is uid); ("course_id", Is cid)] ;;
  grade_docs <- Mongo.find Grade [("student_id", Is uid); ("course_id", Is cid)] ;;
  avg <- average grade_docs ;;
  ret (mkProgress (stringify_id c) att_count avg).

Definition dashboard (user : dict) : M response :=
  uid <- getitem "_id" user ;;
  enrolls <- Mongo.find Enrollment [("student_id", Is uid)] ;;
  course_ids <- mapM (fun en => cid <- doc_getitem "course_id" en ;; to_object_id_value cid)
                  enrolls ;;
  courses <- match course_ids with
             | [] => ret []
             | _ => Mongo.find Course [("_id", InOids course_ids)]
             end ;;
  progress <- mapM (course_progress uid) courses ;;
  ret (RDashboard (Some user) (Some (map stringify_id courses)) progress).

(** *** The routes that only read *)

(** [GET /] *)
Definition read_root : M dict := ret (message "Student Management System API").

Definition list_courses : M (list dict) :=
  items <- Mongo.find Course [] ;;
  ret (map stringify_id items).

Definition my_courses (user : dict) : M (list dict) :=
  uid <- getitem "_id" user ;;
  enrolls <- Mongo.find Enrollment [("student_id", Is uid)] ;;
  course_ids <- mapM (fun en => cid <- doc_getitem "course_id" en ;; to_object_id_value cid)
                  enrolls ;;
  courses <- match course_ids with
             | [] => ret []
             | _ => Mongo.find Course [("_id", InOids course_ids)]
             end ;;
  ret (map stringify_id courses).

Definition get_attendance (course_id : string) (user : dict) : M (list dict) :=
  uid <- getitem "_id" user ;;
  items <- Mongo.find Attendance [("student_id", Is uid); ("course_id", Is (VStr course_id))] ;;
  ret (map stringify_id items).

Definition get_grades (course_id : string) (user : dict) : M (list dict) :=
  uid <- getitem "_id" user ;;
  items <- Mongo.find Grade [("student_id", Is uid); ("course_id", Is (VStr course_id))] ;;
  ret (map stringify_id items).

Definition list_announcements (course_id : string) (user : dict) : M (list dict) :=
  items <- Mongo.find_sorted Announcement [("course_id", Is (VStr course_id))] "created_at" ;;
  ret (map stringify_id items).

(** The routes that write, and the dashboard.  The listing routes
    ([GET /courses], [/my/courses], [/attendance/{id}], [/grades/{id}],
    [/announcements/{id}]) only read and are left out. *)
Inductive request : Type :=
| PostRegister (payload : RegisterRequest)
| PostLogin (payload : LoginRequest)
| PostCourses (authorization : option string) (payload : CourseCreate)
| PostEnroll (authorization : option string) (payload : EnrollmentRequest)
| PostAttendanceMark (authorization : option string) (payload : AttendanceMarkRequest)
| PostGrades (authorization : option string) (payload : GradeCreate)
| PostAnnouncements (authorization : option string) (payload : AnnouncementCreate)
| GetDashboard (authorization : option string).

(** [user=Depends(get_current_user)] *)
Definition authenticated {A} (e : env) (authorization : option string)
    (handler : dict -> M A) : M A :=
  user <- get_current_user e authorization ;; handler user.

Definition as_dict_response (m : M dict) : M response := d <- m ;; ret (RDict d).
Definition as_session_response (m : M SessionInfo) : M response := s <- m ;; ret (RSession s).

Definition serve (e : env) (r : request) : M response :=
  match r with
  | PostRegister p => as_session_response (register e p)
  | PostLogin p => as_session_response (login e p)
  | PostCourses a p => as_dict_response (authenticated e a (create_course e p))
  | PostEnroll a p => as_dict_response (authenticated e a (enroll_course e p))
  | PostAttendanceMark a p => as_dict_response (authenticated e a (mark_attendance e p))
  | PostGrades a p => as_dict_response (authenticated e a (add_grade e p))
  | PostAnnouncements a p => as_dict_response (authenticated e a (create_announcement e p))
  | GetDashboard a => authenticated e a dashboard
  end.

(** The database after a sequence of requests served one after another. *)
Fixpoint run (trace : list (env * request)) (db : DB) : DB :=
  match trace with
  | [] => db
  | (e, r) :: rest => run rest (snd (serve e r db))
  end.

End Handlers.

End Main.

(** * [backend/main.py] *)

Module Backend.

(** The pydantic models of [backend/schemas.py], each followed by [.dict()].
    [created_at] and [date] default to [datetime.utcnow()]. *)
Module Schemas.

(** Validation of a [str] field, on the values the callers pass. *)
Definition str_field (v : value) : M string :=
  match v with
  | VStr s => ret s
  | _ => raise ValidationError
  end.

(** [status: str = Field(regex="^(present|absent)$")], matched with
    [re.match]: [$] also matches before a final newline. *)
Definition status_ok (s : string) : bool :=
  (String.eqb s "present" || String.eqb s "absent"
   || String.eqb s (String.append "present" (String (ascii_of_nat 10) EmptyString))
   || String.eqb s (String.append "absent" (String (ascii_of_nat 10) EmptyString)))%bool.

Definition opt_str (o : option string) : value :=
  match o with Some s => VStr s | None => VNull end.

Definition Student (e : env) (name email password : string) : dict :=
  [("name", VStr name); ("email", VStr email); ("password", VStr password);
   ("role", VStr "student"); ("created_at", VDate (now e))].

Definition Course (title code : string) (description instructor : option string)
    (created_at : Z) : dict :=
  [("title", VStr title); ("code", VStr code); ("description", opt_str description);
   ("instructor", opt_str instructor); ("created_at", VDate created_at)].

Definition Enrollment (e : env) (student_id : value) (course_id : string) : M dict :=
  sid <- str_field student_id ;;
  ret [("student_id", VStr sid); ("course_id", VStr course_id); ("created_at", VDate (now e))].

Definition Attendance (e : env) (student_id : value) (course_id status : string) : M dict :=
  sid <- str_field student_id ;;
  if status_ok status
  then ret [("student_id", VStr sid); ("course_id", VStr course_id);
            ("date", VDate (now e)); ("status", VStr status)]
  else raise ValidationError.

Definition Grade (e : env) (student_id : value) (course_id : string) (grade : float)
    (label : option string) : M dict :=
  sid <- str_field student_id ;;
  ret [("student_id", VStr sid); ("course_id", VStr course_id); ("grade", VFloat grade);
       ("label", opt_str label); ("created_at", VDate (now e))].

Definition Session (e : env) (student_id token : string) (expires_at : Z) : dict :=
  [("student_id", VStr student_id); ("token", VStr token);
   ("expires_at", VDate expires_at); ("created_at", VDate (now e))].

Definition Announcement (e : env) (course_id title content : string) : dict :=
  [("course_id", VStr course_id); ("title", VStr title); ("content", VStr content);
   ("created_at", VDate (now e))].

End Schemas.

Record RegisterBody := mkRegisterBody {
  reg_name : string; reg_email : string; reg_password : string }.
Record LoginBody := mkLoginBody { login_email : string; login_password : string }.
(** The body of [POST /courses] is the [Course] model itself; a client may
    send [created_at]. *)
Record CourseBody := mkCourseBody {
  co_title : string; co_code : string; co_description : option string;
  co_instructor : option string; co_created_at : option Z }.
Record EnrollBody := mkEnrollBody { enr_course_id : string }.
Record AttendanceBody := mkAttendanceBody { att_course_id : string; att_status : string }.
Record GradeBody := mkGradeBody {
  gr_course_id : string; gr_grade : float; gr_label : option string }.
Record AnnouncementBody := mkAnnouncementBody {
  ann_course_id : string; ann_title : string; ann_content : string }.

(** [to_dict(doc)] for a document that was found. *)
Definition to_dict (d : doc) : dict := stringify_id d.

(** [ObjectId(v)] *)
Definition ObjectId (v : value) : M oid :=
  match v with
  | VStr s => match Bson.ObjectId s with Some o => ret o | None => raise InvalidId end
  | VOid o => ret o
  | _ => raise TypeError
  end.

Definition get_current_user (e : env) (authorization : option string) : M dict :=
  match authorization with
  | None => raise (HTTPException 401 "Missing token")
  | Some a =>
      if negb (PyStr.startswith "Bearer " a)
      then raise (HTTPException 401 "Missing token")
      else
        match PyStr.after_first_space a with
        | None => raise IndexError
        | Some token =>
            sess <- Mongo.find_one Session
                      [("token", Is (VStr token)); ("expires_at", GtDate (now e))] ;;
            match sess with
            | None => raise (HTTPException 401 "Invalid or expired token")
            | Some sess =>
                sid <- doc_getitem "student_id" sess ;;
                o <- ObjectId sid ;;
                user <- Mongo.find_one Student [("_id", Is (VOid o))] ;;
                match user with
                | None => raise (HTTPException 401 "User not found")
                | Some user => ret (to_dict user)
                end
            end
        end
  end.

Definition register (e : env) (body : RegisterBody) : M SessionInfo :=
  existing <- Mongo.find_one Student [("email", Is (VStr (reg_email body)))] ;;
  match existing with
  | Some _ => raise (HTTPException 400 "Email already registered")
  | None =>
      let student := Schemas.Student e (reg_name body) (reg_email body) (reg_password body) in
      inserted_id <- Mongo.insert_one Student student ;;
      Mongo.insert_one Session
        (Schemas.Session e inserted_id (fresh_token e) (now e + seven_days)) ;;
      ret (mkSessionInfo (fresh_token e)
             [("_id", VStr inserted_id); ("name", VStr (reg_name body));
              ("email", VStr (reg_email body));
              ("role", get_default "role" (VStr "student") student)])
  end.

Definition user_view (u : doc) : M dict :=
  name <- doc_getitem "name" u ;;
  email <- doc_getitem "email" u ;;
  ret [("_id", VStr (doc_id u)); ("name", name); ("email", email);
       ("role", get_default "role" (VStr "student") (doc_fields u))].

Definition login (e : env) (body : LoginBody) : M SessionInfo :=
  user <- Mongo.find_one Student
            [("email", Is (VStr (login_email body))); ("password", Is (VStr (login_password body)))] ;;
  match user with
  | None => raise (HTTPException 401 "Invalid credentials")
  | Some user =>
      Mongo.insert_one Session
        (Schemas.Session e (doc_id user) (fresh_token e) (now e + seven_days)) ;;
      view <- user_view user ;;
      ret (mkSessionInfo (fresh_token e) view)
  end.

Definition inserted (fields : dict) (o : oid) : dict := (fields ++ [("_id", VStr o)])%list.

(** "For now allow any logged-in user to create; can restrict to admin later" *)
Definition create_course (e : env) (course : CourseBody) (user : dict) : M dict :=
  let data := Schemas.Course (co_title course) (co_code course) (co_description course)
                (co_instructor course)
                (match co_created_at course with Some t => t | None => now e end) in
  o <- Mongo.insert_one Course data ;;
  ret (inserted data o).

Definition find_course (course_id : value) : M (option doc) :=
  o <- ObjectId course_id ;;
  Mongo.find_one Course [("_id", Is (VOid o))].

Definition enroll (e : env) (body : EnrollBody) (user : dict) : M dict :=
  course <- find_course (VStr (enr_course_id body)) ;;
  match course with
  | None => raise (HTTPException 404 "Course not found")
  | Some _ =>
      uid <- getitem "_id" user ;;
      exists_ <- Mongo.find_one Enrollment
                   [("student_id", Is uid); ("course_id", Is (VStr (enr_course_id body)))] ;;
      match exists_ with
      | Some d => ret (to_dict d)
      | None =>
          enr <- Schemas.Enrollment e uid (enr_course_id body) ;;
          o <- Mongo.insert_one Enrollment enr ;;
          ret (inserted enr o)
      end
  end.

Definition mark_attendance (e : env) (body : AttendanceBody) (user : dict) : M dict :=
  course <- find_course (VStr (att_course_id body)) ;;
  match course with
  | None => raise (HTTPException 404 "Course not found")
  | Some _ =>
      uid <- getitem "_id" user ;;
      att <- Schemas.Attendance e uid (att_course_id body) (att_status body) ;;
      o <- Mongo.insert_one Attendance att ;;
      ret (inserted att o)
  end.

Definition add_grade (e : env) (body : GradeBody) (user : dict) : M dict :=
  course <- find_course (VStr (gr_course_id body)) ;;
  match course with
  | None => raise (HTTPException 404 "Course not found")
  | Some _ =>
      uid <- getitem "_id" user ;;
      g <- Schemas.Grade e uid (gr_course_id body) (gr_grade body) (gr_label body) ;;
      o <- Mongo.insert_one Grade g ;;
      ret (inserted g o)
  end.

Definition add_announcement (e : env) (body : AnnouncementBody) (user : dict) : M dict :=
  course <- find_course (VStr (ann_course_id body)) ;;
  match course with
  | None => raise (HTTPException 404 "Course not found")
  | Some _ =>
      let a := Schemas.Announcement e (ann_course_id body) (ann_title body) (ann_content body) in
      o <- Mongo.insert_one Announcement a ;;
      ret (inserted a o)
  end.

(** [sum([g.get("grade", 0) for g in grades]) / len(grades) if grades else 0] *)
Definition average (grades : list doc) : M pynum :=
  match grades with
  | [] => ret (PInt 0)
  | _ =>
      summands <- mapM (fun g => PyNum.of_value (get_default "grade" (VInt 0) (doc_fields g)))
                    grades ;;
      total <- PyNum.sum summands ;;
      PyNum.truediv_len total (List.length grades)
  end.

(** The body of the loop over the caller's enrollments; [None] is its
    [continue]. *)
Definition enrollment_progress (uid : value) (en : doc) : M (option progress_entry) :=
  cid <- doc_getitem "course_id" en ;;
  course <- find_course cid ;;
  match course with
  | None => ret None
  | Some course =>
      at_count <- Mongo.count_documents Attendance
                    [("student_id", Is uid); ("course_id", Is cid)] ;;
      grades <- Mongo.find Grade [("student_id", Is uid); ("course_id", Is cid)] ;;
      avg <- average grades ;;
      ret (Some (mkProgress (to_dict course) at_count avg))
  end.

Fixpoint somes {A} (l : list (option A)) : list A :=
  match l with
  | [] => []
  | Some a :: r => a :: somes r
  | None :: r => somes r
  end.

Definition dashboard (user : dict) : M response :=
  uid <- getitem "_id" user ;;
  enrollments <- Mongo.find Enrollment [("student_id", Is uid)] ;;
  progress <- mapM (enrollment_progress uid) enrollments ;;
  ret (RDashboard None None (somes progress)).

Definition demo_courses (e : env) : list dict :=
  [Schemas.Course "Intro to Programming" "CS101" (Some "Learn Python basics") (Some "Dr. Ada") (now e);
   Schemas.Course "Data Structures" "CS201" (Some "Arrays, Trees, Graphs") (Some "Dr. Knuth") (now e);
   Schemas.Course "Databases" "CS301" (Some "SQL/NoSQL fundamentals") (Some "Dr. Codd") (now e)].

Definition seed (e : env) : M dict :=
  n <- Mongo.count_documents Course [] ;;
  if (0 <? n)%nat then ret (message "Already seeded")
  else
    Mongo.insert_many Course (demo_courses e) ;;
    ret [("message", VStr "Seeded"); ("count", VInt (Z.of_nat (List.length (demo_courses e))))].

(** *** The routes that only read *)

Definition list_courses : M (list dict) :=
  cs <- Mongo.find_sorted Course [] "created_at" ;;
  ret (map to_dict cs).

Definition my_courses (user : dict) : M (list dict) :=
  uid <- getitem "_id" user ;;
  enrolls <- Mongo.find Enrollment [("student_id", Is uid)] ;;
  course_ids <- mapM (doc_getitem "course_id") enrolls ;;
  found <- mapM find_course course_ids ;;
  ret (map to_dict (somes found)).

Definition list_attendance (course_id : string) (user : dict) : M (list dict) :=
  uid <- getitem "_id" user ;;
  recs <- Mongo.find_sorted Attendance
            [("student_id", Is uid); ("course_id", Is (VStr course_id))] "date" ;;
  ret (map to_dict recs).

Definition list_grades (course_id : string) (user : dict) : M (list dict) :=
  uid <- getitem "_id" user ;;
  items <- Mongo.find_sorted Grade
             [("student_id", Is uid); ("course_id", Is (VStr course_id))] "created_at" ;;
  ret (map to_dict items).

Definition list_announcements (course_id : string) (user : dict) : M (list dict) :=
  items <- Mongo.find_sorted Announcement [("course_id", Is (VStr course_id))] "created_at" ;;
  ret (map to_dict items).

Inductive request : Type :=
| PostRegister (body : RegisterBody)
| PostLogin (body : LoginBody)
| PostCourses (authorization : option string) (body : CourseBody)
| PostEnroll (authorization : option string) (body : EnrollBody)
| PostAttendanceMark (authorization : option string) (body : AttendanceBody)
| PostGrades (authorization : option string) (body : GradeBody)
| PostAnnouncements (authorization : option string) (body : AnnouncementBody)
| GetDashboard (authorization : option string)
| PostSeed.

(** [user=Depends(get_current_user)] *)
Definition authenticated {A} (e : env) (authorization : option string)
    (handler : dict -> M A) : M A :=
  user <- get_current_user e authorization ;; handler user.

Definition as_dict_response (m : M dict) : M response := d <- m ;; ret (RDict d).
Definition as_session_response (m : M SessionInfo) : M response := s <- m ;; ret (RSession s).

Definition serve (e : env) (r : request) : M response :=
  match r with
  | PostRegister b => as_session_response (register e b)
  | PostLogin b => as_session_response (login e b)
  | PostCourses a b => as_dict_response (authenticated e a (create_course e b))
  | PostEnroll a b => as_dict_response (authenticated e a (enroll e b))
  | PostAttendanceMark a b => as_dict_response (authenticated e a (mark_attendance e b))
  | PostGrades a b => as_dict_response (authenticated e a (add_grade e b))
  | PostAnnouncements a b => as_dict_response (authenticated e a (add_announcement e b))
  | GetDashboard a => authenticated e a dashboard
  | PostSeed => as_dict_response (seed e)
  end.

Fixpoint run (trace : list (env * request)) (db : DB) : DB :=
  match trace with
  | [] => db
  | (e, r) :: rest => run rest (snd (serve e r db))
  end.

End Backend.

(** * The vocabulary of the properties *)

(** Three ways a handler may relate the database before and after. *)
Definition unchanged (db db' : DB) : Prop := db' = db.
Definition same (c : cname) (db db' : DB) : Prop := coll c db' = coll c db.
Definition extends (db db' : DB) : Prop :=
  forall c, exists l, coll c db' = (coll c db ++ l)%list.

(** [preserves R m]: whatever [m] answers, the database it leaves is
    [R]-related to the one it started from. *)
Definition preserves (R : DB -> DB -> Prop) {A} (m : M A) : Prop :=
  forall db r db', m db = (r, db') -> R db db'.


(** Some identity carries the email [em]. *)
Definition email_taken (em : string) (db : DB) : Prop :=
  exists d, In d (student db) /\ matches [("email", Is (VStr em))] d = true.

(** The query both programs use to look for an enrollment of a pair. *)
Definition enrollment_query (student_id course_id : string) : query :=
  [("student_id", Is (VStr student_id)); ("course_id", Is (VStr course_id))].

Definition enrollment_count (student_id course_id : string) (db : DB) : nat :=
  List.length (Mongo.find_docs (enrollment_query student_id course_id) (enrollment db)).

Definition at_most_one_enrollment (db : DB) : Prop :=
  forall student_id course_id, (enrollment_count student_id course_id db <= 1)%nat.

(** [m] never fails with a division by zero. *)
Definition no_zero_division {A} (m : M A) : Prop :=
  forall db db', m db <> (Raise ZeroDivisionError, db').

(** The identities with a given email, and the courses with a given code. *)
Definition email_count (em : string) (db : DB) : nat :=
  List.length (Mongo.find_docs [("email", Is (VStr em))] (student db)).

Definition emails_unique (db : DB) : Prop := forall em, (email_count em db <= 1)%nat.



Definition main_is_register (r : Main.request) : bool :=
  match r with Main.PostRegister _ => true | _ => false end.
Definition backend_is_register (r : Backend.request) : bool :=
  match r with Backend.PostRegister _ => true | _ => false end.

(** [course_of cid db]: the string [cid] is the identifier of a course of [db]. *)
Definition course_of (cid : string) (db : DB) : Prop :=
  exists o c, Bson.ObjectId cid = Some o /\ In c (course db) /\ doc_id c = o.

(** Every document of collection [c] carries, under [course_id], the
    identifier of an existing course. *)
Definition refers_to_courses (c : cname) (db : DB) : Prop :=
  forall d, In d (coll c db) ->
    exists cid, get "course_id" (doc_fields d) = Some (VStr cid) /\ course_of cid db.

(** Every document of collection [c] carries the [student_id] and
    [course_id] of some enrollment. *)
Definition belongs_to_enrollment (c : cname) (db : DB) : Prop :=
  forall d, In d (coll c db) ->
    exists sid cid en,
      get "student_id" (doc_fields d) = Some (VStr sid)
      /\ get "course_id" (doc_fields d) = Some (VStr cid)
      /\ In en (enrollment db)
      /\ matches (enrollment_query sid cid) en = true.

(** The collections a request may write to. *)
Definition main_writes (r : Main.request) (c : cname) : bool :=
  match r, c with
  | Main.PostRegister _, (Student | Session) => true
  | Main.PostLogin _, Session => true
  | Main.PostCourses _ _, Course => true
  | Main.PostEnroll _ _, Enrollment => true
  | Main.PostAttendanceMark _ _, Attendance => true
  | Main.PostGrades _ _, Grade => true
  | Main.PostAnnouncements _ _, Announcement => true
  | _, _ => false
  end.

Definition backend_writes (r : Backend.request) (c : cname) : bool :=
  match r, c with
  | Backend.PostRegister _, (Student | Session) => true
  | Backend.PostLogin _, Session => true
  | Backend.PostCourses _ _, Course => true
  | Backend.PostSeed, Course => true
  | Backend.PostEnroll _ _, Enrollment => true
  | Backend.PostAttendanceMark _ _, Attendance => true
  | Backend.PostGrades _ _, Grade => true
  | Backend.PostAnnouncements _ _, Announcement => true
  | _, _ => false
  end.




(** The fields the two programs read back from the documents they stored. *)
Definition present (o : option value) : bool :=
  match o with Some _ => true | None => false end.
Definition is_date (o : option value) : bool :=
  match o with Some (VDate _) => true | _ => false end.
Definition is_float (o : option value) : bool :=
  match o with Some (VFloat _) => true | _ => false end.
Definition is_id_string (o : option value) : bool :=
  match o with Some (VStr s) => match Bson.ObjectId s with Some _ => true | None => false end | _ => false end.

(** What [main.py] relies on when it reads a document of collection [c]. *)
Definition main_shape (c : cname) (d : doc) : bool :=
  let f := doc_fields d in
  match c with
  | Student => present (get "name" f) && present (get "email" f)
  | Session => present (get "user_id" f) && is_date (get "expires_at" f)
  | Enrollment => is_id_string (get "course_id" f)
  | Grade => is_float (get "grade" f)
  | Announcement => is_date (get "created_at" f)
  | _ => true
  end.

(** [ObjectId(str(d["_id"]))] is [d["_id"]]. *)
Definition id_ok (d : doc) : bool :=
  match Bson.ObjectId (doc_id d) with
  | Some o => String.eqb o (doc_id d)
  | None => false
  end.

(** What [backend/main.py] relies on; it turns identifiers into strings and
    back. *)
Definition backend_shape (c : cname) (d : doc) : bool :=
  let f := doc_fields d in
  id_ok d &&
  match c with
  | Student => present (get "name" f) && present (get "email" f)
  | Session => is_id_string (get "student_id" f)
  | Course => is_date (get "created_at" f)
  | Enrollment => is_id_string (get "course_id" f)
  | Attendance => is_date (get "date" f)
  | Grade => is_float (get "grade" f) && is_date (get "created_at" f)
  | Announcement => is_date (get "created_at" f)
  end.

Definition well_shaped (shape : cname -> doc -> bool) (db : DB) : Prop :=
  forall c d, In d (coll c db) -> shape c d = true.


(** [newer key a b]: both documents hold a date under [key], and the one
    of [a] is not before the one of [b]. *)
Definition newer (key : string) (a b : doc) : Prop :=
  exists ta tb, doc_get key a = Some (VDate ta) /\ doc_get key b = Some (VDate tb) /\ tb <= ta.

Definition dated (key : string) (d : doc) : Prop := exists t, doc_get key d = Some (VDate t).

(** [items] are the documents [stored], each once, ordered so that no
    document comes before one with a later date under [key]. *)
Definition newest_first (key : string) (stored items : list doc) : Prop :=
  Permutation items stored /\ Sorted (newer key) items.

(** The [course_id] and the attendance [status] a request of
    [backend/main.py] carries in its body. *)
Definition backend_course_id (r : Backend.request) : option string :=
  match r with
  | Backend.PostEnroll _ b => Some (Backend.enr_course_id b)
  | Backend.PostAttendanceMark _ b => Some (Backend.att_course_id b)
  | Backend.PostGrades _ b => Some (Backend.gr_course_id b)
  | Backend.PostAnnouncements _ b => Some (Backend.ann_course_id b)
  | _ => None
  end.

Definition backend_status (r : Backend.request) : option string :=
  match r with
  | Backend.PostAttendanceMark _ b => Some (Backend.att_status b)
  | _ => None
  end.

(** The failures of a request to [backend/main.py]: an [HTTPException]; an
    [InvalidId] for a [course_id] that is no ObjectId; a [ValidationError]
    for an attendance [status] the [Attendance] model refuses. *)
Definition backend_failure (r : Backend.request) (ex : exn) : Prop :=
  match ex with
  | HTTPException _ _ => True
  | InvalidId => exists c, backend_course_id r = Some c /\ Bson.ObjectId c = None
  | ValidationError =>
      exists s, backend_status r = Some s /\ Backend.Schemas.status_ok s = false
  | _ => False
  end.

Definition fails_within {A} (P : exn -> Prop) (r : res A) : Prop :=
  match r with
  | Ret _ => True
  | Raise ex => P ex
  end.

(** The course an enrollment document points to: [ObjectId(e["course_id"])]. *)
Definition enrolled_course (en : doc) : option oid :=
  match get "course_id" (doc_fields en) with
  | Some (VStr s) => Bson.ObjectId s
  | _ => None
  end.

(** The caller [uid] has an enrollment in [db] that points to the course
    with identifier [o]. *)
Definition enrolled_in (uid : value) (o : oid) (db : DB) : Prop :=
  exists en, In en (enrollment db)
             /\ get "student_id" (doc_fields en) = Some uid
             /\ enrolled_course en = Some o.

(** * Sample data

    Requests and databases on which the properties below are exercised. *)

Module Sample.

(** A stand-in for the digest, enough to tell a hash from its plaintext. *)
Definition digest (s : string) : string := String.append "sha256:" s.

Definition e0 : env := mkEnv 1000 "tok0".
Definition e1 : env := mkEnv 2000 "tok1".

(** [{"name":"A","email":"a@x.com","password":"p1"}] *)
Definition main_alice := Main.mkRegisterRequest "A" "a@x.com" "p1".
Definition backend_alice := Backend.mkRegisterBody "A" "a@x.com" "p1".

(** The databases after that registration at time 1000. *)
Definition main_db1 : DB := snd (Main.register digest e0 main_alice empty_db).
Definition backend_db1 : DB := snd (Backend.register e0 backend_alice empty_db).

(** The instant at which the session minted at time 1000 expires. *)
Definition at_expiry : env := mkEnv (1000 + seven_days) "tok2".

(** The backend database after [POST /seed]. *)
Definition backend_db2 : DB := snd (Backend.seed e0 backend_db1).

Definition cs101 : string := "000000000000000000000002".

Definition main_course : Main.CourseCreate :=
  Main.mkCourseCreate "CS101" "Intro to Programming" None None (Some 100).
Definition backend_course : Backend.CourseBody :=
  Backend.mkCourseBody "Intro to Programming" "CS101" None None None.


Definition backend_enroll_trace : list (env * Backend.request) :=
  [(e0, Backend.PostRegister backend_alice);
   (e0, Backend.PostSeed);
   (e1, Backend.PostEnroll (Some "Bearer tok0") (Backend.mkEnrollBody cs101));
   (e1, Backend.PostEnroll (Some "Bearer tok0") (Backend.mkEnrollBody cs101))].

Definition backend_db3 : DB := Backend.run backend_enroll_trace empty_db.

(** A database of [main.py] in which the sample identity is enrolled in a
    course and has no grade. *)
Definition main_db2 : DB :=
  push Enrollment
    [Doc "000000000000000000000003"
       [("student_id", VStr "000000000000000000000000"); ("course_id", VStr cs101);
        ("status", VStr "enrolled"); ("enrolled_at", VDate 2000)]] 4
    (push Course
       [Doc cs101 (Main.model_dump main_course
                   ++ [("created_at", VDate 1000); ("updated_at", VDate 1000)])%list] 3
       main_db1).

Definition main_alice_view : dict :=
  [("_id", VStr "000000000000000000000000"); ("name", VStr "A");
   ("email", VStr "a@x.com"); ("role", VStr "student")].

Definition backend_alice_doc : doc :=
  Doc "000000000000000000000000"
    [("name", VStr "A"); ("email", VStr "a@x.com"); ("password", VStr "p1");
     ("role", VStr "student"); ("created_at", VDate 1000)].

(** The dashboard entries of that course in the two sample databases. *)
Definition main_entry : progress_entry :=
  mkProgress
    (stringify_id
       (Doc cs101 (Main.model_dump main_course
                   ++ [("created_at", VDate 1000); ("updated_at", VDate 1000)])%list))
    0 (PFloat 0).

Definition backend_entry : progress_entry :=
  mkProgress
    (stringify_id
       (Doc cs101 (Backend.Schemas.Course "Intro to Programming" "CS101"
                     (Some "Learn Python basics") (Some "Dr. Ada") 1000)))
    0 (PInt 0).

End Sample.

(** * Properties *)

(** ** How a handler may change the database *)

Section Effects.

Variable R : DB -> DB -> Prop.
Hypothesis R_refl : forall db, R db db.
Hypothesis R_trans : forall a b c, R a b -> R b c -> R a c.

Lemma preserves_ret A (a : A) : preserves R (ret a).
Proof. intros db r db' H. inversion H. apply R_refl. Qed.

Lemma preserves_raise A (e : exn) : preserves R (@raise A e).
Proof. intros db r db' H. inversion H. apply R_refl. Qed.

Lemma preserves_bind A B (m : M A) (k : A -> M B) :
  preserves R m -> (forall a, preserves R (k a)) -> preserves R (bind m k).
Proof.
  intros Hm Hk db r db'. unfold bind.
  destruct (m db) as [[a | e] db1] eqn:E; intro H.
  - eapply R_trans; [eapply Hm; eauto | eapply Hk; eauto].
  - inversion H; subst. eapply Hm; eauto.
Qed.

Lemma preserves_find c q : preserves R (Mongo.find c q).
Proof. intros db r db' H. inversion H. apply R_refl. Qed.

Lemma preserves_find_one c q : preserves R (Mongo.find_one c q).
Proof. intros db r db' H. inversion H. apply R_refl. Qed.

Lemma preserves_count_documents c q : preserves R (Mongo.count_documents c q).
Proof. intros db r db' H. inversion H. apply R_refl. Qed.

Lemma preserves_mapM A B (f : A -> M B) (l : list A) :
  (forall a, preserves R (f a)) -> preserves R (mapM f l).
Proof.
  intro Hf. induction l as [| a l IH]; simpl.
  - apply preserves_ret.
  - apply preserves_bind; [apply Hf | intro b].
    apply preserves_bind; [apply IH | intro bs]. apply preserves_ret.
Qed.

End Effects.

Lemma unchanged_refl db : unchanged db db.
Proof. reflexivity. Qed.
Lemma unchanged_trans a b c : unchanged a b -> unchanged b c -> unchanged a c.
Proof. unfold unchanged. congruence. Qed.
Lemma same_refl k db : same k db db.
Proof. reflexivity. Qed.
Lemma same_trans k a b c : same k a b -> same k b c -> same k a c.
Proof. unfold same. congruence. Qed.
Lemma extends_refl db : extends db db.
Proof. intro c. exists []. now rewrite app_nil_r. Qed.
Lemma extends_trans a b c : extends a b -> extends b c -> extends a c.
Proof.
  intros H1 H2 k. destruct (H1 k) as [l1 E1]. destruct (H2 k) as [l2 E2].
  exists (l1 ++ l2)%list. now rewrite E2, E1, app_assoc.
Qed.

Lemma coll_push_same c c' ds n db : c <> c' -> coll c (push c' ds n db) = coll c db.
Proof. destruct c, c'; intro H; try reflexivity; now elim H. Qed.

Lemma push_extends c ds n db : extends db (push c ds n db).
Proof.
  intro k. destruct k, c; simpl;
    solve [ exists []; now rewrite app_nil_r | now exists ds ].
Qed.

Lemma insert_one_same c c' fields : c <> c' -> preserves (same c) (Mongo.insert_one c' fields).
Proof. intros H db r db' E. inversion E. now apply coll_push_same. Qed.

Lemma insert_many_same c c' ds : c <> c' -> preserves (same c) (Mongo.insert_many c' ds).
Proof. intros H db r db' E. inversion E. now apply coll_push_same. Qed.

Lemma insert_one_extends c fields : preserves extends (Mongo.insert_one c fields).
Proof. intros db r db' E. inversion E. apply push_extends. Qed.

Lemma insert_many_extends c ds : preserves extends (Mongo.insert_many c ds).
Proof. intros db r db' E. inversion E. apply push_extends. Qed.

Lemma unchanged_same c A (m : M A) : preserves unchanged m -> preserves (same c) m.
Proof. intros H db r db' E. apply H in E. now rewrite E. Qed.

Lemma unchanged_extends A (m : M A) : preserves unchanged m -> preserves extends m.
Proof. intros H db r db' E. apply H in E. rewrite E. apply extends_refl. Qed.

(** One step of a proof that a handler preserves a relation: [Hr] and [Ht]
    are reflexivity and transitivity of the relation, [ins] closes the goals
    about inserts. *)
Ltac preserve_step Hr Ht ins :=
  lazymatch goal with
  | |- preserves _ (ret _) => apply (preserves_ret _ Hr)
  | |- preserves _ (raise _) => apply (preserves_raise _ Hr)
  | |- preserves _ (bind _ _) => apply (preserves_bind _ Ht); [| intro]
  | |- preserves _ (Mongo.find _ _) => apply (preserves_find _ Hr)
  | |- preserves _ (Mongo.find_one _ _) => apply (preserves_find_one _ Hr)
  | |- preserves _ (Mongo.count_documents _ _) => apply (preserves_count_documents _ Hr)
  | |- preserves _ (mapM _ _) => apply (preserves_mapM _ Hr Ht); intro
  | |- preserves _ (Mongo.insert_one _ _) => ins
  | |- preserves _ (Mongo.insert_many _ _) => ins
  | |- preserves _ (if ?x then _ else _) => destruct x
  | |- preserves _ (match ?x with _ => _ end) => destruct x
  end.

Ltac preserve Hr Ht ins := repeat preserve_step Hr Ht ins.

Ltac reads := preserve unchanged_refl unchanged_trans fail.

Lemma getitem_reads k d : preserves unchanged (getitem k d).
Proof. unfold getitem. reads. Qed.

Lemma doc_getitem_reads k d : preserves unchanged (doc_getitem k d).
Proof. unfold doc_getitem. reads. Qed.

Lemma pynum_add_reads a b : preserves unchanged (PyNum.add a b).
Proof. unfold PyNum.add, PyNum.finite. reads. Qed.

Lemma pynum_sum_from_reads l : forall acc, preserves unchanged (PyNum.sum_from acc l).
Proof.
  induction l as [| x l IH]; intro acc; simpl.
  - reads.
  - apply (preserves_bind _ unchanged_trans); [apply pynum_add_reads | intro; apply IH].
Qed.

Lemma pynum_truediv_len_reads a n : preserves unchanged (PyNum.truediv_len a n).
Proof. unfold PyNum.truediv_len, PyNum.finite. reads. Qed.

Lemma pynum_of_value_reads v : preserves unchanged (PyNum.of_value v).
Proof. unfold PyNum.of_value. reads. Qed.

(** *** The authentication gates only read *)

Lemma main_get_current_user_reads e a : preserves unchanged (Main.get_current_user e a).
Proof.
  unfold Main.get_current_user, Main.session_expired, Main.user_view, doc_getitem.
  reads.
Qed.

Lemma backend_get_current_user_reads e a : preserves unchanged (Backend.get_current_user e a).
Proof.
  unfold Backend.get_current_user, Backend.ObjectId, doc_getitem.
  reads.
Qed.

(** ** Running a handler by hand *)

Ltac unfold_run :=
  unfold getitem, doc_getitem, doc_get, Mongo.find_one, Mongo.find, Mongo.count_documents,
    Mongo.insert_one in *;
  unfold bind, ret, raise in *;
  cbn [String.eqb Ascii.eqb Bool.eqb] in *.

(** Case analysis on every test a run went through. *)
Ltac inv_run :=
  repeat (cbv beta iota in *;
    match goal with
    | H : (_, _) = (_, _) |- _ => injection H; clear H; intros; subst
    | H : context [match ?x with _ => _ end] |- _ =>
        lazymatch type of H with _ = _ => idtac end;
        destruct x eqn:?; try discriminate
    end).

Lemma value_eqb_str v s : value_eqb v (VStr s) = true <-> v = VStr s.
Proof.
  destruct v; simpl; split; intro H; try discriminate.
  - apply String.eqb_eq in H. now subst.
  - injection H as ->. apply String.eqb_refl.
Qed.

(** ** The authentication gate *)

(** What a successful run of the gate of [main.py] went through. *)
Lemma main_gate_ret e a db user db' :
  Main.get_current_user e a db = (Ret user, db') ->
  exists header sess uid u name email,
    a = Some header
    /\ Mongo.first_doc [("token", Is (VStr (PyStr.strip (PyStr.remove_all "Bearer " header))))]
         (session db) = Some sess
    /\ get "user_id" (doc_fields sess) = Some uid
    /\ Mongo.first_doc [("_id", Is uid)] (student db) = Some u
    /\ get "name" (doc_fields u) = Some name
    /\ get "email" (doc_fields u) = Some email
    /\ user = [("_id", VStr (doc_id u)); ("name", name); ("email", email);
               ("role", get_default "role" (VStr "student") (doc_fields u))]
    /\ db' = db.
Proof.
  intro H. unfold Main.get_current_user, Main.session_expired, Main.user_view in H.
  unfold_run. inv_run.
  all: repeat eexists; eauto.
Qed.

(** What a successful run of the gate of [backend/main.py] went through. *)
Lemma backend_gate_ret e a db user db' :
  Backend.get_current_user e a db = (Ret user, db') ->
  exists header tok sess sid o u,
    a = Some header
    /\ PyStr.startswith "Bearer " header = true
    /\ PyStr.after_first_space header = Some tok
    /\ Mongo.first_doc [("token", Is (VStr tok)); ("expires_at", GtDate (now e))]
         (session db) = Some sess
    /\ get "student_id" (doc_fields sess) = Some sid
    /\ Backend.ObjectId sid db = (Ret o, db)
    /\ Mongo.first_doc [("_id", Is (VOid o))] (student db) = Some u
    /\ user = Backend.to_dict u
    /\ db' = db.
Proof.
  intro H. unfold Backend.get_current_user, Backend.ObjectId in *.
  unfold_run. inv_run.
  all: repeat eexists; eauto.
  all: try (apply negb_false_iff; assumption).
  all: cbv beta iota;
    try match goal with E : Bson.ObjectId _ = _ |- _ => rewrite E end; reflexivity.
Qed.

Lemma first_doc_In q ds d : Mongo.first_doc q ds = Some d -> In d ds /\ matches q d = true.
Proof. apply find_some. Qed.

Lemma first_doc_none q ds : Mongo.first_doc q ds = None -> forall d, In d ds -> matches q d = false.
Proof. intros H d. now apply find_none. Qed.




(** The gate of [main.py] rejects a token whose session expired strictly
    before the current time, and leaves the session where it is. *)
Lemma main_gate_rejects_expired e header db sess t :
  Mongo.first_doc [("token", Is (VStr (PyStr.strip (PyStr.remove_all "Bearer " header))))]
    (session db) = Some sess ->
  get "expires_at" (doc_fields sess) = Some (VDate t) ->
  t < now e ->
  exists detail,
    Main.get_current_user e (Some header) db = (Raise (HTTPException 401 detail), db).
Proof.
  intros Hs Ht Hlt. unfold Main.get_current_user.
  destruct header as [| c r]; [eexists; reflexivity |].
  unfold bind at 1. unfold Mongo.find_one at 1. change (coll Session db) with (session db). rewrite Hs.
  unfold bind at 1. unfold Main.session_expired, doc_get.
  cbn [String.eqb Ascii.eqb Bool.eqb]. rewrite Ht. simpl truthy. cbv iota.
  unfold ret at 1. apply Z.ltb_lt in Hlt. rewrite Hlt.
  eexists; reflexivity.
Qed.


(** C2.  At the very instant a session expires the gate of [main.py] still
    accepts its token: the session minted at time 1000 carries the expiry
    [1000 + seven_days], and a request served at that time is resolved to the
    identity. *)
Theorem main_gate_accepts_token_at_expiry :
  (exists sess,
     Mongo.first_doc [("token", Is (VStr "tok0"))] (session Sample.main_db1) = Some sess
     /\ get "expires_at" (doc_fields sess) = Some (VDate (now Sample.at_expiry)))
  /\ Main.get_current_user Sample.at_expiry (Some "Bearer tok0") Sample.main_db1
     = (Ret [("_id", VStr "000000000000000000000000"); ("name", VStr "A");
             ("email", VStr "a@x.com"); ("role", VStr "student")],
        Sample.main_db1).
Proof.
  split; [eexists; split; reflexivity | reflexivity].
Qed.

(** At the same instant the gate of [backend/main.py] rejects the token. *)
Lemma backend_gate_rejects_token_at_expiry :
  Backend.get_current_user Sample.at_expiry (Some "Bearer tok0") Sample.backend_db1
  = (Raise (HTTPException 401 "Invalid or expired token"), Sample.backend_db1).
Proof. reflexivity. Qed.



Lemma authenticated_main_ret A e a (handler : dict -> M A) db user db' :
  Main.get_current_user e a db = (Ret user, db') ->
  Main.authenticated e a handler db = handler user db'.
Proof. intro H. unfold Main.authenticated, bind. now rewrite H. Qed.

Lemma authenticated_backend_ret A e a (handler : dict -> M A) db user db' :
  Backend.get_current_user e a db = (Ret user, db') ->
  Backend.authenticated e a handler db = handler user db'.
Proof. intro H. unfold Backend.authenticated, bind. now rewrite H. Qed.




(** ** Registration *)

(** C1 (as amended).  For a fresh email, [register] of [main.py] appends one
    identity whose only credential field is [password_hash], holding the hash
    of the supplied credential; [register] of [backend/main.py] appends one
    identity whose [password] field holds the supplied credential itself. *)
Theorem register_stored_credential (sha256_hexdigest : string -> string) (e : env)
    (payload : Main.RegisterRequest) (body : Backend.RegisterBody) (db : DB) :
  (Mongo.first_doc [("email", Is (VStr (Main.reg_email payload)))] (student db) = None ->
   student (snd (Main.register sha256_hexdigest e payload db))
   = (student db ++
      [Doc (Bson.nth_oid (next_oid db))
         [("name", VStr (Main.reg_name payload));
          ("email", VStr (Main.reg_email payload));
          ("password_hash",
           VStr (Main.hash_password sha256_hexdigest (Main.reg_password payload)));
          ("role", VStr "student"); ("is_active", VBool true);
          ("created_at", VDate (now e)); ("updated_at", VDate (now e))]])%list)
  /\ (Mongo.first_doc [("email", Is (VStr (Backend.reg_email body)))] (student db) = None ->
      student (snd (Backend.register e body db))
      = (student db ++
         [Doc (Bson.nth_oid (next_oid db))
            [("name", VStr (Backend.reg_name body));
             ("email", VStr (Backend.reg_email body));
             ("password", VStr (Backend.reg_password body));
             ("role", VStr "student"); ("created_at", VDate (now e))]])%list).
Proof.
  split; intro H.
  - unfold Main.register, bind, Mongo.find_one.
    change (coll Student db) with (student db). rewrite H. reflexivity.
  - unfold Backend.register, bind, Mongo.find_one.
    change (coll Student db) with (student db). rewrite H. reflexivity.
Qed.

Lemma register_stored_credential_witness :
  student Sample.main_db1
  = [Doc "000000000000000000000000"
       [("name", VStr "A"); ("email", VStr "a@x.com"); ("password_hash", VStr "sha256:p1");
        ("role", VStr "student"); ("is_active", VBool true);
        ("created_at", VDate 1000); ("updated_at", VDate 1000)]]
  /\ student Sample.backend_db1
     = [Doc "000000000000000000000000"
          [("name", VStr "A"); ("email", VStr "a@x.com"); ("password", VStr "p1");
           ("role", VStr "student"); ("created_at", VDate 1000)]].
Proof.
  split.
  - apply (proj1 (register_stored_credential Sample.digest Sample.e0 Sample.main_alice
                    Sample.backend_alice empty_db)).
    reflexivity.
  - apply (proj2 (register_stored_credential Sample.digest Sample.e0 Sample.main_alice
                    Sample.backend_alice empty_db)).
    reflexivity.
Defined.

(** C1, as stated, fails on [backend/main.py]: the identity it creates for the
    sample request holds the plaintext credential. *)
Lemma backend_register_stores_plaintext :
  Mongo.first_doc [("email", Is (VStr (Backend.reg_email Sample.backend_alice)))]
    (student empty_db) = None
  /\ exists d,
       In d (student (snd (Backend.register Sample.e0 Sample.backend_alice empty_db)))
       /\ get "password" (doc_fields d) = Some (VStr (Backend.reg_password Sample.backend_alice))
       /\ get "password_hash" (doc_fields d) = None.
Proof.
  split; [reflexivity |]. eexists. split; [left; reflexivity |]. split; reflexivity.
Qed.

(** ** Course creation *)

Lemma main_gate_role e a db user db' :
  Main.get_current_user e a db = (Ret user, db') ->
  exists sid role, get "_id" user = Some (VStr sid) /\ get "role" user = Some role /\ db' = db.
Proof.
  intro H. apply main_gate_ret in H.
  destruct H as (header & sess & uid & u & name & email & _ & _ & _ & _ & _ & _ & -> & ->).
  now eexists _, _.
Qed.

Lemma backend_gate_id e a db user db' :
  Backend.get_current_user e a db = (Ret user, db') ->
  exists sid, get "_id" user = Some (VStr sid) /\ db' = db.
Proof.
  intro H. apply backend_gate_ret in H.
  destruct H as (header & tok & sess & sid & o & u & _ & _ & _ & _ & _ & _ & _ & -> & ->).
  now eexists.
Qed.

(** C4 (as amended).  In [main.py] a course-creation request of an
    authenticated identity whose role is not [admin] fails with 403 and
    leaves the database as it was.  [backend/main.py] has no role check: the
    request of any authenticated identity inserts the course. *)
Theorem course_creation_role_check (sha256_hexdigest : string -> string) (e : env)
    (a : option string) (db db' : DB) (user : dict)
    (payload : Main.CourseCreate) (body : Backend.CourseBody) :
  (Main.get_current_user e a db = (Ret user, db') ->
   get "role" user <> Some (VStr "admin") ->
   Main.serve sha256_hexdigest e (Main.PostCourses a payload) db
   = (Raise (HTTPException 403 "Only admin can create courses"), db))
  /\ (Backend.get_current_user e a db = (Ret user, db') ->
      let data :=
        Backend.Schemas.Course (Backend.co_title body) (Backend.co_code body)
          (Backend.co_description body) (Backend.co_instructor body)
          (match Backend.co_created_at body with Some t => t | None => now e end) in
      Backend.serve e (Backend.PostCourses a body) db
      = (Ret (RDict (Backend.inserted data (Bson.nth_oid (next_oid db)))),
         push Course [Doc (Bson.nth_oid (next_oid db)) data] (next_oid db + 1)%N db)).
Proof.
  split.
  - intros H Hrole. destruct (main_gate_role _ _ _ _ _ H) as (sid & role & _ & Hr & ->).
    unfold Main.serve, Main.as_dict_response. unfold bind at 1.
    rewrite (authenticated_main_ret _ _ _ _ _ _ _ H).
    unfold Main.create_course, getitem. rewrite Hr. unfold bind at 1, ret at 1.
    destruct (value_eqb role (VStr "admin")) eqn:Hv.
    + apply value_eqb_str in Hv. subst. now elim Hrole.
    + reflexivity.
  - intros H data. destruct (backend_gate_id _ _ _ _ _ H) as (sid & _ & ->).
    unfold Backend.serve, Backend.as_dict_response. unfold bind at 1.
    rewrite (authenticated_backend_ret _ _ _ _ _ _ _ H). reflexivity.
Qed.

Lemma course_creation_role_check_witness :
  Main.serve Sample.digest Sample.e1 (Main.PostCourses (Some "Bearer tok0") Sample.main_course)
    Sample.main_db1
  = (Raise (HTTPException 403 "Only admin can create courses"), Sample.main_db1)
  /\ course (snd (Backend.serve Sample.e1
                    (Backend.PostCourses (Some "Bearer tok0") Sample.backend_course)
                    Sample.backend_db1))
     = [Doc "000000000000000000000002"
          [("title", VStr "Intro to Programming"); ("code", VStr "CS101");
           ("description", VNull); ("instructor", VNull); ("created_at", VDate 2000)]].
Proof.
  split.
  - apply (proj1 (course_creation_role_check Sample.digest Sample.e1 (Some "Bearer tok0")
                    Sample.main_db1 Sample.main_db1
                    [("_id", VStr "000000000000000000000000"); ("name", VStr "A");
                     ("email", VStr "a@x.com"); ("role", VStr "student")]
                    Sample.main_course Sample.backend_course)).
    + reflexivity.
    + discriminate.
  - rewrite (proj2 (course_creation_role_check Sample.digest Sample.e1 (Some "Bearer tok0")
                    Sample.backend_db1 Sample.backend_db1
                    [("_id", VStr "000000000000000000000000"); ("name", VStr "A");
                     ("email", VStr "a@x.com"); ("password", VStr "p1");
                     ("role", VStr "student"); ("created_at", VDate 1000)]
                    Sample.main_course Sample.backend_course) eq_refl).
    reflexivity.
Defined.

(** C4, as stated, fails on [backend/main.py]: the sample identity has the
    role [student], and its course-creation request inserts a course. *)
Lemma backend_student_creates_course :
  exists user d db',
    Backend.get_current_user Sample.e1 (Some "Bearer tok0") Sample.backend_db1
    = (Ret user, Sample.backend_db1)
    /\ get "role" user = Some (VStr "student")
    /\ Backend.serve Sample.e1 (Backend.PostCourses (Some "Bearer tok0") Sample.backend_course)
         Sample.backend_db1 = (Ret (RDict d), db')
    /\ course Sample.backend_db1 = []
    /\ List.length (course db') = 1%nat.
Proof.
  eexists _, _, _. split; [reflexivity |]. split; [reflexivity |].
  split; [reflexivity |]. split; reflexivity.
Qed.

(** ** Attendance *)

(** C7 (as amended).  In [main.py] an authenticated attendance-marking request
    fails with 400 when the caller has no enrollment under the [course_id] of
    the request and otherwise inserts an attendance record; the course is not
    looked up.  In [backend/main.py] a request whose [course_id] is a
    well-formed identifier fails with 404 when no course has that identifier
    and otherwise, for a status the [Attendance] model accepts, inserts an
    attendance record; the caller's enrollment is not looked up. *)
Theorem mark_attendance_checks (sha256_hexdigest : string -> string) (e : env)
    (a : option string) (db db' : DB) (user : dict)
    (payload : Main.AttendanceMarkRequest) (body : Backend.AttendanceBody) :
  (Main.get_current_user e a db = (Ret user, db') ->
   exists uid,
     get "_id" user = Some uid
     /\ Main.serve sha256_hexdigest e (Main.PostAttendanceMark a payload) db
        = match Mongo.first_doc
                  [("student_id", Is uid);
                   ("course_id", Is (VStr (Main.att_course_id payload)))]
                  (enrollment db) with
          | None => (Raise (HTTPException 400 "Not enrolled in the course"), db)
          | Some _ =>
              (Ret (RDict (message "Attendance marked")),
               push Attendance
                 [Doc (Bson.nth_oid (next_oid db))
                    [("student_id", uid); ("course_id", VStr (Main.att_course_id payload));
                     ("date", VDate (now e)); ("status", VStr (Main.att_status payload))]]
                 (next_oid db + 1)%N db)
          end)
  /\ (Backend.get_current_user e a db = (Ret user, db') ->
      forall o, Bson.ObjectId (Backend.att_course_id body) = Some o ->
      exists uid,
        get "_id" user = Some uid
        /\ Backend.serve e (Backend.PostAttendanceMark a body) db
           = match Mongo.first_doc [("_id", Is (VOid o))] (course db) with
             | None => (Raise (HTTPException 404 "Course not found"), db)
             | Some _ =>
                 if Backend.Schemas.status_ok (Backend.att_status body) then
                   let att := [("student_id", uid);
                               ("course_id", VStr (Backend.att_course_id body));
                               ("date", VDate (now e));
                               ("status", VStr (Backend.att_status body))] in
                   (Ret (RDict (Backend.inserted att (Bson.nth_oid (next_oid db)))),
                    push Attendance [Doc (Bson.nth_oid (next_oid db)) att]
                      (next_oid db + 1)%N db)
                 else (Raise ValidationError, db)
             end).
Proof.
  split.
  - intro H. destruct (main_gate_role _ _ _ _ _ H) as (sid & role & Hid & _ & ->).
    exists (VStr sid). split; [assumption |].
    unfold Main.serve, Main.as_dict_response. unfold bind at 1.
    rewrite (authenticated_main_ret _ _ _ _ _ _ _ H).
    unfold Main.mark_attendance, getitem. rewrite Hid.
    unfold bind, ret, Mongo.find_one. change (coll Enrollment db) with (enrollment db).
    now destruct (Mongo.first_doc _ (enrollment db)).
  - intros H o Ho. destruct (backend_gate_id _ _ _ _ _ H) as (sid & Hid & ->).
    exists (VStr sid). split; [assumption |].
    unfold Backend.serve, Backend.as_dict_response. unfold bind at 1.
    rewrite (authenticated_backend_ret _ _ _ _ _ _ _ H).
    unfold Backend.mark_attendance, Backend.find_course, Backend.ObjectId, getitem.
    rewrite Ho, Hid.
    unfold bind, ret, Mongo.find_one. change (coll Course db) with (course db).
    destruct (Mongo.first_doc _ (course db)); [| reflexivity].
    unfold Backend.Schemas.Attendance, Backend.Schemas.str_field, bind, ret.
    now destruct (Backend.Schemas.status_ok (Backend.att_status body)).
Qed.

Lemma mark_attendance_checks_witness :
  (exists uid,
     get "_id" [("_id", VStr "000000000000000000000000"); ("name", VStr "A");
                ("email", VStr "a@x.com"); ("role", VStr "student")] = Some uid
     /\ Main.serve Sample.digest Sample.e1
          (Main.PostAttendanceMark (Some "Bearer tok0")
             (Main.mkAttendanceMarkRequest Sample.cs101 "present")) Sample.main_db1
        = (Raise (HTTPException 400 "Not enrolled in the course"), Sample.main_db1))
  /\ (exists uid,
        get "_id" (Backend.to_dict (Doc "000000000000000000000000"
                     [("name", VStr "A"); ("email", VStr "a@x.com"); ("password", VStr "p1");
                      ("role", VStr "student"); ("created_at", VDate 1000)])) = Some uid
        /\ Backend.serve Sample.e1
             (Backend.PostAttendanceMark (Some "Bearer tok0")
                (Backend.mkAttendanceBody Sample.cs101 "present")) Sample.backend_db1
           = (Raise (HTTPException 404 "Course not found"), Sample.backend_db1)).
Proof.
  split.
  - apply (proj1 (mark_attendance_checks Sample.digest Sample.e1 (Some "Bearer tok0")
                    Sample.main_db1 Sample.main_db1 _
                    (Main.mkAttendanceMarkRequest Sample.cs101 "present")
                    (Backend.mkAttendanceBody Sample.cs101 "present"))).
    reflexivity.
  - apply (proj2 (mark_attendance_checks Sample.digest Sample.e1 (Some "Bearer tok0")
                    Sample.backend_db1 Sample.backend_db1 _
                    (Main.mkAttendanceMarkRequest Sample.cs101 "present")
                    (Backend.mkAttendanceBody Sample.cs101 "present"))
             eq_refl Sample.cs101 eq_refl).
Defined.

(** C7, as stated, fails on [backend/main.py]: after seeding, the sample
    identity has no enrollment at all, and its attendance-marking request for
    a demo course succeeds and inserts a record. *)
Lemma backend_marks_attendance_without_enrollment :
  enrollment Sample.backend_db2 = []
  /\ exists d db',
       Backend.serve Sample.e1
         (Backend.PostAttendanceMark (Some "Bearer tok0")
            (Backend.mkAttendanceBody Sample.cs101 "present")) Sample.backend_db2
       = (Ret (RDict d), db')
       /\ attendance Sample.backend_db2 = []
       /\ List.length (attendance db') = 1%nat.
Proof.
  split; [reflexivity |]. eexists _, _. split; [reflexivity |]. split; reflexivity.
Qed.

(** ** What a request can do to the collections *)

Create HintDb reads.
#[local] Hint Resolve getitem_reads doc_getitem_reads pynum_add_reads pynum_sum_from_reads
  pynum_truediv_len_reads pynum_of_value_reads main_get_current_user_reads
  backend_get_current_user_reads : reads.

(** As [preserve], with the handlers' helpers closed by the lemmas above. *)
Ltac preserve_all Hr Ht ins :=
  repeat first
    [ preserve_step Hr Ht ins
    | lazymatch goal with
      | |- preserves unchanged _ => solve [auto with reads]
      | |- preserves (same _) _ => apply unchanged_same; solve [auto with reads]
      | |- preserves extends _ => apply unchanged_extends; solve [auto with reads]
      end ].

Ltac reads_all := preserve_all unchanged_refl unchanged_trans fail.
Ltac keeps_all k :=
  preserve_all (same_refl k) (same_trans k)
    ltac:(first [ apply insert_one_same; discriminate | apply insert_many_same; discriminate ]).
Ltac grows_all :=
  preserve_all extends_refl extends_trans
    ltac:(first [ apply insert_one_extends | apply insert_many_extends ]).

Ltac unfold_main :=
  unfold Main.serve, Main.as_dict_response, Main.as_session_response, Main.authenticated,
    Main.register, Main.login, Main.create_course, Main.enroll_course, Main.mark_attendance,
    Main.add_grade, Main.create_announcement, Main.dashboard, Main.course_progress,
    Main.average, Main.user_view, Main.to_object_id_value, Main.to_object_id, PyNum.sum.

Ltac unfold_backend :=
  unfold Backend.serve, Backend.as_dict_response, Backend.as_session_response,
    Backend.authenticated, Backend.register, Backend.login, Backend.create_course,
    Backend.enroll, Backend.mark_attendance, Backend.add_grade, Backend.add_announcement,
    Backend.dashboard, Backend.enrollment_progress, Backend.average, Backend.seed,
    Backend.user_view, Backend.find_course, Backend.ObjectId,
    Backend.Schemas.Enrollment, Backend.Schemas.Attendance, Backend.Schemas.Grade,
    Backend.Schemas.str_field, PyNum.sum.

Lemma main_dashboard_reads user : preserves unchanged (Main.dashboard user).
Proof. unfold_main. reads_all. Qed.

Lemma backend_dashboard_reads user : preserves unchanged (Backend.dashboard user).
Proof. unfold_backend. reads_all. Qed.

(** No request removes or rewrites a document. *)
Lemma main_serve_extends sha e r : preserves extends (Main.serve sha e r).
Proof. destruct r; unfold_main; grows_all. Qed.

Lemma backend_serve_extends e r : preserves extends (Backend.serve e r).
Proof. destruct r; unfold_backend; grows_all. Qed.

Lemma main_run_extends sha trace : forall db, extends db (Main.run sha trace db).
Proof.
  induction trace as [| [e r] trace IH]; intro db; simpl.
  - apply extends_refl.
  - eapply extends_trans; [| apply IH].
    eapply (main_serve_extends sha e r). apply surjective_pairing.
Qed.

Lemma backend_run_extends trace : forall db, extends db (Backend.run trace db).
Proof.
  induction trace as [| [e r] trace IH]; intro db; simpl.
  - apply extends_refl.
  - eapply extends_trans; [| apply IH].
    eapply (backend_serve_extends e r). apply surjective_pairing.
Qed.



(** ** Registering an email twice *)

Lemma email_taken_extends em db db' : extends db db' -> email_taken em db -> email_taken em db'.
Proof.
  intros Hext (d & Hin & Hm). destruct (Hext Student) as [l Hl]. simpl in Hl.
  exists d. split; [| assumption]. rewrite Hl. apply in_or_app. now left.
Qed.

Lemma email_taken_found em db :
  email_taken em db ->
  exists d, Mongo.first_doc [("email", Is (VStr em))] (student db) = Some d.
Proof.
  intros (d & Hin & Hm).
  destruct (Mongo.first_doc [("email", Is (VStr em))] (student db)) as [d' |] eqn:E.
  - now exists d'.
  - apply (first_doc_none _ _ E) in Hin. congruence.
Qed.

Lemma matches_email em o fields :
  get "email" fields = Some (VStr em) -> matches [("email", Is (VStr em))] (Doc o fields) = true.
Proof.
  intro H. unfold matches, doc_get. cbn [forallb fst snd String.eqb Ascii.eqb Bool.eqb doc_fields].
  rewrite H. simpl. now rewrite String.eqb_refl.
Qed.

Lemma main_register_takes_email sha e payload db s db1 :
  Main.register sha e payload db = (Ret s, db1) -> email_taken (Main.reg_email payload) db1.
Proof.
  unfold Main.register, bind, Mongo.find_one.
  destruct (Mongo.first_doc _ (coll Student db)); [discriminate |].
  intro H. injection H as _ <-.
  eexists. split; [apply in_or_app; right; left; reflexivity |].
  apply matches_email. reflexivity.
Qed.

Lemma backend_register_takes_email e body db s db1 :
  Backend.register e body db = (Ret s, db1) -> email_taken (Backend.reg_email body) db1.
Proof.
  unfold Backend.register, bind, Mongo.find_one.
  destruct (Mongo.first_doc _ (coll Student db)); [discriminate |].
  intro H. injection H as _ <-.
  eexists. split; [apply in_or_app; right; left; reflexivity |].
  apply matches_email. reflexivity.
Qed.

Lemma main_register_conflict sha e payload db :
  email_taken (Main.reg_email payload) db ->
  Main.register sha e payload db = (Raise (HTTPException 400 "Email already registered"), db).
Proof.
  intro H. apply email_taken_found in H. destruct H as [d Hd].
  unfold Main.register, bind, Mongo.find_one.
  change (coll Student db) with (student db). now rewrite Hd.
Qed.

Lemma backend_register_conflict e body db :
  email_taken (Backend.reg_email body) db ->
  Backend.register e body db = (Raise (HTTPException 400 "Email already registered"), db).
Proof.
  intro H. apply email_taken_found in H. destruct H as [d Hd].
  unfold Backend.register, bind, Mongo.find_one.
  change (coll Student db) with (student db). now rewrite Hd.
Qed.

(** C5.  Once a registration with an email has succeeded, a registration with
    the same email fails with 400 and leaves the database as it was, whatever
    requests were served in between; in both programs. *)
Theorem register_twice_conflict (sha256_hexdigest : string -> string) (e : env) (db db1 : DB)
    (s : SessionInfo) (payload : Main.RegisterRequest) (body : Backend.RegisterBody) :
  (Main.register sha256_hexdigest e payload db = (Ret s, db1) ->
   forall trace e' payload',
     Main.reg_email payload' = Main.reg_email payload ->
     Main.register sha256_hexdigest e' payload' (Main.run sha256_hexdigest trace db1)
     = (Raise (HTTPException 400 "Email already registered"),
        Main.run sha256_hexdigest trace db1))
  /\ (Backend.register e body db = (Ret s, db1) ->
      forall trace e' body',
        Backend.reg_email body' = Backend.reg_email body ->
        Backend.register e' body' (Backend.run trace db1)
        = (Raise (HTTPException 400 "Email already registered"), Backend.run trace db1)).
Proof.
  split; intros H trace e' p' Hem.
  - apply main_register_conflict. rewrite Hem.
    eapply email_taken_extends; [apply main_run_extends |].
    eapply main_register_takes_email; eassumption.
  - apply backend_register_conflict. rewrite Hem.
    eapply email_taken_extends; [apply backend_run_extends |].
    eapply backend_register_takes_email; eassumption.
Qed.

Lemma register_twice_conflict_witness :
  Main.register Sample.digest Sample.e1 (Main.mkRegisterRequest "B" "a@x.com" "p2")
    (Main.run Sample.digest
       [(Sample.e1, Main.PostLogin (Main.mkLoginRequest "a@x.com" "p1"))] Sample.main_db1)
  = (Raise (HTTPException 400 "Email already registered"),
     Main.run Sample.digest
       [(Sample.e1, Main.PostLogin (Main.mkLoginRequest "a@x.com" "p1"))] Sample.main_db1)
  /\ Backend.register Sample.e1 (Backend.mkRegisterBody "B" "a@x.com" "p2")
       (Backend.run [(Sample.e1, Backend.PostSeed)] Sample.backend_db1)
     = (Raise (HTTPException 400 "Email already registered"),
        Backend.run [(Sample.e1, Backend.PostSeed)] Sample.backend_db1).
Proof.
  split.
  - apply (proj1 (register_twice_conflict Sample.digest Sample.e0 empty_db Sample.main_db1
                    (mkSessionInfo "tok0"
                       [("_id", VStr "000000000000000000000000"); ("name", VStr "A");
                        ("email", VStr "a@x.com"); ("role", VStr "student")])
                    Sample.main_alice Sample.backend_alice)).
    + reflexivity.
    + reflexivity.
  - apply (proj2 (register_twice_conflict Sample.digest Sample.e0 empty_db Sample.backend_db1
                    (mkSessionInfo "tok0"
                       [("_id", VStr "000000000000000000000000"); ("name", VStr "A");
                        ("email", VStr "a@x.com"); ("role", VStr "student")])
                    Sample.main_alice Sample.backend_alice)).
    + reflexivity.
    + reflexivity.
Defined.

(** ** Enrolling twice *)

Lemma find_docs_app q l1 l2 :
  Mongo.find_docs q (l1 ++ l2) = (Mongo.find_docs q l1 ++ Mongo.find_docs q l2)%list.
Proof. apply filter_app. Qed.

Lemma first_doc_none_find_docs q l : Mongo.first_doc q l = None -> Mongo.find_docs q l = [].
Proof.
  unfold Mongo.first_doc, Mongo.find_docs. induction l as [| d l IH]; simpl; [reflexivity |].
  destruct (matches q d); [discriminate | exact IH].
Qed.

Lemma find_docs_single q d : Mongo.find_docs q [d] = if matches q d then [d] else [].
Proof. reflexivity. Qed.

Lemma matches_enrollment s c o sid cid rest :
  matches (enrollment_query s c)
    (Doc o (("student_id", VStr sid) :: ("course_id", VStr cid) :: rest))
  = (String.eqb s sid && String.eqb c cid)%bool.
Proof.
  unfold matches, enrollment_query, doc_get. simpl. now rewrite andb_true_r.
Qed.









Lemma at_most_one_empty : at_most_one_enrollment empty_db.
Proof. intros s c. unfold enrollment_count. simpl. lia. Qed.



(** ** The dashboard's average *)

Lemma nzd_ret A (a : A) : no_zero_division (ret a).
Proof. intros db db'. discriminate. Qed.

Lemma nzd_raise A (ex : exn) : ex <> ZeroDivisionError -> no_zero_division (@raise A ex).
Proof. intros H db db' E. injection E as E _. now elim H. Qed.

Lemma nzd_bind A B (m : M A) (k : A -> M B) :
  no_zero_division m -> (forall a, no_zero_division (k a)) -> no_zero_division (bind m k).
Proof.
  intros Hm Hk db db'. unfold bind.
  destruct (m db) as [[a | ex] db1] eqn:E.
  - apply Hk.
  - intro H. injection H as -> ->. now apply (Hm db db').
Qed.

Lemma nzd_mapM A B (f : A -> M B) (l : list A) :
  (forall a, no_zero_division (f a)) -> no_zero_division (mapM f l).
Proof.
  intro Hf. induction l as [| a l IH]; simpl.
  - apply nzd_ret.
  - apply nzd_bind; [apply Hf | intro b].
    apply nzd_bind; [apply IH | intro bs]. apply nzd_ret.
Qed.

Lemma nzd_find c q : no_zero_division (Mongo.find c q).
Proof. intros db db'. discriminate. Qed.

Lemma nzd_find_one c q : no_zero_division (Mongo.find_one c q).
Proof. intros db db'. discriminate. Qed.

Lemma nzd_count_documents c q : no_zero_division (Mongo.count_documents c q).
Proof. intros db db'. discriminate. Qed.

Ltac nzd_step :=
  lazymatch goal with
  | |- no_zero_division (ret _) => apply nzd_ret
  | |- no_zero_division (raise _) => apply nzd_raise; discriminate
  | |- no_zero_division (bind _ _) => apply nzd_bind; [| intro]
  | |- no_zero_division (Mongo.find _ _) => apply nzd_find
  | |- no_zero_division (Mongo.find_one _ _) => apply nzd_find_one
  | |- no_zero_division (Mongo.count_documents _ _) => apply nzd_count_documents
  | |- no_zero_division (mapM _ _) => apply nzd_mapM; intro
  | |- no_zero_division (if ?x then _ else _) => destruct x
  | |- no_zero_division (match ?x with _ => _ end) => destruct x
  end.

Lemma nzd_sum_from l : forall acc, no_zero_division (PyNum.sum_from acc l).
Proof.
  induction l as [| x l IH]; intro acc; simpl.
  - apply nzd_ret.
  - apply nzd_bind; [| intro; apply IH].
    unfold PyNum.add, PyNum.finite. repeat nzd_step.
Qed.

(** The divisor of a true division by a positive count is never zero. *)
Lemma nzd_truediv_len a n : no_zero_division (PyNum.truediv_len a (S n)).
Proof. unfold PyNum.truediv_len, PyNum.finite. repeat nzd_step. Qed.

Lemma nzd_summands (l : list doc) :
  no_zero_division
    (mapM (fun g => PyNum.of_value (get_default "grade" (VInt 0) (doc_fields g))) l).
Proof. apply nzd_mapM. intro g. unfold PyNum.of_value. repeat nzd_step. Qed.

Lemma main_average_nzd grade_docs : no_zero_division (Main.average grade_docs).
Proof.
  unfold Main.average, PyNum.sum.
  apply nzd_bind; [apply nzd_summands | intro summands].
  apply nzd_bind; [apply nzd_sum_from | intro total].
  destruct (Nat.max (List.length grade_docs) 1) eqn:E; [lia | apply nzd_truediv_len].
Qed.

Lemma backend_average_nzd grades : no_zero_division (Backend.average grades).
Proof.
  unfold Backend.average, PyNum.sum. destruct grades as [| g grades]; [apply nzd_ret |].
  apply nzd_bind; [apply nzd_summands | intro summands].
  apply nzd_bind; [apply nzd_sum_from | intro total].
  apply nzd_truediv_len.
Qed.

Lemma main_dashboard_nzd user : no_zero_division (Main.dashboard user).
Proof.
  unfold Main.dashboard, Main.course_progress, Main.to_object_id_value, Main.to_object_id,
    getitem, doc_getitem.
  repeat first [ apply main_average_nzd | nzd_step ].
Qed.

Lemma backend_dashboard_nzd user : no_zero_division (Backend.dashboard user).
Proof.
  unfold Backend.dashboard, Backend.enrollment_progress, Backend.find_course, Backend.ObjectId,
    getitem, doc_getitem.
  repeat first [ apply backend_average_nzd | nzd_step ].
Qed.

(** With no grade document the averages are the float and the int zero. *)
Lemma main_average_nil db : Main.average [] db = (Ret (PFloat 0), db).
Proof. reflexivity. Qed.

Lemma backend_average_nil db : Backend.average [] db = (Ret (PInt 0), db).
Proof. reflexivity. Qed.

(** A loop of reads, seen entry by entry. *)
Lemma mapM_reads_inv A B (f : A -> M B) :
  (forall a, preserves unchanged (f a)) ->
  forall l db bs db',
    mapM f l db = (Ret bs, db') ->
    db' = db /\ Forall2 (fun a b => f a db = (Ret b, db)) l bs.
Proof.
  intros Hf l db. induction l as [| a l IH]; intros bs db' H; simpl in H.
  - injection H as <- <-. split; [reflexivity | constructor].
  - unfold bind in H. destruct (f a db) as [[b | ex] db1] eqn:Ea; [| discriminate].
    pose proof (Hf a _ _ _ Ea) as E1. unfold unchanged in E1. subst db1.
    destruct (mapM f l db) as [[bs' | ex] db2] eqn:El; [| discriminate].
    destruct (IH _ _ eq_refl) as [-> HF].
    injection H as <- <-. split; [reflexivity |]. now constructor.
Qed.

Lemma Forall2_In_r A B (P : A -> B -> Prop) l bs b :
  Forall2 P l bs -> In b bs -> exists a, In a l /\ P a b.
Proof.
  induction 1 as [| a b' l bs Hab HF IH]; intro Hin; [contradiction |].
  destruct Hin as [-> | Hin].
  - exists a. split; [now left | assumption].
  - destruct (IH Hin) as (a' & Ha & HP). exists a'. split; [now right | assumption].
Qed.

Lemma In_somes A (l : list (option A)) x : In x (Backend.somes l) -> In (Some x) l.
Proof.
  induction l as [| [y |] l IH]; simpl; intro H; [contradiction | |].
  - destruct H as [-> | H]; [now left | right; now apply IH].
  - right. now apply IH.
Qed.

Lemma main_course_progress_reads uid c : preserves unchanged (Main.course_progress uid c).
Proof. unfold_main. reads_all. Qed.

Lemma backend_enrollment_progress_reads uid en :
  preserves unchanged (Backend.enrollment_progress uid en).
Proof. unfold_backend. reads_all. Qed.

(** One turn of the loop of [main.py] on a course without grades of the
    caller. *)
Lemma main_course_progress_no_grades uid c db entry db' :
  Main.course_progress uid c db = (Ret entry, db') ->
  get "_id" (progress_course entry) = Some (VStr (doc_id c))
  /\ (Mongo.find_docs [("student_id", Is uid); ("course_id", Is (VStr (doc_id c)))] (grade db) = [] ->
      avg_grade entry = PFloat 0).
Proof.
  unfold Main.course_progress. unfold bind at 1, Mongo.count_documents at 1.
  unfold bind at 1, Mongo.find at 1. change (coll Grade db) with (grade db).
  unfold bind at 1.
  destruct (Main.average _ db) as [[avg | ex] db1] eqn:Ea; [| discriminate].
  intro H. injection H as <- <-. simpl. split; [reflexivity |].
  intro Hnil. rewrite Hnil in Ea. rewrite main_average_nil in Ea. now injection Ea as <- _.
Qed.

(** One turn of the loop of [backend/main.py] on an enrollment whose course
    has no grades of the caller. *)
Lemma backend_enrollment_progress_no_grades uid en db entry db' :
  Backend.enrollment_progress uid en db = (Ret (Some entry), db') ->
  exists cid,
    doc_get "course_id" en = Some cid
    /\ (Mongo.find_docs [("student_id", Is uid); ("course_id", Is cid)] (grade db) = [] ->
        avg_grade entry = PInt 0).
Proof.
  unfold Backend.enrollment_progress. unfold bind at 1. unfold doc_getitem.
  destruct (doc_get "course_id" en) as [cid |]; [| discriminate].
  unfold ret at 1. unfold bind at 1.
  destruct (Backend.find_course cid db) as [[[course |] | ex] db1] eqn:Ec; try discriminate.
  assert (db1 = db) as ->.
  { revert Ec. unfold_backend. apply (preserves_bind _ unchanged_trans); [| intro]; reads_all. }
  unfold bind at 1, Mongo.count_documents at 1.
  unfold bind at 1, Mongo.find at 1. change (coll Grade db) with (grade db).
  unfold bind at 1.
  destruct (Backend.average _ db) as [[avg | ex] db1] eqn:Ea; [| discriminate].
  intro H. injection H as <- <-. simpl.
  exists cid. split; [reflexivity |].
  intro Hnil. rewrite Hnil in Ea. rewrite backend_average_nil in Ea. now injection Ea as <- _.
Qed.

(** C8.  Neither dashboard ever fails with a division by zero, and the entry
    of a course for which the caller has no grade document carries an
    [avg_grade] of zero: the float [0.0] in [main.py], where the course is
    the entry's own and the sum is divided by [max(len, 1)]; the int [0] in
    [backend/main.py], where the course is the one of the enrollment the
    entry was computed from. *)
Theorem dashboard_average_without_grades (user : dict) (uid : value) (db db' : DB)
    (u : option dict) (courses : option (list dict)) (progress : list progress_entry)
    (entry : progress_entry) (cid : value) :
  (forall db1, Main.dashboard user db <> (Raise ZeroDivisionError, db1))
  /\ (forall db1, Backend.dashboard user db <> (Raise ZeroDivisionError, db1))
  /\ (Main.dashboard user db = (Ret (RDashboard u courses progress), db') ->
      get "_id" user = Some uid ->
      In entry progress ->
      get "_id" (progress_course entry) = Some cid ->
      Mongo.find_docs [("student_id", Is uid); ("course_id", Is cid)] (grade db) = [] ->
      avg_grade entry = PFloat 0 /\ PyNum.is_zero (avg_grade entry) = true)
  /\ (Backend.dashboard user db = (Ret (RDashboard u courses progress), db') ->
      get "_id" user = Some uid ->
      In entry progress ->
      exists en cid,
        In en (Mongo.find_docs [("student_id", Is uid)] (enrollment db))
        /\ doc_get "course_id" en = Some cid
        /\ Backend.enrollment_progress uid en db = (Ret (Some entry), db)
        /\ (Mongo.find_docs [("student_id", Is uid); ("course_id", Is cid)] (grade db) = [] ->
            avg_grade entry = PInt 0 /\ PyNum.is_zero (avg_grade entry) = true)).
Proof.
  split; [intro; apply main_dashboard_nzd |].
  split; [intro; apply backend_dashboard_nzd |].
  split.
  - intros H Hid Hin Hcid' Hnil. unfold Main.dashboard, getitem in H. rewrite Hid in H.
    unfold bind at 1, ret at 1 in H. unfold bind at 1, Mongo.find at 1 in H.
    unfold bind at 1 in H.
    destruct (mapM _ (Mongo.find_docs _ (coll Enrollment db)) db)
      as [[course_ids | ex] db1] eqn:Eids; [| discriminate].
    assert (db1 = db) as ->.
    { eapply (preserves_mapM _ unchanged_refl unchanged_trans); [| exact Eids].
      intro en. unfold Main.to_object_id_value, Main.to_object_id. reads_all. }
    unfold bind at 1 in H.
    destruct ((match course_ids with [] => ret [] | _ => _ end) db)
      as [[cs | ex] db1] eqn:Ecs; [| discriminate].
    assert (db1 = db) as ->.
    { revert Ecs. destruct course_ids; [unfold ret | unfold Mongo.find]; congruence. }
    unfold bind in H.
    destruct (mapM (Main.course_progress uid) cs db) as [[ps | ex] db1] eqn:Eps; [| discriminate].
    injection H as _ _ <- _.
    destruct (mapM_reads_inv _ _ _ (main_course_progress_reads uid) _ _ _ _ Eps) as [_ HF].
    destruct (Forall2_In_r _ _ _ _ _ _ HF Hin) as (c & _ & Hc).
    apply main_course_progress_no_grades in Hc. destruct Hc as [Hcid Havg].
    rewrite Hcid in Hcid'. injection Hcid' as <-.
    rewrite (Havg Hnil). split; reflexivity.
  - intros H Hid Hin. unfold Backend.dashboard, getitem in H. rewrite Hid in H.
    unfold bind at 1, ret at 1 in H. unfold bind at 1, Mongo.find at 1 in H.
    unfold bind in H. change (coll Enrollment db) with (enrollment db) in H.
    destruct (mapM (Backend.enrollment_progress uid) _ db) as [[rs | ex] db1] eqn:Ers;
      [| discriminate].
    injection H as _ _ <- _.
    destruct (mapM_reads_inv _ _ _ (backend_enrollment_progress_reads uid) _ _ _ _ Ers)
      as [_ HF].
    apply In_somes in Hin.
    destruct (Forall2_In_r _ _ _ _ _ _ HF Hin) as (en & Hen & Hp).
    destruct (backend_enrollment_progress_no_grades _ _ _ _ _ Hp) as (cid' & Hcid & Havg).
    exists en, cid'. repeat split; try assumption.
    + now apply Havg.
    + rewrite (Havg H). reflexivity.
Qed.

Lemma dashboard_average_without_grades_witness :
  (avg_grade Sample.main_entry = PFloat 0
   /\ PyNum.is_zero (avg_grade Sample.main_entry) = true)
  /\ exists en cid,
       In en (Mongo.find_docs [("student_id", Is (VStr "000000000000000000000000"))]
                (enrollment Sample.backend_db3))
       /\ doc_get "course_id" en = Some cid
       /\ avg_grade Sample.backend_entry = PInt 0.
Proof.
  split.
  - apply (proj1 (proj2 (proj2
      (dashboard_average_without_grades Sample.main_alice_view
         (VStr "000000000000000000000000") Sample.main_db2 Sample.main_db2
         (Some Sample.main_alice_view)
         (Some [progress_course Sample.main_entry]) [Sample.main_entry]
         Sample.main_entry (VStr Sample.cs101))))).
    + reflexivity.
    + reflexivity.
    + left. reflexivity.
    + reflexivity.
    + reflexivity.
  - destruct (proj2 (proj2 (proj2
      (dashboard_average_without_grades (Backend.to_dict Sample.backend_alice_doc)
         (VStr "000000000000000000000000") Sample.backend_db3 Sample.backend_db3
         None None [Sample.backend_entry] Sample.backend_entry VNull)))
      eq_refl eq_refl (or_introl eq_refl))
      as (en & cid & Hen & Hcid & _ & Havg).
    exists en, cid. split; [exact Hen |]. split; [exact Hcid |].
    apply Havg. reflexivity.
Defined.

(** ** Seeding *)

Lemma find_docs_all ds : Mongo.find_docs [] ds = ds.
Proof. induction ds as [| d ds IH]; simpl; [reflexivity |]. now f_equal. Qed.

(** C9.  On an empty course collection [seed] inserts the three demo courses
    and answers [{"message": "Seeded", "count": 3}]; on a non-empty one it
    inserts nothing and answers [{"message": "Already seeded"}].  Seeding
    twice in a row leaves the course collection as seeding once does. *)
Theorem seed_once (e e' : env) (db : DB) :
  match course db with
  | [] =>
      Backend.seed e db
      = (Ret [("message", VStr "Seeded"); ("count", VInt 3)],
         push Course (Mongo.number (next_oid db) (Backend.demo_courses e)) (next_oid db + 3)%N db)
      /\ map doc_fields (course (snd (Backend.seed e db))) = Backend.demo_courses e
      /\ List.length (course (snd (Backend.seed e db))) = 3%nat
  | _ :: _ =>
      Backend.seed e db = (Ret [("message", VStr "Already seeded")], db)
  end
  /\ Backend.seed e' (snd (Backend.seed e db))
     = (Ret [("message", VStr "Already seeded")], snd (Backend.seed e db))
  /\ course (snd (Backend.seed e' (snd (Backend.seed e db)))) = course (snd (Backend.seed e db)).
Proof.
  assert (Hseed : forall e0 d ds db0, course db0 = d :: ds ->
            Backend.seed e0 db0 = (Ret [("message", VStr "Already seeded")], db0)).
  { intros e0 d ds db0 H. unfold Backend.seed, bind, Mongo.count_documents.
    change (coll Course db0) with (course db0). rewrite find_docs_all, H. reflexivity. }
  assert (Hnonempty : exists d ds, course (snd (Backend.seed e db)) = d :: ds).
  { destruct (course db) as [| d ds] eqn:Ec.
    - unfold Backend.seed, bind, Mongo.count_documents.
      change (coll Course db) with (course db). rewrite find_docs_all, Ec. simpl.
      rewrite Ec. simpl. eauto.
    - rewrite (Hseed e d ds db Ec). simpl. eauto. }
  destruct Hnonempty as (d & ds & Hne).
  split; [| split].
  - destruct (course db) as [| d0 ds0] eqn:Ec.
    + unfold Backend.seed, bind, Mongo.count_documents.
      change (coll Course db) with (course db). rewrite find_docs_all, Ec. simpl.
      rewrite Ec. repeat split.
    + now apply (Hseed e d0 ds0).
  - now apply (Hseed e' d ds).
  - now rewrite (Hseed e' d ds _ Hne).
Qed.

(** The two answers of the specification's example, on the sample database. *)
Lemma seed_example :
  fst (Backend.serve Sample.e0 Backend.PostSeed Sample.backend_db1)
  = Ret (RDict [("message", VStr "Seeded"); ("count", VInt 3)])
  /\ fst (Backend.serve Sample.e1 Backend.PostSeed Sample.backend_db2)
     = Ret (RDict [("message", VStr "Already seeded")]).
Proof. split; reflexivity. Qed.

(** * Further properties of the two programs *)

(** ** Nothing is ever removed or rewritten *)

(** Whatever requests [main.py] serves, every collection afterwards is the
    collection before followed by the documents inserted since: no route
    deletes or updates a document. *)
Theorem main_store_append_only (sha256_hexdigest : string -> string)
    (trace : list (env * Main.request)) (db : DB) (c : cname) :
  exists added, coll c (Main.run sha256_hexdigest trace db) = (coll c db ++ added)%list.
Proof. apply main_run_extends. Qed.

(** The same for [backend/main.py], [POST /seed] included. *)
Theorem backend_store_append_only (trace : list (env * Backend.request)) (db : DB) (c : cname) :
  exists added, coll c (Backend.run trace db) = (coll c db ++ added)%list.
Proof. apply backend_run_extends. Qed.

(** ** One identity per email *)

Lemma matches_email_doc em o name em' rest :
  matches [("email", Is (VStr em))] (Doc o (("name", name) :: ("email", VStr em') :: rest))
  = String.eqb em em'.
Proof. unfold matches, doc_get. simpl. now rewrite andb_true_r. Qed.

Lemma emails_unique_push db em o name rest :
  emails_unique db ->
  Mongo.first_doc [("email", Is (VStr em))] (student db) = None ->
  forall db',
    student db' = (student db ++ [Doc o (("name", name) :: ("email", VStr em) :: rest)])%list ->
    emails_unique db'.
Proof.
  intros Hinv Hnone db' Hdb' em'. unfold email_count. rewrite Hdb'.
  rewrite find_docs_app, length_app, find_docs_single, matches_email_doc.
  destruct (String.eqb em' em) eqn:E; simpl.
  - apply String.eqb_eq in E. subst.
    rewrite (first_doc_none_find_docs _ _ Hnone). simpl. lia.
  - rewrite Nat.add_0_r. apply Hinv.
Qed.

Lemma emails_unique_same db db' :
  same Student db db' -> emails_unique db -> emails_unique db'.
Proof.
  unfold same. simpl. intros H Hinv em. unfold email_count. rewrite H. apply Hinv.
Qed.

Lemma main_serve_same_student sha e r :
  main_is_register r = false -> preserves (same Student) (Main.serve sha e r).
Proof. destruct r; try discriminate; intros _; unfold_main; keeps_all Student. Qed.

Lemma backend_serve_same_student e r :
  backend_is_register r = false -> preserves (same Student) (Backend.serve e r).
Proof. destruct r; try discriminate; intros _; unfold_backend; keeps_all Student. Qed.

Lemma main_serve_emails_unique sha e r db :
  emails_unique db -> emails_unique (snd (Main.serve sha e r db)).
Proof.
  intro Hinv. destruct (main_is_register r) eqn:Hr.
  - destruct r; try discriminate.
    unfold Main.serve, Main.as_session_response, Main.register, bind, Mongo.find_one.
    change (coll Student db) with (student db).
    destruct (Mongo.first_doc _ (student db)) eqn:E; [exact Hinv |].
    eapply emails_unique_push; [exact Hinv | exact E | reflexivity].
  - eapply emails_unique_same; [| exact Hinv].
    eapply (main_serve_same_student sha e r Hr). apply surjective_pairing.
Qed.

Lemma backend_serve_emails_unique e r db :
  emails_unique db -> emails_unique (snd (Backend.serve e r db)).
Proof.
  intro Hinv. destruct (backend_is_register r) eqn:Hr.
  - destruct r; try discriminate.
    unfold Backend.serve, Backend.as_session_response, Backend.register, bind, Mongo.find_one.
    change (coll Student db) with (student db).
    destruct (Mongo.first_doc _ (student db)) eqn:E; [exact Hinv |].
    eapply emails_unique_push; [exact Hinv | exact E | reflexivity].
  - eapply emails_unique_same; [| exact Hinv].
    eapply (backend_serve_same_student e r Hr). apply surjective_pairing.
Qed.

(** In [main.py], a database in which no two identities share an email stays
    so under every sequence of requests: [register] is the only route that
    writes identities, and it looks the email up first. *)
Theorem main_emails_stay_unique (sha256_hexdigest : string -> string)
    (trace : list (env * Main.request)) (db : DB) :
  emails_unique db -> emails_unique (Main.run sha256_hexdigest trace db).
Proof.
  revert db. induction trace as [| [e r] trace IH]; intros db Hinv; simpl; [assumption |].
  apply IH. now apply main_serve_emails_unique.
Qed.

Lemma main_emails_stay_unique_witness :
  emails_unique
    (Main.run Sample.digest
       [(Sample.e0, Main.PostRegister Sample.main_alice);
        (Sample.e1, Main.PostRegister Sample.main_alice)] empty_db).
Proof.
  apply (main_emails_stay_unique Sample.digest _ empty_db).
  intro em. apply Nat.le_0_l.
Defined.

(** The same in [backend/main.py]. *)
Theorem backend_emails_stay_unique (trace : list (env * Backend.request)) (db : DB) :
  emails_unique db -> emails_unique (Backend.run trace db).
Proof.
  revert db. induction trace as [| [e r] trace IH]; intros db Hinv; simpl; [assumption |].
  apply IH. now apply backend_serve_emails_unique.
Qed.

Lemma backend_emails_stay_unique_witness :
  emails_unique
    (Backend.run
       [(Sample.e0, Backend.PostRegister Sample.backend_alice);
        (Sample.e1, Backend.PostRegister Sample.backend_alice)] empty_db).
Proof.
  apply (backend_emails_stay_unique _ empty_db).
  intro em. apply Nat.le_0_l.
Defined.

(** ** One course per code, in [main.py] *)









(** ** Identifiers *)

Lemma hex_digit_ok d :
  (d < 16)%N -> Bson.is_hex (Bson.hex_digit d) = true /\ Bson.lower (Bson.hex_digit d) = Bson.hex_digit d.
Proof.
  intro H.
  assert (d = 0 \/ d = 1 \/ d = 2 \/ d = 3 \/ d = 4 \/ d = 5 \/ d = 6 \/ d = 7 \/ d = 8
          \/ d = 9 \/ d = 10 \/ d = 11 \/ d = 12 \/ d = 13 \/ d = 14 \/ d = 15)%N as Hd by lia.
  repeat (destruct Hd as [-> | Hd]; [split; reflexivity |]). subst. split; reflexivity.
Qed.

Lemma hex_width_ok w : forall n acc,
  String.length (Bson.hex_width w n acc) = (w + String.length acc)%nat
  /\ (Bson.all_hex acc = true -> Bson.all_hex (Bson.hex_width w n acc) = true)
  /\ (Bson.lowercase acc = acc -> Bson.lowercase (Bson.hex_width w n acc) = Bson.hex_width w n acc).
Proof.
  induction w as [| w IH]; intros n acc; simpl.
  - auto.
  - destruct (hex_digit_ok (n mod 16)%N) as [Hh Hl]; [apply N.mod_lt; discriminate |].
    destruct (IH (n / 16)%N (String (Bson.hex_digit (n mod 16)%N) acc)) as (H1 & H2 & H3).
    split; [| split].
    + rewrite H1. simpl. lia.
    + intro Ha. apply H2. simpl. now rewrite Hh, Ha.
    + intro Ha. apply H3. simpl. now rewrite Hl, Ha.
Qed.

(** The identifier the driver gives a document is read back by [ObjectId]
    as itself: [ObjectId(str(oid)) == oid]. *)
Lemma nth_oid_valid n : Bson.ObjectId (Bson.nth_oid n) = Some (Bson.nth_oid n).
Proof.
  unfold Bson.ObjectId, Bson.nth_oid.
  destruct (hex_width_ok 24 n EmptyString) as (H1 & H2 & H3).
  rewrite H1, (H2 eq_refl), (H3 eq_refl). reflexivity.
Qed.

Lemma matches_id o d : matches [("_id", Is (VOid o))] d = String.eqb o (doc_id d).
Proof. unfold matches, doc_get. simpl. now rewrite andb_true_r. Qed.


Lemma first_doc_id_some o ds d :
  Mongo.first_doc [("_id", Is (VOid o))] ds = Some d -> In d ds /\ doc_id d = o.
Proof.
  intro E. apply first_doc_In in E. destruct E as [Hin Hm]. rewrite matches_id in Hm.
  apply String.eqb_eq in Hm. auto.
Qed.

(** ** Enrolling in a course that does not exist *)





(** ** Which request writes where *)

Lemma main_serve_same sha e r c :
  main_writes r c = false -> preserves (same c) (Main.serve sha e r).
Proof. destruct r, c; try discriminate; intros _; unfold_main;
    match goal with |- preserves (same ?k) _ => keeps_all k end.
Qed.

Lemma backend_serve_same e r c :
  backend_writes r c = false -> preserves (same c) (Backend.serve e r).
Proof. destruct r, c; try discriminate; intros _; unfold_backend;
    match goal with |- preserves (same ?k) _ => keeps_all k end.
Qed.

Lemma snd_main_as_dict_response (m : M dict) db :
  snd (Main.as_dict_response m db) = snd (m db).
Proof. unfold Main.as_dict_response, bind, ret. now destruct (m db) as [[d | ex] db1]. Qed.

Lemma snd_backend_as_dict_response (m : M dict) db :
  snd (Backend.as_dict_response m db) = snd (m db).
Proof. unfold Backend.as_dict_response, bind, ret. now destruct (m db) as [[d | ex] db1]. Qed.

(** A property of the database after an authenticated handler holds as soon
    as it holds when the gate refuses and after the handler has run for a
    caller the gate resolved. *)
Lemma main_authenticated_snd A (P : DB -> Prop) e a (h : dict -> M A) db :
  P db ->
  (forall user sid, get "_id" user = Some (VStr sid) -> P (snd (h user db))) ->
  P (snd (Main.authenticated e a h db)).
Proof.
  intros Hdb Hh. unfold Main.authenticated, bind.
  destruct (Main.get_current_user e a db) as [[user | ex] db1] eqn:Hg.
  - destruct (main_gate_role _ _ _ _ _ Hg) as (sid & role & Hid & _ & ->). eapply Hh; eauto.
  - apply main_get_current_user_reads in Hg. unfold unchanged in Hg. now subst.
Qed.

Lemma backend_authenticated_snd A (P : DB -> Prop) e a (h : dict -> M A) db :
  P db ->
  (forall user sid, get "_id" user = Some (VStr sid) -> P (snd (h user db))) ->
  P (snd (Backend.authenticated e a h db)).
Proof.
  intros Hdb Hh. unfold Backend.authenticated, bind.
  destruct (Backend.get_current_user e a db) as [[user | ex] db1] eqn:Hg.
  - destruct (backend_gate_id _ _ _ _ _ Hg) as (sid & Hid & ->). eapply Hh; eauto.
  - apply backend_get_current_user_reads in Hg. unfold unchanged in Hg. now subst.
Qed.

Lemma coll_push_app c ds n db : coll c (push c ds n db) = (coll c db ++ ds)%list.
Proof. now destruct c. Qed.

(** ** Records refer to what exists *)

Lemma course_of_extends cid db db' : extends db db' -> course_of cid db -> course_of cid db'.
Proof.
  intros Hext (o & c & Ho & Hin & Hid). destruct (Hext Course) as [l Hl]. simpl in Hl.
  exists o, c. repeat split; try assumption. rewrite Hl. apply in_or_app. now left.
Qed.

Lemma course_of_found cid o c db :
  Bson.ObjectId cid = Some o ->
  Mongo.first_doc [("_id", Is (VOid o))] (course db) = Some c ->
  course_of cid db.
Proof.
  intros Ho Hc. apply first_doc_id_some in Hc. destruct Hc as [Hin Hid]. now exists o, c.
Qed.

Lemma refers_mono k db db' :
  same k db db' -> extends db db' -> refers_to_courses k db -> refers_to_courses k db'.
Proof.
  intros Hs He Hinv d Hin. unfold same in Hs. rewrite Hs in Hin.
  destruct (Hinv d Hin) as (cid & Hc & Hco). exists cid. split; [assumption |].
  now apply (course_of_extends cid db).
Qed.

Lemma refers_push k db o fields cid n :
  k <> Course ->
  refers_to_courses k db ->
  get "course_id" fields = Some (VStr cid) ->
  course_of cid db ->
  refers_to_courses k (push k [Doc o fields] n db).
Proof.
  intros Hk Hinv Hc Hco d Hin. rewrite coll_push_app in Hin.
  assert (Hcourse : forall cid', course_of cid' db -> course_of cid' (push k [Doc o fields] n db)).
  { intros cid' (o' & c & Ho & Hi & Hid). exists o', c. repeat split; try assumption.
    change (course (push k [Doc o fields] n db)) with (coll Course (push k [Doc o fields] n db)).
    rewrite coll_push_same; [assumption | congruence]. }
  apply in_app_or in Hin. destruct Hin as [Hin | [<- | []]].
  - destruct (Hinv d Hin) as (cid' & Hc' & Hco'). exists cid'. split; [assumption | auto].
  - exists cid. split; [assumption | auto].
Qed.

(** Runs a handler on a symbolic database, splitting on every test. *)
Ltac exec_handler :=
  unfold getitem, doc_getitem, Mongo.find_one, Mongo.find, Mongo.count_documents,
    Mongo.insert_one, bind, ret, raise;
  repeat (cbv beta iota;
          match goal with
          | |- context [match ?x with _ => _ end] =>
              lazymatch x with
              | context [match _ with _ => _ end] => fail
              | _ => destruct x eqn:?
              end
          end);
  cbn [snd fst].






Lemma backend_enroll_refers e body user db :
  refers_to_courses Enrollment db ->
  refers_to_courses Enrollment (snd (Backend.enroll e body user db)).
Proof.
  intro Hinv.
  unfold Backend.enroll, Backend.find_course, Backend.ObjectId, Backend.Schemas.Enrollment,
    Backend.Schemas.str_field.
  exec_handler; try assumption.
  eapply refers_push; try assumption; [discriminate | reflexivity |].
  eapply course_of_found; eassumption.
Qed.

Lemma backend_mark_attendance_refers e body user db :
  refers_to_courses Attendance db ->
  refers_to_courses Attendance (snd (Backend.mark_attendance e body user db)).
Proof.
  intro Hinv.
  unfold Backend.mark_attendance, Backend.find_course, Backend.ObjectId,
    Backend.Schemas.Attendance, Backend.Schemas.str_field.
  exec_handler; try assumption.
  eapply refers_push; try assumption; [discriminate | reflexivity |].
  eapply course_of_found; eassumption.
Qed.

Lemma backend_add_grade_refers e body user db :
  refers_to_courses Grade db ->
  refers_to_courses Grade (snd (Backend.add_grade e body user db)).
Proof.
  intro Hinv.
  unfold Backend.add_grade, Backend.find_course, Backend.ObjectId,
    Backend.Schemas.Grade, Backend.Schemas.str_field.
  exec_handler; try assumption.
  eapply refers_push; try assumption; [discriminate | reflexivity |].
  eapply course_of_found; eassumption.
Qed.

Lemma backend_add_announcement_refers e body user db :
  refers_to_courses Announcement db ->
  refers_to_courses Announcement (snd (Backend.add_announcement e body user db)).
Proof.
  intro Hinv.
  unfold Backend.add_announcement, Backend.find_course, Backend.ObjectId,
    Backend.Schemas.Announcement.
  exec_handler; try assumption.
  eapply refers_push; try assumption; [discriminate | reflexivity |].
  eapply course_of_found; eassumption.
Qed.

Lemma backend_serve_refers e r db k :
  k = Enrollment \/ k = Attendance \/ k = Grade \/ k = Announcement ->
  refers_to_courses k db -> refers_to_courses k (snd (Backend.serve e r db)).
Proof.
  intros Hk Hinv. destruct (backend_writes r k) eqn:Hw.
  - destruct Hk as [-> | [-> | [-> | ->]]]; destruct r; try discriminate; unfold Backend.serve;
      rewrite snd_backend_as_dict_response; apply backend_authenticated_snd; try assumption;
      intros.
    + now apply backend_enroll_refers.
    + now apply backend_mark_attendance_refers.
    + now apply backend_add_grade_refers.
    + now apply backend_add_announcement_refers.
  - eapply refers_mono; [| | exact Hinv].
    + eapply (backend_serve_same e r k Hw). apply surjective_pairing.
    + eapply (backend_serve_extends e r). apply surjective_pairing.
Qed.

(** In [backend/main.py] every enrollment, attendance record, grade and
    announcement carries the identifier of an existing course, after any
    sequence of requests on a database where that held. *)
Theorem backend_records_refer_to_courses (trace : list (env * Backend.request)) (db : DB)
    (k : cname) :
  k = Enrollment \/ k = Attendance \/ k = Grade \/ k = Announcement ->
  refers_to_courses k db ->
  refers_to_courses k (Backend.run trace db).
Proof.
  intro Hk. revert db. induction trace as [| [e r] trace IH]; intros db H; simpl; [assumption |].
  apply IH. now apply backend_serve_refers.
Qed.

Lemma backend_records_refer_to_courses_witness :
  refers_to_courses Enrollment (Backend.run Sample.backend_enroll_trace empty_db).
Proof.
  apply (backend_records_refer_to_courses Sample.backend_enroll_trace empty_db Enrollment).
  - left. reflexivity.
  - intros d [].
Defined.

(** *** In [main.py] attendance and grades belong to an enrollment *)

Lemma belongs_mono k db db' :
  same k db db' -> extends db db' -> belongs_to_enrollment k db -> belongs_to_enrollment k db'.
Proof.
  intros Hs He Hinv d Hin. unfold same in Hs. rewrite Hs in Hin.
  destruct (Hinv d Hin) as (sid & cid & en & H1 & H2 & H3 & H4).
  exists sid, cid, en. repeat split; try assumption.
  destruct (He Enrollment) as [l Hl]. simpl in Hl. rewrite Hl. apply in_or_app. now left.
Qed.

Lemma belongs_push k db o fields sid cid en n :
  k <> Enrollment ->
  belongs_to_enrollment k db ->
  get "student_id" fields = Some (VStr sid) ->
  get "course_id" fields = Some (VStr cid) ->
  Mongo.first_doc (enrollment_query sid cid) (enrollment db) = Some en ->
  belongs_to_enrollment k (push k [Doc o fields] n db).
Proof.
  intros Hk Hinv Hs Hc Hen d Hin. rewrite coll_push_app in Hin.
  assert (Henr : enrollment (push k [Doc o fields] n db) = enrollment db).
  { change (enrollment ?x) with (coll Enrollment x). apply coll_push_same. congruence. }
  rewrite Henr.
  apply in_app_or in Hin. destruct Hin as [Hin | [<- | []]].
  - apply (Hinv d Hin).
  - apply first_doc_In in Hen. destruct Hen as [Hi Hm]. now exists sid, cid, en.
Qed.

Lemma main_mark_attendance_belongs e payload user sid db :
  get "_id" user = Some (VStr sid) ->
  belongs_to_enrollment Attendance db ->
  belongs_to_enrollment Attendance (snd (Main.mark_attendance e payload user db)).
Proof.
  intros Hid Hinv. unfold Main.mark_attendance, getitem. rewrite Hid.
  exec_handler; try assumption.
  eapply belongs_push; try assumption; [discriminate | reflexivity | reflexivity | eassumption].
Qed.

Lemma main_add_grade_belongs e payload user sid db :
  get "_id" user = Some (VStr sid) ->
  belongs_to_enrollment Grade db ->
  belongs_to_enrollment Grade (snd (Main.add_grade e payload user db)).
Proof.
  intros Hid Hinv. unfold Main.add_grade, getitem. rewrite Hid.
  exec_handler; try assumption.
  eapply belongs_push; try assumption; [discriminate | reflexivity | reflexivity | eassumption].
Qed.

Lemma main_serve_belongs sha e r db k :
  k = Attendance \/ k = Grade ->
  belongs_to_enrollment k db -> belongs_to_enrollment k (snd (Main.serve sha e r db)).
Proof.
  intros Hk Hinv. destruct (main_writes r k) eqn:Hw.
  - destruct Hk as [-> | ->]; destruct r; try discriminate; unfold Main.serve;
      rewrite snd_main_as_dict_response; apply main_authenticated_snd; try assumption; intros.
    + eapply main_mark_attendance_belongs; eassumption.
    + eapply main_add_grade_belongs; eassumption.
  - eapply belongs_mono; [| | exact Hinv].
    + eapply (main_serve_same sha e r k Hw). apply surjective_pairing.
    + eapply (main_serve_extends sha e r). apply surjective_pairing.
Qed.

(** In [main.py] every attendance record and every grade carries the
    [student_id] and [course_id] of an enrollment that exists, after any
    sequence of requests on a database where that held: both routes insert
    only for an enrolled caller, and enrollments are never removed. *)
Theorem main_records_belong_to_enrollments (sha256_hexdigest : string -> string)
    (trace : list (env * Main.request)) (db : DB) (k : cname) :
  k = Attendance \/ k = Grade ->
  belongs_to_enrollment k db ->
  belongs_to_enrollment k (Main.run sha256_hexdigest trace db).
Proof.
  intro Hk. revert db. induction trace as [| [e r] trace IH]; intros db H; simpl; [assumption |].
  apply IH. now apply main_serve_belongs.
Qed.

Lemma main_records_belong_to_enrollments_witness :
  belongs_to_enrollment Attendance
    (Main.run Sample.digest
       [(Sample.e1,
         Main.PostAttendanceMark (Some "Bearer tok0")
           (Main.mkAttendanceMarkRequest Sample.cs101 "present"))]
       Sample.main_db2).
Proof.
  apply (main_records_belong_to_enrollments Sample.digest _ Sample.main_db2 Attendance).
  - left. reflexivity.
  - intros d [].
Defined.

(** ** From registration to authentication *)






Lemma first_doc_app_l q l l' d :
  Mongo.first_doc q l = Some d -> Mongo.first_doc q (l ++ l') = Some d.
Proof.
  unfold Mongo.first_doc. induction l as [| x l IH]; simpl; [discriminate |].
  destruct (matches q x); auto.
Qed.

Lemma first_doc_app_r q l d :
  (forall x, In x l -> matches q x = false) -> matches q d = true ->
  forall l', Mongo.first_doc q (l ++ d :: l') = Some d.
Proof.
  unfold Mongo.first_doc. induction l as [| x l IH]; simpl; intros Hl Hd l'.
  - now rewrite Hd.
  - rewrite (Hl x (or_introl eq_refl)). apply IH; auto.
Qed.

Lemma first_doc_extends q c db db' d :
  extends db db' -> Mongo.first_doc q (coll c db) = Some d ->
  Mongo.first_doc q (coll c db') = Some d.
Proof.
  intros He H. destruct (He c) as [l Hl]. rewrite Hl. now apply first_doc_app_l.
Qed.





(** The state [register] of [main.py] leaves when it succeeds. *)
Lemma main_register_ret sha e payload db s db1 :
  Main.register sha e payload db = (Ret s, db1) ->
  let o := Bson.nth_oid (next_oid db) in
  let identity :=
    Doc o [("name", VStr (Main.reg_name payload)); ("email", VStr (Main.reg_email payload));
           ("password_hash", VStr (Main.hash_password sha (Main.reg_password payload)));
           ("role", VStr "student"); ("is_active", VBool true);
           ("created_at", VDate (now e)); ("updated_at", VDate (now e))] in
  Mongo.first_doc [("email", Is (VStr (Main.reg_email payload)))] (student db) = None
  /\ student db1 = (student db ++ [identity])%list
  /\ session db1
     = (session db ++ [Doc (Bson.nth_oid (next_oid db + 1)) (Main.new_session e o)])%list
  /\ s = mkSessionInfo (fresh_token e)
           [("_id", VStr o); ("name", VStr (Main.reg_name payload));
            ("email", VStr (Main.reg_email payload)); ("role", VStr "student")].
Proof.
  unfold Main.register, bind, Mongo.find_one. change (coll Student db) with (student db).
  destruct (Mongo.first_doc _ (student db)) eqn:E; [discriminate |].
  intro H. injection H as <- <-. repeat split.
Qed.




Lemma backend_register_ret e body db s db1 :
  Backend.register e body db = (Ret s, db1) ->
  let o := Bson.nth_oid (next_oid db) in
  let identity := Doc o (Backend.Schemas.Student e (Backend.reg_name body)
                           (Backend.reg_email body) (Backend.reg_password body)) in
  Mongo.first_doc [("email", Is (VStr (Backend.reg_email body)))] (student db) = None
  /\ student db1 = (student db ++ [identity])%list
  /\ session db1
     = (session db ++
        [Doc (Bson.nth_oid (next_oid db + 1))
           (Backend.Schemas.Session e o (fresh_token e) (now e + seven_days))])%list
  /\ s = mkSessionInfo (fresh_token e)
           [("_id", VStr o); ("name", VStr (Backend.reg_name body));
            ("email", VStr (Backend.reg_email body)); ("role", VStr "student")].
Proof.
  unfold Backend.register, bind, Mongo.find_one. change (coll Student db) with (student db).
  destruct (Mongo.first_doc _ (student db)) eqn:E; [discriminate |].
  intro H. injection H as <- <-. repeat split.
Qed.




(** ** Logging in *)

Lemma matches_email_inv em d :
  matches [("email", Is (VStr em))] d = true -> get "email" (doc_fields d) = Some (VStr em).
Proof.
  unfold matches, doc_get. simpl. rewrite andb_true_r.
  destruct (get "email" (doc_fields d)) as [v |]; [| discriminate].
  simpl. intro H. destruct v; try discriminate. simpl in H.
  apply String.eqb_eq in H. now subst.
Qed.

Lemma value_eqb_str_refl s : value_eqb (VStr s) (VStr s) = true.
Proof. apply String.eqb_refl. Qed.

(** In [main.py], after a registration has succeeded and whatever requests
    were served since, [login] with the registered email and password
    succeeds: it answers the identity view [register] answered and appends
    one session, owned by that identity and expiring seven days later.
    With a password whose hash differs it fails with 401 and writes
    nothing. *)
Theorem main_login_after_register (sha256_hexdigest : string -> string) (e : env)
    (payload : Main.RegisterRequest) (db db1 : DB) (s : SessionInfo)
    (trace : list (env * Main.request)) (e' : env) (password' : string) :
  Main.register sha256_hexdigest e payload db = (Ret s, db1) ->
  let db2 := Main.run sha256_hexdigest trace db1 in
  Main.login sha256_hexdigest e'
    (Main.mkLoginRequest (Main.reg_email payload) (Main.reg_password payload)) db2
  = (Ret (mkSessionInfo (fresh_token e') (user s)),
     push Session
       [Doc (Bson.nth_oid (next_oid db2))
          [("user_id", VOid (Bson.nth_oid (next_oid db))); ("token", VStr (fresh_token e'));
           ("expires_at", VDate (now e' + seven_days)); ("created_at", VDate (now e'))]]
       (next_oid db2 + 1)%N db2)
  /\ (sha256_hexdigest password' <> sha256_hexdigest (Main.reg_password payload) ->
      Main.login sha256_hexdigest e' (Main.mkLoginRequest (Main.reg_email payload) password') db2
      = (Raise (HTTPException 401 "Invalid credentials"), db2)).
Proof.
  intros Hreg db2.
  destruct (main_register_ret _ _ _ _ _ _ Hreg) as (Hnone & Hst & _ & ->). cbn [user].
  assert (Hfound : Mongo.first_doc [("email", Is (VStr (Main.reg_email payload)))]
                     (coll Student db2)
                   = Some (Doc (Bson.nth_oid (next_oid db))
                             [("name", VStr (Main.reg_name payload));
                              ("email", VStr (Main.reg_email payload));
                              ("password_hash",
                               VStr (Main.hash_password sha256_hexdigest
                                       (Main.reg_password payload)));
                              ("role", VStr "student"); ("is_active", VBool true);
                              ("created_at", VDate (now e)); ("updated_at", VDate (now e))])).
  { apply (first_doc_extends _ Student db1 db2); [apply main_run_extends |].
    change (coll Student db1) with (student db1). rewrite Hst. apply first_doc_app_r.
    - apply first_doc_none. exact Hnone.
    - apply matches_email. reflexivity. }
  split.
  - unfold Main.login, bind, Mongo.find_one. cbn [Main.login_email Main.login_password].
    rewrite Hfound. unfold Main.credential_ok. cbn [doc_fields get String.eqb Ascii.eqb Bool.eqb].
    rewrite value_eqb_str_refl. reflexivity.
  - intro Hneq.
    unfold Main.login, bind, Mongo.find_one. cbn [Main.login_email Main.login_password].
    rewrite Hfound. unfold Main.credential_ok. cbn [doc_fields get String.eqb Ascii.eqb Bool.eqb].
    unfold Main.hash_password. cbn [value_eqb].
    destruct (String.eqb (sha256_hexdigest (Main.reg_password payload))
                (sha256_hexdigest password')) eqn:E; [| reflexivity].
    apply String.eqb_eq in E. now elim Hneq.
Qed.

Lemma main_login_after_register_witness :
  Main.login Sample.digest Sample.e1 (Main.mkLoginRequest "a@x.com" "p1") Sample.main_db1
  = (Ret (mkSessionInfo "tok1" Sample.main_alice_view),
     push Session
       [Doc "000000000000000000000002"
          [("user_id", VOid "000000000000000000000000"); ("token", VStr "tok1");
           ("expires_at", VDate (2000 + seven_days)); ("created_at", VDate 2000)]]
       3 Sample.main_db1)
  /\ Main.login Sample.digest Sample.e1 (Main.mkLoginRequest "a@x.com" "p2") Sample.main_db1
     = (Raise (HTTPException 401 "Invalid credentials"), Sample.main_db1).
Proof.
  destruct (main_login_after_register Sample.digest Sample.e0 Sample.main_alice empty_db
              Sample.main_db1 (mkSessionInfo "tok0" Sample.main_alice_view) [] Sample.e1 "p2"
              eq_refl) as [Hok Hbad].
  split; [exact Hok | apply Hbad; discriminate].
Defined.

(** While an identity carries the email [em], no request of
    [backend/main.py] adds another identity with that email. *)
Lemma backend_serve_email_owner e r db em x :
  email_taken em db ->
  (forall d, In d (student db) -> matches [("email", Is (VStr em))] d = true -> d = x) ->
  forall d, In d (student (snd (Backend.serve e r db))) ->
    matches [("email", Is (VStr em))] d = true -> d = x.
Proof.
  intros Htaken Hown. destruct (backend_is_register r) eqn:Hr.
  - destruct r; try discriminate.
    unfold Backend.serve, Backend.as_session_response, Backend.register, bind, Mongo.find_one.
    change (coll Student db) with (student db).
    destruct (Mongo.first_doc _ (student db)) eqn:E; [exact Hown |].
    cbn [snd]. intros d Hd Hm.
    change (student (push Session ?a ?b (push Student ?ds ?n db))) with (student db ++ ds)%list
      in Hd.
    apply in_app_or in Hd. destruct Hd as [Hd | [<- | []]]; [now apply Hown |].
    unfold Backend.Schemas.Student in Hm. rewrite matches_email_doc in Hm.
    apply String.eqb_eq in Hm. subst em.
    apply email_taken_found in Htaken. destruct Htaken as [d' Hd']. congruence.
  - pose proof (backend_serve_same_student e r Hr db _ _ (surjective_pairing _)) as Hs.
    unfold same in Hs. simpl in Hs. now rewrite Hs.
Qed.

Lemma backend_run_email_owner trace em x : forall db,
  email_taken em db ->
  (forall d, In d (student db) -> matches [("email", Is (VStr em))] d = true -> d = x) ->
  forall d, In d (student (Backend.run trace db)) ->
    matches [("email", Is (VStr em))] d = true -> d = x.
Proof.
  induction trace as [| [e r] trace IH]; intros db Ht Hown; simpl; [exact Hown |].
  apply IH.
  - eapply email_taken_extends; [| exact Ht].
    eapply (backend_serve_extends e r). apply surjective_pairing.
  - now apply backend_serve_email_owner.
Qed.

(** In [backend/main.py], after a registration has succeeded and whatever
    requests were served since, [login] with the registered email and
    password answers the identity view [register] answered and appends one
    session owned by that identity; with another password it fails with 401
    and writes nothing. *)
Theorem backend_login_after_register (e : env) (body : Backend.RegisterBody) (db db1 : DB)
    (s : SessionInfo) (trace : list (env * Backend.request)) (e' : env) (password' : string) :
  Backend.register e body db = (Ret s, db1) ->
  let db2 := Backend.run trace db1 in
  Backend.login e'
    (Backend.mkLoginBody (Backend.reg_email body) (Backend.reg_password body)) db2
  = (Ret (mkSessionInfo (fresh_token e') (user s)),
     push Session
       [Doc (Bson.nth_oid (next_oid db2))
          [("student_id", VStr (Bson.nth_oid (next_oid db))); ("token", VStr (fresh_token e'));
           ("expires_at", VDate (now e' + seven_days)); ("created_at", VDate (now e'))]]
       (next_oid db2 + 1)%N db2)
  /\ (password' <> Backend.reg_password body ->
      Backend.login e' (Backend.mkLoginBody (Backend.reg_email body) password') db2
      = (Raise (HTTPException 401 "Invalid credentials"), db2)).
Proof.
  intros Hreg db2.
  pose proof (backend_register_takes_email _ _ _ _ _ Hreg) as Htaken.
  destruct (backend_register_ret _ _ _ _ _ Hreg) as (Hnone & Hst & _ & ->). cbn [user].
  set (x := Doc (Bson.nth_oid (next_oid db))
              (Backend.Schemas.Student e (Backend.reg_name body) (Backend.reg_email body)
                 (Backend.reg_password body))) in *.
  assert (Hown1 : forall d, In d (student db1) ->
            matches [("email", Is (VStr (Backend.reg_email body)))] d = true -> d = x).
  { intros d Hd Hm. rewrite Hst in Hd. apply in_app_or in Hd.
    destruct Hd as [Hd | [<- | []]]; [| reflexivity].
    rewrite (first_doc_none _ _ Hnone d Hd) in Hm. discriminate. }
  split.
  - assert (Hfound : Mongo.first_doc
                       [("email", Is (VStr (Backend.reg_email body)));
                        ("password", Is (VStr (Backend.reg_password body)))]
                       (coll Student db2) = Some x).
    { apply (first_doc_extends _ Student db1 db2); [apply backend_run_extends |].
      change (coll Student db1) with (student db1). rewrite Hst. apply first_doc_app_r.
      - intros d Hd. pose proof (first_doc_none _ _ Hnone d Hd) as Hm.
        unfold matches in *. cbn [forallb fst snd] in *.
        rewrite andb_true_r in Hm. now rewrite Hm.
      - unfold x, matches, doc_get, Backend.Schemas.Student. simpl.
        now rewrite !String.eqb_refl. }
    unfold Backend.login, bind, Mongo.find_one.
    cbn [Backend.login_email Backend.login_password]. rewrite Hfound. reflexivity.
  - intro Hneq.
    assert (Hnot : Mongo.first_doc
                     [("email", Is (VStr (Backend.reg_email body)));
                      ("password", Is (VStr password'))]
                     (coll Student db2) = None).
    { destruct (Mongo.first_doc _ (coll Student db2)) as [d |] eqn:E; [| reflexivity].
      exfalso. apply first_doc_In in E. destruct E as [Hd Hm].
      assert (Hme : matches [("email", Is (VStr (Backend.reg_email body)))] d = true).
      { unfold matches in *. cbn [forallb fst snd] in *.
        apply andb_prop in Hm. destruct Hm as [Hm _]. now rewrite Hm. }
      pose proof (backend_run_email_owner trace _ x db1 Htaken Hown1 d Hd Hme) as ->.
      unfold x, matches, doc_get, Backend.Schemas.Student in Hm. simpl in Hm.
      rewrite String.eqb_refl in Hm. simpl in Hm. rewrite andb_true_r in Hm.
      apply String.eqb_eq in Hm. now elim Hneq. }
    unfold Backend.login, bind, Mongo.find_one.
    cbn [Backend.login_email Backend.login_password]. rewrite Hnot. reflexivity.
Qed.

Lemma backend_login_after_register_witness :
  Backend.login Sample.e1 (Backend.mkLoginBody "a@x.com" "p1") Sample.backend_db1
  = (Ret (mkSessionInfo "tok1" Sample.main_alice_view),
     push Session
       [Doc "000000000000000000000002"
          [("student_id", VStr "000000000000000000000000"); ("token", VStr "tok1");
           ("expires_at", VDate (2000 + seven_days)); ("created_at", VDate 2000)]]
       3 Sample.backend_db1)
  /\ Backend.login Sample.e1 (Backend.mkLoginBody "a@x.com" "p2") Sample.backend_db1
     = (Raise (HTTPException 401 "Invalid credentials"), Sample.backend_db1).
Proof.
  destruct (backend_login_after_register Sample.e0 Sample.backend_alice empty_db
              Sample.backend_db1 (mkSessionInfo "tok0" Sample.main_alice_view) [] Sample.e1 "p2"
              eq_refl) as [Hok Hbad].
  split; [exact Hok | apply Hbad; discriminate].
Defined.

(** ** Listing one's own records *)

Lemma value_eqb_sym_str s v : value_eqb (VStr s) v = value_eqb v (VStr s).
Proof. destruct v; try reflexivity. simpl. apply String.eqb_sym. Qed.


Lemma in_find_docs q ds d : In d (Mongo.find_docs q ds) <-> In d ds /\ matches q d = true.
Proof. apply filter_In. Qed.



Lemma find_docs_push_same q c c' ds n db :
  c <> c' -> Mongo.find_docs q (coll c (push c' ds n db)) = Mongo.find_docs q (coll c db).
Proof. intro H. now rewrite coll_push_same. Qed.

(** In [main.py] a grade that [add_grade] accepted is listed by
    [get_grades] for the same caller and course: the listing is what it was
    before, followed by the new record, which carries the grade and label
    sent.  The listing of any other course is unchanged. *)
Theorem main_added_grade_is_listed (e : env) (payload : Main.GradeCreate) (user : dict)
    (sid : string) (db db1 : DB) (answer : dict) (other : string) :
  get "_id" user = Some (VStr sid) ->
  Main.add_grade e payload user db = (Ret answer, db1) ->
  other <> Main.gr_course_id payload ->
  exists before,
    Main.get_grades (Main.gr_course_id payload) user db = (Ret before, db)
    /\ Main.get_grades (Main.gr_course_id payload) user db1
       = (Ret (before ++
               [[("_id", VStr (Bson.nth_oid (next_oid db))); ("student_id", VStr sid);
                 ("course_id", VStr (Main.gr_course_id payload));
                 ("grade", VFloat (Main.gr_grade payload));
                 ("label", Main.opt_str (Main.gr_label payload));
                 ("graded_at", VDate (now e))]])%list, db1)
    /\ fst (Main.get_grades other user db1) = fst (Main.get_grades other user db).
Proof.
  intros Hid Hadd Hother. revert Hadd.
  unfold Main.add_grade, Main.get_grades, getitem. rewrite Hid.
  unfold bind, ret, raise, Mongo.find_one, Mongo.find, Mongo.insert_one.
  destruct (Mongo.first_doc _ (coll Enrollment db)); [| discriminate].
  intro H. injection H as _ <-. eexists. split; [reflexivity |].
  cbn [coll grade attendance]. rewrite !find_docs_app, !map_app, !find_docs_single.
  fold (enrollment_query sid (Main.gr_course_id payload)). fold (enrollment_query sid other).
  rewrite !matches_enrollment, !String.eqb_refl.
  replace (String.eqb other (Main.gr_course_id payload)) with false
    by (symmetry; now apply String.eqb_neq).
  split; [reflexivity |]. cbn [andb fst map]. now rewrite app_nil_r.
Qed.

Lemma main_added_grade_is_listed_witness :
  exists before,
    Main.get_grades Sample.cs101 Sample.main_alice_view Sample.main_db2
    = (Ret before, Sample.main_db2)
    /\ fst (Main.get_grades Sample.cs101 Sample.main_alice_view
              (snd (Main.add_grade Sample.e1 (Main.mkGradeCreate Sample.cs101 90.5 None)
                      Sample.main_alice_view Sample.main_db2)))
       = Ret (before ++
              [[("_id", VStr "000000000000000000000004");
                ("student_id", VStr "000000000000000000000000");
                ("course_id", VStr Sample.cs101); ("grade", VFloat 90.5);
                ("label", VNull); ("graded_at", VDate 2000)]])%list.
Proof.
  destruct (main_added_grade_is_listed Sample.e1 (Main.mkGradeCreate Sample.cs101 90.5 None)
              Sample.main_alice_view "000000000000000000000000" Sample.main_db2
              (snd (Main.add_grade Sample.e1 (Main.mkGradeCreate Sample.cs101 90.5 None)
                      Sample.main_alice_view Sample.main_db2))
              (message "Grade added") "other" eq_refl eq_refl)
    as (before & H1 & H2 & _).
  - discriminate.
  - exists before. split; [exact H1 | exact (f_equal fst H2)].
Defined.

(** The same for attendance: a record [mark_attendance] of [main.py]
    accepted is listed by [get_attendance] for the same caller and course,
    after the records listed before, with the status sent. *)
Theorem main_marked_attendance_is_listed (e : env) (payload : Main.AttendanceMarkRequest)
    (user : dict) (sid : string) (db db1 : DB) (answer : dict) (other : string) :
  get "_id" user = Some (VStr sid) ->
  Main.mark_attendance e payload user db = (Ret answer, db1) ->
  other <> Main.att_course_id payload ->
  exists before,
    Main.get_attendance (Main.att_course_id payload) user db = (Ret before, db)
    /\ Main.get_attendance (Main.att_course_id payload) user db1
       = (Ret (before ++
               [[("_id", VStr (Bson.nth_oid (next_oid db))); ("student_id", VStr sid);
                 ("course_id", VStr (Main.att_course_id payload));
                 ("date", VDate (now e)); ("status", VStr (Main.att_status payload))]])%list,
          db1)
    /\ fst (Main.get_attendance other user db1) = fst (Main.get_attendance other user db).
Proof.
  intros Hid Hadd Hother. revert Hadd.
  unfold Main.mark_attendance, Main.get_attendance, getitem. rewrite Hid.
  unfold bind, ret, raise, Mongo.find_one, Mongo.find, Mongo.insert_one.
  destruct (Mongo.first_doc _ (coll Enrollment db)); [| discriminate].
  intro H. injection H as _ <-. eexists. split; [reflexivity |].
  cbn [coll grade attendance]. rewrite !find_docs_app, !map_app, !find_docs_single.
  fold (enrollment_query sid (Main.att_course_id payload)). fold (enrollment_query sid other).
  rewrite !matches_enrollment, !String.eqb_refl.
  replace (String.eqb other (Main.att_course_id payload)) with false
    by (symmetry; now apply String.eqb_neq).
  split; [reflexivity |]. cbn [andb fst map]. now rewrite app_nil_r.
Qed.

Lemma main_marked_attendance_is_listed_witness :
  exists before,
    Main.get_attendance Sample.cs101 Sample.main_alice_view Sample.main_db2
    = (Ret before, Sample.main_db2)
    /\ fst (Main.get_attendance Sample.cs101 Sample.main_alice_view
              (snd (Main.mark_attendance Sample.e1
                      (Main.mkAttendanceMarkRequest Sample.cs101 "present")
                      Sample.main_alice_view Sample.main_db2)))
       = Ret (before ++
              [[("_id", VStr "000000000000000000000004");
                ("student_id", VStr "000000000000000000000000");
                ("course_id", VStr Sample.cs101); ("date", VDate 2000);
                ("status", VStr "present")]])%list.
Proof.
  destruct (main_marked_attendance_is_listed Sample.e1
              (Main.mkAttendanceMarkRequest Sample.cs101 "present")
              Sample.main_alice_view "000000000000000000000000" Sample.main_db2
              (snd (Main.mark_attendance Sample.e1
                      (Main.mkAttendanceMarkRequest Sample.cs101 "present")
                      Sample.main_alice_view Sample.main_db2))
              (message "Attendance marked") "other" eq_refl eq_refl)
    as (before & H1 & H2 & _).
  - discriminate.
  - exists before. split; [exact H1 | exact (f_equal fst H2)].
Defined.

(** ** The documents the programs store have the fields they read *)

Lemma cname_eq_dec (a b : cname) : {a = b} + {a <> b}.
Proof. decide equality. Defined.

Lemma well_shaped_push shape c d n db :
  well_shaped shape db -> shape c d = true -> well_shaped shape (push c [d] n db).
Proof.
  intros Hdb Hd k x Hx. destruct (cname_eq_dec k c) as [-> | Hne].
  - rewrite coll_push_app in Hx. apply in_app_or in Hx.
    destruct Hx as [Hx | [<- | []]]; [now apply Hdb | assumption].
  - rewrite coll_push_same in Hx by assumption. now apply Hdb.
Qed.

Lemma well_shaped_push_many shape c ds n db :
  well_shaped shape db -> (forall d, In d ds -> shape c d = true) ->
  well_shaped shape (push c ds n db).
Proof.
  intros Hdb Hd k x Hx. destruct (cname_eq_dec k c) as [-> | Hne].
  - rewrite coll_push_app in Hx. apply in_app_or in Hx.
    destruct Hx as [Hx | Hx]; [now apply Hdb | now apply Hd].
  - rewrite coll_push_same in Hx by assumption. now apply Hdb.
Qed.

Lemma well_shaped_empty shape : well_shaped shape empty_db.
Proof. intros c d. destruct c; intros []. Qed.

Lemma snd_main_as_session_response (m : M SessionInfo) db :
  snd (Main.as_session_response m db) = snd (m db).
Proof. unfold Main.as_session_response, bind, ret. now destruct (m db) as [[d | ex] db1]. Qed.

Lemma snd_backend_as_session_response (m : M SessionInfo) db :
  snd (Backend.as_session_response m db) = snd (m db).
Proof. unfold Backend.as_session_response, bind, ret. now destruct (m db) as [[d | ex] db1]. Qed.

(** Closes the goals [exec_handler] leaves about the shape of the database. *)
Ltac shape_goal :=
  repeat first
    [ assumption
    | apply well_shaped_push; [| try reflexivity ] ].

Lemma main_serve_well_shaped sha e r db :
  well_shaped main_shape db -> well_shaped main_shape (snd (Main.serve sha e r db)).
Proof.
  intro Hdb. destruct r; unfold Main.serve;
    rewrite ?snd_main_as_session_response, ?snd_main_as_dict_response.
  - unfold Main.register. exec_handler; shape_goal.
  - unfold Main.login, Main.user_view. exec_handler; shape_goal.
  - apply main_authenticated_snd; [assumption | intros].
    unfold Main.create_course. exec_handler; shape_goal.
  - apply main_authenticated_snd; [assumption | intros].
    unfold Main.enroll_course, Main.to_object_id. exec_handler; shape_goal.
    cbn [main_shape doc_fields get String.eqb Ascii.eqb Bool.eqb is_id_string].
    match goal with E : Bson.ObjectId _ = Some _ |- _ => now rewrite E end.
  - apply main_authenticated_snd; [assumption | intros].
    unfold Main.mark_attendance. exec_handler; shape_goal.
  - apply main_authenticated_snd; [assumption | intros].
    unfold Main.add_grade. exec_handler; shape_goal.
  - apply main_authenticated_snd; [assumption | intros].
    unfold Main.create_announcement, Main.to_object_id. exec_handler; shape_goal.
  - apply main_authenticated_snd; [assumption | intros].
    match goal with |- context [Main.dashboard ?u ?d] =>
      now rewrite (main_dashboard_reads u d _ _ (surjective_pairing _)) end.
Qed.

Lemma id_ok_nth_oid n fields : id_ok (Doc (Bson.nth_oid n) fields) = true.
Proof. unfold id_ok. cbn [doc_id]. rewrite nth_oid_valid. apply String.eqb_refl. Qed.

Lemma id_ok_valid d : id_ok d = true -> Bson.ObjectId (doc_id d) = Some (doc_id d).
Proof.
  unfold id_ok. destruct (Bson.ObjectId (doc_id d)) as [o |]; [| discriminate].
  intro H. apply String.eqb_eq in H. now subst.
Qed.

Lemma backend_shape_id c d : backend_shape c d = true -> id_ok d = true.
Proof. unfold backend_shape. intro H. apply andb_prop in H. tauto. Qed.

(** Closes the shape goals of [backend/main.py]. *)
Ltac backend_shape_goal :=
  repeat first
    [ assumption
    | apply well_shaped_push;
      [| unfold backend_shape; rewrite id_ok_nth_oid;
         cbn [andb doc_fields Backend.Schemas.Session Backend.Schemas.Student
                Backend.Schemas.Course Backend.Schemas.Announcement
                get String.eqb Ascii.eqb Bool.eqb present is_date is_float is_id_string];
         try reflexivity ] ].

Lemma backend_serve_well_shaped e r db :
  well_shaped backend_shape db -> well_shaped backend_shape (snd (Backend.serve e r db)).
Proof.
  intro Hdb. destruct r; unfold Backend.serve;
    rewrite ?snd_backend_as_session_response, ?snd_backend_as_dict_response.
  - unfold Backend.register. exec_handler; backend_shape_goal.
    now rewrite nth_oid_valid.
  - unfold Backend.login, Backend.user_view. exec_handler; backend_shape_goal.
    all: match goal with E : Mongo.first_doc _ (coll Student ?db) = Some ?u |- _ =>
      apply first_doc_In in E; destruct E as [E _];
      now rewrite (id_ok_valid u (backend_shape_id _ _ (Hdb Student u E))) end.
  - apply backend_authenticated_snd; [assumption | intros].
    unfold Backend.create_course. exec_handler; backend_shape_goal.
  - apply backend_authenticated_snd; [assumption | intros].
    unfold Backend.enroll, Backend.find_course, Backend.ObjectId, Backend.Schemas.Enrollment,
      Backend.Schemas.str_field.
    exec_handler; backend_shape_goal.
    match goal with E : Bson.ObjectId _ = Some _ |- _ => now rewrite E end.
  - apply backend_authenticated_snd; [assumption | intros].
    unfold Backend.mark_attendance, Backend.find_course, Backend.ObjectId,
      Backend.Schemas.Attendance, Backend.Schemas.str_field.
    exec_handler; backend_shape_goal.
  - apply backend_authenticated_snd; [assumption | intros].
    unfold Backend.add_grade, Backend.find_course, Backend.ObjectId,
      Backend.Schemas.Grade, Backend.Schemas.str_field.
    exec_handler; backend_shape_goal.
  - apply backend_authenticated_snd; [assumption | intros].
    unfold Backend.add_announcement, Backend.find_course, Backend.ObjectId.
    exec_handler; backend_shape_goal.
  - apply backend_authenticated_snd; [assumption | intros].
    match goal with |- context [Backend.dashboard ?u ?d] =>
      now rewrite (backend_dashboard_reads u d _ _ (surjective_pairing _)) end.
  - unfold Backend.seed, Mongo.insert_many. exec_handler; try assumption.
    apply well_shaped_push_many; [assumption |].
    intros d Hd. cbn [Backend.demo_courses Mongo.number] in Hd.
    destruct Hd as [<- | [<- | [<- | []]]];
      unfold backend_shape; rewrite id_ok_nth_oid; reflexivity.
Qed.

Lemma main_run_well_shaped sha trace : forall db,
  well_shaped main_shape db -> well_shaped main_shape (Main.run sha trace db).
Proof.
  induction trace as [| [e r] trace IH]; intros db H; simpl; [assumption |].
  apply IH. now apply main_serve_well_shaped.
Qed.

Lemma backend_run_well_shaped trace : forall db,
  well_shaped backend_shape db -> well_shaped backend_shape (Backend.run trace db).
Proof.
  induction trace as [| [e r] trace IH]; intros db H; simpl; [assumption |].
  apply IH. now apply backend_serve_well_shaped.
Qed.

(** Uses the shape of the documents a run found to refute the failures
    that a missing or ill-typed field would cause. *)
Ltac by_shape Hdb :=
  repeat match goal with
         | E : Mongo.first_doc _ (coll ?c _) = Some ?d |- _ =>
             let Hin := fresh "Hin" in
             let Hs := fresh "Hs" in
             pose proof (proj1 (first_doc_In _ _ _ E)) as Hin;
             pose proof (Hdb c d Hin) as Hs; clear E
         end;
  unfold main_shape, backend_shape, id_ok in *;
  repeat match goal with
         | E : get ?k ?f = _, Hs : context [get ?k ?f] |- _ => rewrite E in Hs
         end;
  cbn [present is_date is_float is_id_string andb] in *;
  try discriminate;
  repeat match goal with
         | Hs : _ && _ = true |- _ => apply andb_prop in Hs; destruct Hs
         end;
  try discriminate.


Lemma after_first_space_bearer s :
  PyStr.startswith "Bearer " s = true -> exists t, PyStr.after_first_space s = Some t.
Proof.
  unfold PyStr.startswith. intro H.
  do 7 (destruct s as [| ? s]; [discriminate H |];
        cbn [String.prefix] in H;
        match type of H with
        | (if ascii_dec ?a ?b then _ else _) = true =>
            destruct (ascii_dec a b) as [<- |]; [| discriminate H]
        end).
  simpl. eauto.
Qed.

Lemma backend_gate_total e a db res db' :
  well_shaped backend_shape db ->
  Backend.get_current_user e a db = (res, db') ->
  match res with
  | Ret _ => True
  | Raise ex => exists detail, ex = HTTPException 401 detail
  end.
Proof.
  intros Hdb H. unfold Backend.get_current_user, Backend.ObjectId in H.
  unfold_run. inv_run; try exact I; try (eexists; reflexivity); exfalso.
  all: try match goal with
           | E : negb (PyStr.startswith "Bearer " ?s) = false,
             E' : PyStr.after_first_space ?s = None |- _ =>
               apply negb_false_iff in E; apply after_first_space_bearer in E;
               destruct E as [t E]; congruence
           end.
  all: by_shape Hdb;
    repeat match goal with
           | E : Bson.ObjectId ?s = _, Hs : context [Bson.ObjectId ?s] |- _ => rewrite E in Hs
           end;
    discriminate.
Qed.



(** The same for the gate of [backend/main.py], which in addition turns the
    session's [student_id] back into an ObjectId. *)
Theorem backend_gate_resolves_or_refuses (trace : list (env * Backend.request)) (db0 : DB)
    (e : env) (a : option string) :
  well_shaped backend_shape db0 ->
  let db := Backend.run trace db0 in
  (exists user, Backend.get_current_user e a db = (Ret user, db))
  \/ (exists detail,
        Backend.get_current_user e a db = (Raise (HTTPException 401 detail), db)).
Proof.
  intros H0 db.
  pose proof (backend_run_well_shaped trace db0 H0) as Hdb. fold db in Hdb.
  destruct (Backend.get_current_user e a db) as [res db'] eqn:E.
  pose proof (backend_get_current_user_reads _ _ _ _ _ E) as ->.
  pose proof (backend_gate_total _ _ _ _ _ Hdb E) as Ht.
  destruct res as [user | ex]; [left; eauto |].
  destruct Ht as [detail ->]. right. eauto.
Qed.

Lemma backend_gate_resolves_or_refuses_witness :
  (exists user,
     Backend.get_current_user Sample.e1 (Some "Bearer tok0") Sample.backend_db3
     = (Ret user, Sample.backend_db3))
  \/ (exists detail,
        Backend.get_current_user Sample.e1 (Some "Bearer tok0") Sample.backend_db3
        = (Raise (HTTPException 401 detail), Sample.backend_db3)).
Proof.
  apply (backend_gate_resolves_or_refuses Sample.backend_enroll_trace empty_db
           Sample.e1 (Some "Bearer tok0")).
  apply well_shaped_empty.
Defined.

(** ** [main.py] fails only with the errors it raises itself *)

Lemma mapM_total A B (f : A -> M B) l db :
  (forall a, In a l -> exists b, f a db = (Ret b, db)) ->
  exists bs, mapM f l db = (Ret bs, db).
Proof.
  induction l as [| a l IH]; intro H; simpl.
  - eexists. reflexivity.
  - destruct (H a (or_introl eq_refl)) as [b Hb].
    destruct IH as [bs Hbs]; [intros x Hx; apply H; now right |].
    exists (b :: bs). unfold bind. rewrite Hb, Hbs. reflexivity.
Qed.

Lemma summands_of_floats docs db :
  (forall g, In g docs -> is_float (get "grade" (doc_fields g)) = true) ->
  exists fs,
    mapM (fun g => PyNum.of_value (get_default "grade" (VInt 0) (doc_fields g))) docs db
    = (Ret (map PFloat fs), db)
    /\ List.length fs = List.length docs.
Proof.
  induction docs as [| g docs IH]; intro H; simpl.
  - exists []. split; reflexivity.
  - destruct IH as (fs & Hfs & Hlen); [intros x Hx; apply H; now right |].
    pose proof (H g (or_introl eq_refl)) as Hg. unfold is_float in Hg.
    assert (Hf : exists f, get_default "grade" (VInt 0) (doc_fields g) = VFloat f).
    { unfold get_default.
      destruct (get "grade" (doc_fields g)) as [[| | | f | | |] |]; try discriminate. eauto. }
    destruct Hf as [f Hf]. rewrite Hf.
    exists (f :: fs). unfold bind. cbn [PyNum.of_value]. unfold ret at 1. rewrite Hfs.
    split; [reflexivity | simpl; now rewrite Hlen].
Qed.

Lemma sum_from_floats fs : forall x db,
  exists y, PyNum.sum_from (PFloat x) (map PFloat fs) db = (Ret (PFloat y), db).
Proof.
  induction fs as [| f fs IH]; intros x db; simpl.
  - eexists. reflexivity.
  - unfold bind. cbn [PyNum.add]. unfold ret at 1. apply IH.
Qed.

Lemma sum_of_floats f fs db :
  exists y, PyNum.sum (map PFloat (f :: fs)) db = (Ret (PFloat y), db).
Proof.
  unfold PyNum.sum. simpl. unfold bind at 1. cbn [PyNum.add]. unfold bind at 1.
  change (PyNum.finite (PyNum.float_of_Z 0) db) with (Ret 0%float, db).
  cbv beta iota. unfold ret at 1. apply sum_from_floats.
Qed.



(** Splits a hypothesis about a run of a handler on every test it made. *)
Ltac inv_handler H :=
  unfold getitem, doc_getitem, doc_get, Mongo.find_one, Mongo.find, Mongo.count_documents,
    Mongo.insert_one, bind, ret, raise in H;
  cbn [String.eqb Ascii.eqb Bool.eqb] in H;
  inv_run.








(** ** Sorted listings *)

Lemma insert_desc_perm key d l : Permutation (Mongo.insert_desc key d l) (d :: l).
Proof.
  induction l as [| x l IH]; simpl; [apply Permutation_refl |].
  destruct (Mongo.geb key d x); [apply Permutation_refl |].
  eapply Permutation_trans; [apply perm_skip, IH | apply perm_swap].
Qed.

(** Sorting returns the documents it was given, each once. *)
Lemma sort_desc_perm key l : Permutation (Mongo.sort_desc key l) l.
Proof.
  induction l as [| x l IH]; simpl; [apply perm_nil |].
  eapply Permutation_trans; [apply insert_desc_perm | now apply perm_skip].
Qed.

Lemma geb_dates key a b ta tb :
  doc_get key a = Some (VDate ta) -> doc_get key b = Some (VDate tb) ->
  Mongo.geb key a b = (tb <=? ta).
Proof.
  intros Ha Hb. unfold Mongo.geb, BsonOrder.compare. rewrite Ha, Hb. cbn [BsonOrder.kind].
  rewrite Z.compare_refl. rewrite (Z.leb_compare tb ta), (Z.compare_antisym tb ta).
  now destruct (tb ?= ta).
Qed.

Lemma insert_desc_hd key d l x :
  HdRel (newer key) x l -> newer key x d -> HdRel (newer key) x (Mongo.insert_desc key d l).
Proof.
  intros Hl Hd. destruct l as [| y l]; simpl; [now constructor |].
  destruct (Mongo.geb key d y); constructor; [assumption | now inversion Hl].
Qed.

Lemma insert_desc_sorted key d l :
  dated key d -> Forall (dated key) l ->
  Sorted (newer key) l -> Sorted (newer key) (Mongo.insert_desc key d l).
Proof.
  intros [td Hd] Hall Hs. induction l as [| x l IH]; simpl.
  - repeat constructor.
  - inversion Hall as [| ? ? [tx Hx] Hall']; subst. inversion Hs as [| ? ? Hs' Hhd]; subst.
    destruct (Mongo.geb key d x) eqn:E.
    + constructor; [assumption |]. constructor. exists td, tx.
      rewrite (geb_dates key d x td tx Hd Hx) in E. apply Z.leb_le in E. auto.
    + constructor; [now apply IH |]. apply insert_desc_hd; [assumption |].
      rewrite (geb_dates key d x td tx Hd Hx) in E. apply Z.leb_gt in E.
      exists tx, td. repeat split; try assumption. lia.
Qed.

(** Documents that all hold a date under the sort key come out newest
    first. *)
Lemma sort_desc_sorted key l :
  Forall (dated key) l -> Sorted (newer key) (Mongo.sort_desc key l).
Proof.
  induction 1 as [| x l Hx Hl IH]; simpl; [constructor |].
  apply insert_desc_sorted; try assumption.
  eapply Permutation_Forall; [apply Permutation_sym, sort_desc_perm | assumption].
Qed.

Lemma is_date_dated key d :
  String.eqb key "_id" = false -> is_date (get key (doc_fields d)) = true -> dated key d.
Proof.
  intros Hk H. unfold dated, doc_get. rewrite Hk.
  destruct (get key (doc_fields d)) as [[] |]; try discriminate. eauto.
Qed.

Lemma find_sorted_newest_first c q key db :
  (forall d, In d (coll c db) -> dated key d) ->
  exists items,
    Mongo.find_sorted c q key db = (Ret items, db)
    /\ newest_first key (Mongo.find_docs q (coll c db)) items.
Proof.
  intro H. eexists. split; [reflexivity |]. split; [apply sort_desc_perm |].
  apply sort_desc_sorted, Forall_forall. intros d Hd.
  apply in_find_docs in Hd. apply H, Hd.
Qed.


Lemma backend_dated c key db :
  well_shaped backend_shape db ->
  (c, key) = (Course, "created_at") \/ (c, key) = (Attendance, "date")
  \/ (c, key) = (Grade, "created_at") \/ (c, key) = (Announcement, "created_at") ->
  forall d, In d (coll c db) -> dated key d.
Proof.
  intros H Hc d Hd. specialize (H c d Hd). unfold backend_shape in H.
  apply andb_prop in H. destruct H as [_ H].
  destruct Hc as [E | [E | [E | E]]]; injection E; clear E; intros; subst;
    (apply is_date_dated; [reflexivity |]); try assumption.
  apply andb_prop in H. tauto.
Qed.



(** In [backend/main.py], after any requests served from a store of
    well-formed documents, [list_courses], [list_attendance], [list_grades]
    and [list_announcements] answer the stored documents that match their
    query, each once, with [_id] as a string and the newest first (by
    [created_at], for attendance by [date]); they write nothing. *)
Theorem backend_listings_newest_first (trace : list (env * Backend.request)) (db0 : DB)
    (course_id : string) (user : dict) (uid : value) :
  well_shaped backend_shape db0 ->
  get "_id" user = Some uid ->
  let db := Backend.run trace db0 in
  let mine := [("student_id", Is uid); ("course_id", Is (VStr course_id))] in
  exists courses records grades announcements,
    Backend.list_courses db = (Ret (map Backend.to_dict courses), db)
    /\ newest_first "created_at" (Mongo.find_docs [] (course db)) courses
    /\ Backend.list_attendance course_id user db = (Ret (map Backend.to_dict records), db)
    /\ newest_first "date" (Mongo.find_docs mine (attendance db)) records
    /\ Backend.list_grades course_id user db = (Ret (map Backend.to_dict grades), db)
    /\ newest_first "created_at" (Mongo.find_docs mine (grade db)) grades
    /\ Backend.list_announcements course_id user db
       = (Ret (map Backend.to_dict announcements), db)
    /\ newest_first "created_at"
         (Mongo.find_docs [("course_id", Is (VStr course_id))] (announcement db)) announcements.
Proof.
  intros H0 Hid db mine. pose proof (backend_run_well_shaped trace db0 H0) as Hdb. fold db in Hdb.
  destruct (find_sorted_newest_first Course [] "created_at" db
              (backend_dated _ _ db Hdb (or_introl eq_refl))) as (cs & E1 & H1).
  destruct (find_sorted_newest_first Attendance mine "date" db
              (backend_dated _ _ db Hdb (or_intror (or_introl eq_refl)))) as (rs & E2 & H2).
  destruct (find_sorted_newest_first Grade mine "created_at" db
              (backend_dated _ _ db Hdb (or_intror (or_intror (or_introl eq_refl)))))
    as (gs & E3 & H3).
  destruct (find_sorted_newest_first Announcement [("course_id", Is (VStr course_id))]
              "created_at" db
              (backend_dated _ _ db Hdb (or_intror (or_intror (or_intror eq_refl)))))
    as (ans & E4 & H4).
  exists cs, rs, gs, ans.
  unfold Backend.list_courses, Backend.list_attendance, Backend.list_grades,
    Backend.list_announcements, getitem. rewrite Hid. unfold bind, ret.
  fold mine. rewrite E1, E2, E3, E4. repeat split; first [apply H1 | apply H2 | apply H3 | apply H4].
Qed.

Lemma backend_listings_newest_first_witness :
  exists courses,
    Backend.list_courses Sample.backend_db3 = (Ret (map Backend.to_dict courses), Sample.backend_db3)
    /\ newest_first "created_at" (Mongo.find_docs [] (course Sample.backend_db3)) courses.
Proof.
  destruct (backend_listings_newest_first Sample.backend_enroll_trace empty_db Sample.cs101
              (Backend.to_dict Sample.backend_alice_doc) (VStr "000000000000000000000000")
              (well_shaped_empty backend_shape) eq_refl)
    as (courses & _ & _ & _ & E & H & _).
  exists courses. split; [exact E | exact H].
Defined.

(** ** What makes [backend/main.py] fail *)

Lemma backend_average_total docs db :
  (forall g, In g docs -> is_float (get "grade" (doc_fields g)) = true) ->
  exists avg, Backend.average docs db = (Ret avg, db).
Proof.
  intro H. destruct (summands_of_floats docs db H) as (fs & Hfs & Hlen).
  destruct docs as [| g0 docs0]; [eexists; reflexivity |].
  unfold Backend.average, bind. rewrite Hfs.
  destruct fs as [| f fs]; [discriminate Hlen |].
  destruct (sum_of_floats f fs db) as [y Hy]. rewrite Hy.
  eexists. reflexivity.
Qed.

Lemma backend_find_course_id s db :
  is_id_string (Some (VStr s)) = true ->
  exists c, Backend.find_course (VStr s) db = (Ret c, db).
Proof.
  unfold is_id_string, Backend.find_course, Backend.ObjectId, bind, Mongo.find_one.
  destruct (Bson.ObjectId s); [| discriminate]. intros _. eexists. reflexivity.
Qed.

Lemma backend_enrollment_progress_total uid en db :
  well_shaped backend_shape db -> In en (coll Enrollment db) ->
  exists p, Backend.enrollment_progress uid en db = (Ret p, db).
Proof.
  intros Hdb Hen. pose proof (Hdb Enrollment en Hen) as Hs. unfold backend_shape in Hs.
  apply andb_prop in Hs. destruct Hs as [_ Hs].
  unfold Backend.enrollment_progress, doc_getitem, doc_get.
  cbn [String.eqb Ascii.eqb Bool.eqb].
  destruct (get "course_id" (doc_fields en)) as [[| | | | s | |] |] eqn:E; try discriminate.
  destruct (backend_find_course_id s db Hs) as [c Hc].
  unfold bind at 1, ret at 1. unfold bind at 1. rewrite Hc.
  destruct c as [c |]; [| eexists; reflexivity].
  unfold bind, Mongo.count_documents, Mongo.find.
  destruct (backend_average_total
              (Mongo.find_docs [("student_id", Is uid); ("course_id", Is (VStr s))]
                 (coll Grade db)) db) as [avg Havg].
  - intros g Hg. apply in_find_docs in Hg. destruct Hg as [Hg _].
    pose proof (Hdb Grade g Hg) as Hsg. unfold backend_shape in Hsg.
    apply andb_prop in Hsg. destruct Hsg as [_ Hsg]. apply andb_prop in Hsg. tauto.
  - rewrite Havg. eexists. reflexivity.
Qed.

Lemma backend_dashboard_total user uid db :
  well_shaped backend_shape db ->
  get "_id" user = Some uid ->
  exists r, Backend.dashboard user db = (Ret r, db).
Proof.
  intros Hdb Hid. unfold Backend.dashboard, getitem. rewrite Hid.
  unfold bind at 1, ret at 1. unfold bind at 1, Mongo.find at 1. unfold bind at 1.
  destruct (mapM_total _ _ (Backend.enrollment_progress uid)
              (Mongo.find_docs [("student_id", Is uid)] (coll Enrollment db)) db)
    as [ps Hps].
  { intros en Hen. apply in_find_docs in Hen. destruct Hen as [Hen _].
    now apply backend_enrollment_progress_total. }
  rewrite Hps. eexists. reflexivity.
Qed.

Lemma backend_authenticated_fails A (P : exn -> Prop) e a (h : dict -> M A) db :
  well_shaped backend_shape db ->
  (forall status detail, P (HTTPException status detail)) ->
  (forall user sid, get "_id" user = Some (VStr sid) -> fails_within P (fst (h user db))) ->
  fails_within P (fst (Backend.authenticated e a h db)).
Proof.
  intros Hdb HP Hh. unfold Backend.authenticated, bind.
  destruct (Backend.get_current_user e a db) as [[user | ex] db1] eqn:Hg.
  - destruct (backend_gate_id _ _ _ _ _ Hg) as (sid & Hid & ->). eapply Hh; eauto.
  - destruct (backend_gate_total _ _ _ _ _ Hdb Hg) as [detail ->]. simpl. apply HP.
Qed.

Lemma fails_as_dict_response (P : exn -> Prop) (m : M dict) db :
  fails_within P (fst (m db)) -> fails_within P (fst (Backend.as_dict_response m db)).
Proof. unfold Backend.as_dict_response, bind, ret. now destruct (m db) as [[d | ex] db1]. Qed.

Lemma fails_as_session_response (P : exn -> Prop) (m : M SessionInfo) db :
  fails_within P (fst (m db)) -> fails_within P (fst (Backend.as_session_response m db)).
Proof. unfold Backend.as_session_response, bind, ret. now destruct (m db) as [[d | ex] db1]. Qed.

Ltac backend_leaf :=
  first [ exact I
        | simpl; eexists; split; [reflexivity | assumption] ].

Lemma backend_serve_fails e r db :
  well_shaped backend_shape db ->
  fails_within (backend_failure r) (fst (Backend.serve e r db)).
Proof.
  intro Hdb. destruct r; unfold Backend.serve.
  - apply fails_as_session_response. unfold Backend.register. exec_handler; backend_leaf.
  - apply fails_as_session_response.
    destruct (Backend.login e body db) as [res db1] eqn:E. cbn [fst].
    unfold Backend.login, Backend.user_view in E. inv_handler E; try backend_leaf;
      exfalso; by_shape Hdb.
  - apply fails_as_dict_response.
    apply backend_authenticated_fails; [assumption | intros; exact I | intros].
    unfold Backend.create_course. exec_handler; backend_leaf.
  - apply fails_as_dict_response.
    apply backend_authenticated_fails; [assumption | intros; exact I | intros].
    unfold Backend.enroll, Backend.find_course, Backend.ObjectId, Backend.Schemas.Enrollment,
      Backend.Schemas.str_field, getitem.
    match goal with E : get "_id" _ = Some _ |- _ => rewrite E end.
    exec_handler; backend_leaf.
  - apply fails_as_dict_response.
    apply backend_authenticated_fails; [assumption | intros; exact I | intros].
    unfold Backend.mark_attendance, Backend.find_course, Backend.ObjectId,
      Backend.Schemas.Attendance, Backend.Schemas.str_field, getitem.
    match goal with E : get "_id" _ = Some _ |- _ => rewrite E end.
    exec_handler; backend_leaf.
  - apply fails_as_dict_response.
    apply backend_authenticated_fails; [assumption | intros; exact I | intros].
    unfold Backend.add_grade, Backend.find_course, Backend.ObjectId,
      Backend.Schemas.Grade, Backend.Schemas.str_field, getitem.
    match goal with E : get "_id" _ = Some _ |- _ => rewrite E end.
    exec_handler; backend_leaf.
  - apply fails_as_dict_response.
    apply backend_authenticated_fails; [assumption | intros; exact I | intros].
    unfold Backend.add_announcement, Backend.find_course, Backend.ObjectId, getitem.
    exec_handler; backend_leaf.
  - apply backend_authenticated_fails; [assumption | intros; exact I | intros].
    match goal with E : get "_id" ?u = Some ?v |- _ =>
      destruct (backend_dashboard_total u v db Hdb E) as [r Hr]; rewrite Hr end.
    exact I.
  - apply fails_as_dict_response. unfold Backend.seed, Mongo.insert_many.
    exec_handler; backend_leaf.
Qed.

(** On every database [backend/main.py] reaches, a request is answered or
    fails in one of three ways: with an [HTTPException] the program raises
    itself; with [InvalidId], and then its body carries a [course_id] that
    is not an ObjectId; with a validation error, and then it is an
    attendance mark whose [status] the [Attendance] model refuses.  No
    [KeyError], [TypeError], [IndexError] or division fault escapes. *)
Theorem backend_failures_are_known (trace : list (env * Backend.request)) (db0 : DB)
    (e : env) (r : Backend.request) :
  well_shaped backend_shape db0 ->
  match fst (Backend.serve e r (Backend.run trace db0)) with
  | Ret _ => True
  | Raise (HTTPException _ _) => True
  | Raise InvalidId => exists c, backend_course_id r = Some c /\ Bson.ObjectId c = None
  | Raise ValidationError =>
      exists s, backend_status r = Some s /\ Backend.Schemas.status_ok s = false
  | Raise _ => False
  end.
Proof.
  intro H0. apply (backend_serve_fails e r (Backend.run trace db0)).
  now apply backend_run_well_shaped.
Qed.

Lemma backend_failures_are_known_witness :
  fst (Backend.serve Sample.e1
         (Backend.PostAttendanceMark (Some "Bearer tok0")
            (Backend.mkAttendanceBody Sample.cs101 "late"))
         (Backend.run Sample.backend_enroll_trace empty_db))
  = Raise ValidationError
  /\ exists s,
       backend_status (Backend.PostAttendanceMark (Some "Bearer tok0")
                         (Backend.mkAttendanceBody Sample.cs101 "late")) = Some s
       /\ Backend.Schemas.status_ok s = false.
Proof.
  split; [reflexivity |].
  exact (backend_failures_are_known Sample.backend_enroll_trace empty_db Sample.e1
           (Backend.PostAttendanceMark (Some "Bearer tok0")
              (Backend.mkAttendanceBody Sample.cs101 "late"))
           (well_shaped_empty backend_shape)).
Defined.


(** ** The courses of the caller *)

Lemma mapM_ret A B (f : A -> M B) (g : A -> option B) l db :
  (forall a, In a l -> exists b, g a = Some b /\ f a db = (Ret b, db)) ->
  exists bs, mapM f l db = (Ret bs, db) /\ map Some bs = map g l.
Proof.
  induction l as [| a l IH]; intro H; simpl.
  - exists []. split; reflexivity.
  - destruct (H a (or_introl eq_refl)) as (b & Hg & Hb).
    destruct IH as (bs & Hbs & Hm); [intros x Hx; apply H; now right |].
    exists (b :: bs). unfold bind. rewrite Hb, Hbs. split; [reflexivity |].
    simpl. now rewrite Hg, Hm.
Qed.

Lemma in_map_some A B (g : A -> option B) l bs b :
  map Some bs = map g l -> (In b bs <-> exists a, In a l /\ g a = Some b).
Proof.
  intro H. split.
  - intro Hb. apply (in_map Some) in Hb. rewrite H in Hb. apply in_map_iff in Hb.
    destruct Hb as (a & Ha & Hin). eauto.
  - intros (a & Hin & Ha). apply (in_map g) in Hin. rewrite <- H, Ha in Hin.
    apply in_map_iff in Hin. destruct Hin as (x & Hx & Hin). now injection Hx as ->.
Qed.

Lemma matches_student sid d :
  matches [("student_id", Is (VStr sid))] d = true
  <-> get "student_id" (doc_fields d) = Some (VStr sid).
Proof.
  unfold matches, doc_get. cbn [forallb fst snd String.eqb Ascii.eqb Bool.eqb].
  rewrite andb_true_r.
  destruct (get "student_id" (doc_fields d)) as [v |]; cbn [cond_holds];
    [| split; discriminate].
  rewrite (value_eqb_sym_str sid v), value_eqb_str. split; congruence.
Qed.

Lemma matches_in_oids os d :
  matches [("_id", InOids os)] d = true <-> In (doc_id d) os.
Proof.
  unfold matches, doc_get. cbn [forallb fst snd String.eqb Ascii.eqb Bool.eqb cond_holds].
  rewrite andb_true_r, existsb_exists. split.
  - intros (o & Ho & E). apply String.eqb_eq in E. now subst.
  - intro H. exists (doc_id d). split; [assumption | apply String.eqb_refl].
Qed.

Lemma enrolled_course_shape shape db en :
  (forall d, shape Enrollment d = true -> is_id_string (get "course_id" (doc_fields d)) = true) ->
  well_shaped shape db -> In en (enrollment db) ->
  exists s o, get "course_id" (doc_fields en) = Some (VStr s)
              /\ Bson.ObjectId s = Some o /\ enrolled_course en = Some o.
Proof.
  intros Hshape Hdb Hen. pose proof (Hshape en (Hdb Enrollment en Hen)) as H.
  unfold is_id_string in H. unfold enrolled_course.
  destruct (get "course_id" (doc_fields en)) as [[| | | | s | |] |]; try discriminate.
  destruct (Bson.ObjectId s) as [o |] eqn:E; [| discriminate]. now exists s, o.
Qed.

Lemma main_shape_enrollment d :
  main_shape Enrollment d = true -> is_id_string (get "course_id" (doc_fields d)) = true.
Proof. trivial. Qed.

Lemma backend_shape_enrollment d :
  backend_shape Enrollment d = true -> is_id_string (get "course_id" (doc_fields d)) = true.
Proof. unfold backend_shape. intro H. apply andb_prop in H. tauto. Qed.

(** In [main.py], after any requests served from a store of well-formed
    documents, [my_courses] answers the stored courses to which an
    enrollment of the caller points and no others, in the order of the
    course collection, with [_id] as a string; it writes nothing. *)
Theorem main_my_courses_are_the_enrolled (sha : string -> string)
    (trace : list (env * Main.request)) (db0 : DB) (user : dict) (sid : string) :
  well_shaped main_shape db0 ->
  get "_id" user = Some (VStr sid) ->
  let db := Main.run sha trace db0 in
  exists keep,
    Main.my_courses user db = (Ret (map stringify_id (filter keep (course db))), db)
    /\ (forall c, In c (course db) ->
          (keep c = true <-> enrolled_in (VStr sid) (doc_id c) db)).
Proof.
  intros H0 Hid db. pose proof (main_run_well_shaped sha trace db0 H0) as Hdb. fold db in Hdb.
  unfold Main.my_courses, getitem. rewrite Hid.
  unfold bind at 1, ret at 1. unfold bind at 1, Mongo.find at 1. unfold bind at 1.
  change (coll Enrollment db) with (enrollment db).
  set (enrolls := Mongo.find_docs [("student_id", Is (VStr sid))] (enrollment db)).
  destruct (mapM_ret _ _
              (fun en => cid <- doc_getitem "course_id" en ;; Main.to_object_id_value cid)
              enrolled_course enrolls db) as (ids & Hids & Hmap).
  { intros en Hen. apply in_find_docs in Hen. destruct Hen as [Hen _].
    destruct (enrolled_course_shape main_shape db en main_shape_enrollment Hdb Hen)
      as (s & o & Hs & Ho & He).
    exists o. split; [exact He |].
    unfold doc_getitem, doc_get, bind, ret. cbn [String.eqb Ascii.eqb Bool.eqb].
    rewrite Hs. unfold Main.to_object_id_value, Main.to_object_id. now rewrite Ho. }
  rewrite Hids.
  assert (Hin : forall o, In o ids <-> enrolled_in (VStr sid) o db).
  { intro o. rewrite (in_map_some _ _ enrolled_course enrolls ids o Hmap). split.
    - intros (en & Hen & He). apply in_find_docs in Hen. destruct Hen as [Hen Hm].
      apply matches_student in Hm. now exists en.
    - intros (en & Hen & Hs & He). exists en. split; [| exact He].
      apply in_find_docs. split; [exact Hen | now apply matches_student]. }
  exists (matches [("_id", InOids ids)]). split.
  - destruct ids as [| o ids'] eqn:E.
    + unfold bind, ret. f_equal. f_equal.
      assert (Hnone : filter (matches [("_id", InOids [])]) (course db) = []).
      { induction (course db) as [| c l IH]; [reflexivity |]. simpl. exact IH. }
      now rewrite Hnone.
    + reflexivity.
  - intros c _. rewrite matches_in_oids. apply Hin.
Qed.

Lemma sample_main_db2_well_shaped : well_shaped main_shape Sample.main_db2.
Proof.
  intros c d Hd. destruct c; cbn in Hd;
    repeat (destruct Hd as [<- | Hd]; [reflexivity |]); destruct Hd.
Qed.

Lemma main_my_courses_are_the_enrolled_witness :
  exists keep,
    Main.my_courses Sample.main_alice_view (Main.run (fun s => s) [] Sample.main_db2)
    = (Ret (map stringify_id
              (filter keep (course (Main.run (fun s => s) [] Sample.main_db2)))),
       Main.run (fun s => s) [] Sample.main_db2).
Proof.
  destruct (main_my_courses_are_the_enrolled (fun s => s) [] Sample.main_db2
              Sample.main_alice_view "000000000000000000000000"
              sample_main_db2_well_shaped eq_refl) as (keep & E & _).
  exists keep. exact E.
Defined.

Lemma in_somes A (a : A) l : In a (Backend.somes l) <-> In (Some a) l.
Proof.
  induction l as [| [x |] l IH]; simpl; [tauto | |].
  - rewrite IH. split; intros [H | H]; auto; left; congruence.
  - rewrite IH. split; [auto | intros [H | H]; [discriminate | assumption]].
Qed.

(** In [backend/main.py], after any requests served from a store of
    well-formed documents, [my_courses] answers, with [_id] as a string,
    only stored courses to which an enrollment of the caller points, and it
    answers every such course; it writes nothing. *)
Theorem backend_my_courses_are_the_enrolled (trace : list (env * Backend.request))
    (db0 : DB) (user : dict) (sid : string) :
  well_shaped backend_shape db0 ->
  get "_id" user = Some (VStr sid) ->
  let db := Backend.run trace db0 in
  exists cs,
    Backend.my_courses user db = (Ret (map Backend.to_dict cs), db)
    /\ (forall c, In c cs -> In c (course db) /\ enrolled_in (VStr sid) (doc_id c) db)
    /\ (forall c, In c (course db) -> enrolled_in (VStr sid) (doc_id c) db ->
          exists c', In c' cs /\ doc_id c' = doc_id c).
Proof.
  intros H0 Hid db. pose proof (backend_run_well_shaped trace db0 H0) as Hdb. fold db in Hdb.
  unfold Backend.my_courses, getitem. rewrite Hid.
  unfold bind at 1, ret at 1. unfold bind at 1, Mongo.find at 1. unfold bind at 1.
  change (coll Enrollment db) with (enrollment db).
  set (enrolls := Mongo.find_docs [("student_id", Is (VStr sid))] (enrollment db)).
  assert (Henr : forall en, In en enrolls <->
                   In en (enrollment db) /\ get "student_id" (doc_fields en) = Some (VStr sid)).
  { intro en. unfold enrolls. rewrite in_find_docs, matches_student. tauto. }
  destruct (mapM_ret _ _ (doc_getitem "course_id")
              (fun en => get "course_id" (doc_fields en)) enrolls db) as (cids & Hcids & Hmap1).
  { intros en Hen. apply Henr in Hen. destruct Hen as [Hen _].
    destruct (enrolled_course_shape backend_shape db en backend_shape_enrollment Hdb Hen)
      as (s & o & Hs & _).
    exists (VStr s). split; [exact Hs |].
    unfold doc_getitem, doc_get. cbn [String.eqb Ascii.eqb Bool.eqb]. now rewrite Hs. }
  rewrite Hcids.
  set (look := fun cid =>
         match cid with
         | VStr s => match Bson.ObjectId s with
                     | Some o => Some (Mongo.first_doc [("_id", Is (VOid o))] (course db))
                     | None => None
                     end
         | _ => None
         end).
  assert (Hcid : forall cid, In cid cids ->
                   exists en s o, In en enrolls /\ get "course_id" (doc_fields en) = Some (VStr s)
                                  /\ cid = VStr s /\ Bson.ObjectId s = Some o).
  { intros cid Hc. apply (in_map_some _ _ _ enrolls cids cid Hmap1) in Hc.
    destruct Hc as (en & Hen & Hg). pose proof Hen as Hen'. apply Henr in Hen'.
    destruct (enrolled_course_shape backend_shape db en backend_shape_enrollment Hdb
                (proj1 Hen')) as (s & o & Hs & Ho & _).
    exists en, s, o. repeat split; try assumption. congruence. }
  destruct (mapM_ret _ _ Backend.find_course look cids db) as (found & Hfound & Hmap2).
  { intros cid Hc. destruct (Hcid cid Hc) as (en & s & o & _ & _ & -> & Ho).
    eexists. unfold look. rewrite Ho. split; [reflexivity |].
    unfold Backend.find_course, Backend.ObjectId, bind, Mongo.find_one. now rewrite Ho. }
  unfold bind. rewrite Hfound. exists (Backend.somes found). split; [reflexivity |]. split.
  - intros c Hc. apply in_somes in Hc.
    apply (in_map_some _ _ look cids found (Some c) Hmap2) in Hc.
    destruct Hc as (cid & Hc & Hl). destruct (Hcid cid Hc) as (en & s & o & Hen & Hs & -> & Ho).
    unfold look in Hl. rewrite Ho in Hl. injection Hl as Hl.
    apply first_doc_id_some in Hl. destruct Hl as [Hin Hdoc]. split; [exact Hin |].
    apply Henr in Hen. exists en. repeat split; try tauto.
    unfold enrolled_course. rewrite Hs, Ho. now subst.
  - intros c Hc (en & Hen & Hs & He).
    destruct (enrolled_course_shape backend_shape db en backend_shape_enrollment Hdb Hen)
      as (s & o & Hcourse & Ho & He').
    assert (o = doc_id c) by congruence. subst o.
    assert (Hin : In (VStr s) cids).
    { apply (in_map_some _ _ _ enrolls cids (VStr s) Hmap1). exists en.
      split; [apply Henr; tauto | exact Hcourse]. }
    destruct (Mongo.first_doc [("_id", Is (VOid (doc_id c)))] (course db)) as [c' |] eqn:E.
    + exists c'. split; [| now apply first_doc_id_some in E].
      apply in_somes. apply (in_map_some _ _ look cids found (Some c') Hmap2).
      exists (VStr s). split; [exact Hin |]. unfold look. now rewrite Ho, E.
    + exfalso. pose proof (first_doc_none _ _ E c Hc) as Hm. rewrite matches_id in Hm.
      now rewrite String.eqb_refl in Hm.
Qed.

Lemma backend_my_courses_are_the_enrolled_witness :
  exists cs,
    Backend.my_courses (Backend.to_dict Sample.backend_alice_doc) Sample.backend_db3
    = (Ret (map Backend.to_dict cs), Sample.backend_db3).
Proof.
  destruct (backend_my_courses_are_the_enrolled Sample.backend_enroll_trace empty_db
              (Backend.to_dict Sample.backend_alice_doc) "000000000000000000000000"
              (well_shaped_empty backend_shape) eq_refl) as (cs & E & _).
  exists cs. exact E.
Defined.

(** ** The dashboard against the listings *)

Lemma mapM_forall2 A B (R : A -> B -> Prop) (f : A -> M B) l db :
  (forall a, In a l -> exists b, f a db = (Ret b, db) /\ R a b) ->
  exists bs, mapM f l db = (Ret bs, db) /\ Forall2 R l bs.
Proof.
  induction l as [| a l IH]; intro H; simpl.
  - exists []. split; [reflexivity | constructor].
  - destruct (H a (or_introl eq_refl)) as (b & Hb & HR).
    destruct IH as (bs & Hbs & HF); [intros x Hx; apply H; now right |].
    exists (b :: bs). unfold bind. rewrite Hb, Hbs. split; [reflexivity | now constructor].
Qed.




Lemma mapM_map A B (f : A -> M B) (g : A -> B) l db :
  (forall a, In a l -> f a db = (Ret (g a), db)) -> mapM f l db = (Ret (map g l), db).
Proof.
  induction l as [| a l IH]; intro H; simpl; [reflexivity |].
  unfold bind. rewrite (H a (or_introl eq_refl)), IH; [reflexivity |].
  intros x Hx. apply H. now right.
Qed.

Lemma mapM_of_map A B C (f : B -> M C) (g : A -> B) l :
  mapM f (map g l) = mapM (fun a => f (g a)) l.
Proof. induction l as [| a l IH]; simpl; [reflexivity | now rewrite IH]. Qed.

(** In [backend/main.py], after any requests served from a store of
    well-formed documents, the dashboard of a caller holds one progress
    entry per course [my_courses] answers, in the same order.  Each entry
    belongs to an enrollment of the caller whose course exists, and counts
    the records [list_attendance] answers for the [course_id] of that
    enrollment.  It writes nothing. *)
Theorem backend_dashboard_agrees_with_listings (trace : list (env * Backend.request))
    (db0 : DB) (user : dict) (sid : string) :
  well_shaped backend_shape db0 ->
  get "_id" user = Some (VStr sid) ->
  let db := Backend.run trace db0 in
  exists progress,
    Backend.dashboard user db = (Ret (RDashboard None None progress), db)
    /\ Backend.my_courses user db = (Ret (map progress_course progress), db)
    /\ forall p, In p progress ->
         exists en cid c records,
           In en (enrollment db)
           /\ get "student_id" (doc_fields en) = Some (VStr sid)
           /\ get "course_id" (doc_fields en) = Some (VStr cid)
           /\ In c (course db) /\ Bson.ObjectId cid = Some (doc_id c)
           /\ progress_course p = Backend.to_dict c
           /\ Backend.list_attendance cid user db = (Ret records, db)
           /\ attendance_records p = List.length records.
Proof.
  intros H0 Hid db. pose proof (backend_run_well_shaped trace db0 H0) as Hdb. fold db in Hdb.
  set (enrolls := Mongo.find_docs [("student_id", Is (VStr sid))] (enrollment db)).
  assert (Henr : forall en, In en enrolls ->
                   In en (enrollment db) /\ get "student_id" (doc_fields en) = Some (VStr sid)).
  { intro en. unfold enrolls. rewrite in_find_docs, matches_student. tauto. }
  set (course_for := fun en =>
         match enrolled_course en with
         | Some o => Mongo.first_doc [("_id", Is (VOid o))] (course db)
         | None => None
         end).
  set (cid_of := fun en : doc =>
         match get "course_id" (doc_fields en) with Some v => v | None => VNull end).
  set (mine := fun cid => [("student_id", Is (VStr sid)); ("course_id", Is (VStr cid))]).
  set (R := fun (en : doc) (po : option progress_entry) =>
         match course_for en with
         | None => po = None
         | Some c =>
             exists p cid,
               po = Some p /\ get "course_id" (doc_fields en) = Some (VStr cid)
               /\ Bson.ObjectId cid = Some (doc_id c) /\ In c (course db)
               /\ progress_course p = Backend.to_dict c
               /\ attendance_records p
                  = List.length (Mongo.find_docs (mine cid) (coll Attendance db))
         end).
  assert (Hshape : forall en, In en enrolls ->
            exists s o, get "course_id" (doc_fields en) = Some (VStr s)
                        /\ Bson.ObjectId s = Some o /\ enrolled_course en = Some o).
  { intros en Hen. apply Henr in Hen.
    exact (enrolled_course_shape backend_shape db en backend_shape_enrollment Hdb (proj1 Hen)). }
  destruct (mapM_forall2 _ _ R (Backend.enrollment_progress (VStr sid)) enrolls db)
    as (pos & Hpos & HF).
  { intros en Hen. destruct (Hshape en Hen) as (s & o & Hs & Ho & He).
    unfold Backend.enrollment_progress, doc_getitem, doc_get.
    cbn [String.eqb Ascii.eqb Bool.eqb]. rewrite Hs.
    unfold bind at 1, ret at 1. unfold bind at 1.
    unfold Backend.find_course, Backend.ObjectId. rewrite Ho.
    unfold bind at 1, ret at 1, Mongo.find_one.
    change (coll Course db) with (course db).
    unfold R, course_for. rewrite He.
    destruct (Mongo.first_doc [("_id", Is (VOid o))] (course db)) as [c |] eqn:E.
    - unfold bind, Mongo.count_documents, Mongo.find.
      destruct (backend_average_total
                  (Mongo.find_docs [("student_id", Is (VStr sid)); ("course_id", Is (VStr s))]
                     (coll Grade db)) db) as [avg Havg].
      + intros g Hg. apply in_find_docs in Hg. destruct Hg as [Hg _].
        pose proof (Hdb Grade g Hg) as Hsg. unfold backend_shape in Hsg.
        apply andb_prop in Hsg. destruct Hsg as [_ Hsg]. apply andb_prop in Hsg. tauto.
      + rewrite Havg. eexists. split; [reflexivity |].
        apply first_doc_id_some in E. destruct E as [Hin <-].
        eexists. exists s. cbn. auto 10.
    - eexists. split; reflexivity. }
  exists (Backend.somes pos). split; [| split].
  - unfold Backend.dashboard, getitem. rewrite Hid.
    unfold bind at 1, ret at 1. unfold bind at 1, Mongo.find at 1. unfold bind at 1.
    change (coll Enrollment db) with (enrollment db). fold enrolls. now rewrite Hpos.
  - unfold Backend.my_courses, getitem. rewrite Hid.
    unfold bind at 1, ret at 1. unfold bind at 1, Mongo.find at 1. unfold bind at 1.
    change (coll Enrollment db) with (enrollment db). fold enrolls.
    rewrite (mapM_map _ _ (doc_getitem "course_id") cid_of enrolls db).
    2:{ intros en Hen. destruct (Hshape en Hen) as (s & o & Hs & _).
        unfold doc_getitem, doc_get, cid_of. cbn [String.eqb Ascii.eqb Bool.eqb].
        now rewrite Hs. }
    unfold bind at 1. rewrite mapM_of_map.
    rewrite (mapM_map _ _ (fun en => Backend.find_course (cid_of en)) course_for enrolls db).
    2:{ intros en Hen. destruct (Hshape en Hen) as (s & o & Hs & Ho & He).
        unfold cid_of, course_for. rewrite Hs, He.
        unfold Backend.find_course, Backend.ObjectId, bind, Mongo.find_one. now rewrite Ho. }
    unfold ret. f_equal. f_equal. clear Hpos.
    induction HF as [| en po ens pos' HR _ IH]; [reflexivity |].
    assert (IH' : map Backend.to_dict (Backend.somes (map course_for ens))
                  = map progress_course (Backend.somes pos')).
    { apply IH; intros; [apply Henr | apply Hshape]; now right. }
    unfold R in HR. simpl. destruct (course_for en) as [c |].
    + destruct HR as (p & cid & -> & _ & _ & _ & Hc & _). simpl. now rewrite Hc, IH'.
    + subst po. exact IH'.
  - intros p Hp. apply in_somes in Hp. clear Hpos.
    induction HF as [| en po ens pos' HR _ IH]; [destruct Hp |].
    destruct Hp as [-> | Hp].
    + unfold R in HR. destruct (course_for en) as [c |]; [| discriminate].
      destruct HR as (p' & cid & Hp' & Hs & Ho & Hin & Hc & Ha). injection Hp' as <-.
      destruct (Henr en (or_introl eq_refl)) as [Hen Hst].
      exists en, cid, c. eexists. repeat (split; [eassumption |]).
      unfold Backend.list_attendance, getitem. rewrite Hid.
      unfold bind, ret, Mongo.find_sorted. split; [reflexivity |].
      rewrite Ha, length_map. unfold mine.
      symmetry. apply Permutation_length, sort_desc_perm.
    + apply IH; try assumption; intros; [apply Henr | apply Hshape]; now right.
Qed.

Lemma backend_dashboard_agrees_with_listings_witness :
  exists progress,
    Backend.dashboard (Backend.to_dict Sample.backend_alice_doc) Sample.backend_db3
    = (Ret (RDashboard None None progress), Sample.backend_db3)
    /\ Backend.my_courses (Backend.to_dict Sample.backend_alice_doc) Sample.backend_db3
       = (Ret (map progress_course progress), Sample.backend_db3).
Proof.
  destruct (backend_dashboard_agrees_with_listings Sample.backend_enroll_trace empty_db
              (Backend.to_dict Sample.backend_alice_doc) "000000000000000000000000"
              (well_shaped_empty backend_shape) eq_refl) as (progress & E & H & _).
  exists progress. split; [exact E | exact H].
Defined.

(** ** A created course is listed *)






